(** * The Azure Blob backend of tigrisfs (core/backend_azblob.go)

    A shallow embedding of the Azure driver: error mapping, metadata
    normalisation, HeadBlob, ListBlobs, DeleteBlob(s), RenameBlob, CopyBlob,
    GetBlob, PutBlob and the multipart group, over an abstract Azure
    container client, followed by the properties of the driver. *)

From Stdlib Require Import ZArith NArith String Ascii List Bool Lia.
From Stdlib Require Import DecimalString DecimalN.
From stdpp Require Import base option list gmap strings sorting.

#[local] Set Warnings "-abstract-large-number".

Local Open Scope Z_scope.

(** ** Go strings

    A Go string is a sequence of bytes; [string] (a list of [ascii]) is that. *)
Module GoStrings.

(** [s[:len(s)-1]] *)
Definition drop_last (s : string) : string :=
  substring 0 (String.length s - 1) s.

(** [strings.HasSuffix]:
    [len(s) >= len(suffix) && s[len(s)-len(suffix):] == suffix]. *)
Definition HasSuffix (s suffix : string) : bool :=
  (String.length suffix <=? String.length s)%nat &&
  String.eqb
    (substring (String.length s - String.length suffix)
               (String.length suffix) s)
    suffix.

Definition is_upper (c : ascii) : bool :=
  ((65 <=? nat_of_ascii c) && (nat_of_ascii c <=? 90))%nat.

Definition lower_ascii (c : ascii) : ascii :=
  if is_upper c then ascii_of_nat (nat_of_ascii c + 32) else c.

(** [strings.ToLower], on the ASCII letters; bytes outside 'A'..'Z' are
    kept (metadata names and header names are ASCII). *)
Fixpoint ToLower (s : string) : string :=
  match s with
  | EmptyString => EmptyString
  | String c r => String (lower_ascii c) (ToLower r)
  end.

(** Modelled from the spec: [NilStr] is defined in another file of the
    package; it reads the string behind a [*string], [""] behind nil. *)
Definition NilStr (v : option string) : string :=
  match v with Some s => s | None => "" end.

(** Modelled from the spec: [PString] is defined in another file of the
    package; it returns a pointer to (a copy of) the string. *)
Definition PString (s : string) : option string := Some s.

End GoStrings.
Export GoStrings.

(** ** Errors

    The values of Go's [error] that the driver handles: a [syscall.Errno],
    an [azblob.StorageError] (service code and HTTP status of the response),
    or any other error. *)
Inductive Errno :=
| EACCES | EAGAIN | EBUSY | EEXIST | EINVAL | ENODEV | ENOENT | ENOSYS | ENOTSUP.

Record StorageError := {
  ServiceCode : string;     (* stgErr.ServiceCode() *)
  StatusCode : Z;           (* stgErr.Response().StatusCode *)
}.

Inductive error :=
| SyscallErrno (e : Errno)
| AzStorageError (se : StorageError)
| OtherError (msg : string).

#[global] Instance Errno_eq_dec : EqDecision Errno.
Proof. solve_decision. Defined.
#[global] Instance StorageError_eq_dec : EqDecision StorageError.
Proof. solve_decision. Defined.
#[global] Instance error_eq_dec : EqDecision error.
Proof. solve_decision. Defined.

(** [azblob.ServiceCode...] constants (type [ServiceCodeType], a string). *)
Module ServiceCodes.
Definition BlobAlreadyExists := "BlobAlreadyExists".
Definition BlobNotFound := "BlobNotFound".
Definition ContainerAlreadyExists := "ContainerAlreadyExists".
Definition ContainerBeingDeleted := "ContainerBeingDeleted".
Definition ContainerDisabled := "ContainerDisabled".
Definition ContainerNotFound := "ContainerNotFound".
Definition CopyAcrossAccountsNotSupported := "CopyAcrossAccountsNotSupported".
Definition SourceConditionNotMet := "SourceConditionNotMet".
Definition SystemInUse := "SystemInUse".
Definition TargetConditionNotMet := "TargetConditionNotMet".
Definition BlobBeingRehydrated := "BlobBeingRehydrated".
Definition BlobArchived := "BlobArchived".
Definition AccountBeingCreated := "AccountBeingCreated".
Definition AuthenticationFailed := "AuthenticationFailed".
Definition ConditionNotMet := "ConditionNotMet".
Definition InternalError := "InternalError".
Definition InvalidAuthenticationInfo := "InvalidAuthenticationInfo".
Definition OperationTimedOut := "OperationTimedOut".
Definition ResourceNotFound := "ResourceNotFound".
Definition ServerBusy := "ServerBusy".
(** the literal of the switch, "from Azurite emulator" *)
Definition AuthorizationFailure := "AuthorizationFailure".
End ServiceCodes.

(** The arms of [mapAZBError]'s switch on the service code, in source order. *)
Definition service_code_table : list (string * Errno) :=
  [ (ServiceCodes.BlobAlreadyExists, EACCES);
    (ServiceCodes.BlobNotFound, ENOENT);
    (ServiceCodes.ContainerAlreadyExists, EEXIST);
    (ServiceCodes.ContainerBeingDeleted, EAGAIN);
    (ServiceCodes.ContainerDisabled, EACCES);
    (ServiceCodes.ContainerNotFound, ENODEV);
    (ServiceCodes.CopyAcrossAccountsNotSupported, EINVAL);
    (ServiceCodes.SourceConditionNotMet, EINVAL);
    (ServiceCodes.SystemInUse, EAGAIN);
    (ServiceCodes.TargetConditionNotMet, EINVAL);
    (ServiceCodes.BlobBeingRehydrated, EAGAIN);
    (ServiceCodes.BlobArchived, EINVAL);
    (ServiceCodes.AccountBeingCreated, EAGAIN);
    (ServiceCodes.AuthenticationFailed, EACCES);
    (ServiceCodes.ConditionNotMet, EBUSY);
    (ServiceCodes.InternalError, EAGAIN);
    (ServiceCodes.InvalidAuthenticationInfo, EACCES);
    (ServiceCodes.OperationTimedOut, EAGAIN);
    (ServiceCodes.ResourceNotFound, ENOENT);
    (ServiceCodes.ServerBusy, EAGAIN);
    (ServiceCodes.AuthorizationFailure, EACCES) ].

(** The first arm of a switch whose case equals the scrutinee. *)
Fixpoint switch_case (code : string) (arms : list (string * Errno))
  : option Errno :=
  match arms with
  | [] => None
  | (c, e) :: rest => if String.eqb code c then Some e else switch_case code rest
  end.

Section MapError.

(** [mapHttpError] is defined in another file of the package; it is a
    parameter here: from an HTTP status to an error, or nil. *)
Variable mapHttpError : Z -> option error.

(** [mapAZBError]; [None] is Go's nil error. *)
Definition mapAZBError (err : option error) : option error :=
  match err with
  | None => None
  | Some (AzStorageError stgErr) =>
      match switch_case (ServiceCode stgErr) service_code_table with
      | Some e => Some (SyscallErrno e)
      | None =>
          match mapHttpError (StatusCode stgErr) with
          | Some err' => Some err'
          | None => Some (AzStorageError stgErr)
          end
      end
  | Some e => Some e
  end.

End MapError.

(** ** Constants of the driver *)
Definition AzuriteEndpoint := "http://127.0.0.1:8080/devstoreaccount1/".
Definition AzureDirBlobMetadataKey := "hdi_isfolder".
Definition AzureBlobMetaDataHeaderPrefix := "x-ms-meta-".

(** [azblob.CopyStatusPending] *)
Definition CopyStatusPending := "pending".

(** ** Integer conversions *)

(** [uint64(v)] of an [int64]. *)
Definition uint64_of_int64 (v : Z) : Z := v mod 2 ^ 64.

(** [int32(v)] of a [uint32]. *)
Definition int32_of_uint32 (v : Z) : Z :=
  if v <? 2 ^ 31 then v else v - 2 ^ 32.

(** [nilUint32] *)
Definition nilUint32 (v : option Z) : Z :=
  match v with
  | None => 0
  | Some v => v
  end.

(** ** Types of the backend interface (declared in another file of the
    package; the fields are the ones this driver reads and writes).

    A [*string] that may be nil is an [option string]; [Key] and [Prefix] are
    pointers this driver always sets, and are strings.  A [time.Time] is an
    integer.  A Go map that is nil is the empty map: it has no entry to range
    over, and the driver tests for nil before it writes to one. *)
Record BlobItemOutput := {
  Key : string;
  ETag : option string;
  LastModified : option Z;
  Size : Z;                                   (* uint64 *)
  StorageClass : option string;
  Metadata : gmap string (option string);     (* map[string]*string *)
}.

Record BlobPrefixOutput := { Prefix : string }.

Record HeadBlobOutput := {
  Item : BlobItemOutput;                      (* embedded BlobItemOutput *)
  ContentType : option string;
  IsDirBlob : bool;
}.

Record ListBlobsInput := {
  lb_Prefix : option string;
  lb_Delimiter : option string;
  lb_MaxKeys : option Z;                      (* *uint32 *)
  lb_ContinuationToken : option string;
  lb_StartAfter : option string;
}.

Record ListBlobsOutput := {
  Prefixes : list BlobPrefixOutput;
  Items : list BlobItemOutput;
  NextContinuationToken : option string;
  IsTruncated : bool;
}.

(** [&ListBlobsOutput{}]: nil slices, nil token, false. *)
Definition ListBlobsOutput_zero : ListBlobsOutput :=
  {| Prefixes := []; Items := []; NextContinuationToken := None;
     IsTruncated := false |}.

Record DeleteBlobOutput := {}.
Record DeleteBlobsOutput := {}.
Record RenameBlobInput := { rn_Source : string; rn_Destination : string }.
Record RenameBlobOutput := {}.

Record CopyBlobInput := {
  cp_Source : string;
  cp_Destination : string;
  cp_Metadata : gmap string (option string);
}.
Record CopyBlobOutput := {}.

Record GetBlobInput := {
  gb_Key : string;
  gb_Start : Z;
  gb_Count : Z;
  gb_IfMatch : option string;
}.

Record GetBlobOutput := {
  gb_Head : HeadBlobOutput;                   (* embedded HeadBlobOutput *)
  gb_Body : string;
}.

Record PutBlobInput := {
  pb_Key : string;
  pb_Metadata : gmap string (option string);
  pb_ContentType : option string;
  pb_DirBlob : bool;
  pb_Body : option string;                    (* io.ReadSeeker, nil or bytes *)
}.

Record PutBlobOutput := {
  pb_ETag : option string;
  pb_LastModified : option Z;
}.

Record MultipartBlobBeginInput := {
  mb_Key : string;
  mb_Metadata : gmap string (option string);
}.

Record MultipartBlobCommitInput := {
  mc_Key : string;                            (* *string, set by Begin *)
  mc_Metadata : gmap string (option string);
  mc_UploadId : string;                       (* *string, set by Begin *)
  mc_Parts : list (option string);            (* []*string *)
  mc_NumParts : N;                            (* uint32 *)
}.

Record MultipartBlobAddInput := {
  ma_Commit : MultipartBlobCommitInput;
  ma_PartNumber : N;                          (* uint32 *)
  ma_Body : option string;
}.
Record MultipartBlobAddOutput := { ma_PartId : string }.

Record MultipartBlobCopyInput := {
  my_Commit : MultipartBlobCommitInput;
  my_PartNumber : N;
  my_CopySource : string;
  my_Offset : Z;
  my_Size : Z;
}.
Record MultipartBlobCopyOutput := { my_PartId : string }.

Record MultipartBlobCommitOutput := {
  mc_ETag : option string;
  mc_LastModified : option Z;
}.

(** ** The azblob SDK: responses and requests *)
Record BlobGetPropertiesResponse := {
  gp_ETag : string;
  gp_LastModified : Z;
  gp_ContentLength : Z;                       (* int64 *)
  gp_AccessTier : string;
  gp_ContentType : string;
  gp_NewMetadata : gmap string string;        (* resp.NewMetadata() *)
  gp_CopyStatus : string;
  gp_CopyID : string;
}.

Record BlobProperties := {
  Etag : string;
  bp_LastModified : Z;
  ContentLength : option Z;                   (* *int64 *)
  AccessTier : string;
}.

Record BlobItemInternal := {
  Name : string;
  bi_Metadata : gmap string string;           (* azblob.Metadata *)
  Properties : BlobProperties;
}.

Record ListBlobsSegmentOptions := {
  opt_Prefix : string;
  opt_MaxResults : Z;                         (* int32 *)
  opt_Details_Metadata : bool;
}.

(** The part of a list response the driver reads: the names of
    [Segment.BlobPrefixes], [Segment.BlobItems] and [NextMarker.Val]. *)
Record ListBlobsSegmentResponse := {
  BlobPrefixes : list string;
  BlobItems : list BlobItemInternal;
  NextMarker : option string;
}.

Record BlobStartCopyFromURLResponse := {
  sc_CopyStatus : string;
  sc_CopyID : string;
}.

Record DownloadResponse := {
  dl_ETag : string;
  dl_LastModified : Z;
  dl_ContentLength : Z;
  dl_ContentType : string;
  dl_NewMetadata : gmap string string;
  dl_Body : string;
}.

(** The response of [Upload] and of [CommitBlockList]. *)
Record BlockBlobResponse := {
  bb_ETag : string;
  bb_LastModified : Z;
}.

(** A [uuid.UUID]: sixteen bytes. *)
Definition UUID := list ascii.

(** The requests a call of the driver sends, and its sleeps, in order. *)
Inductive Request :=
| ReqGetProperties (blob : string)
| ReqListBlobsHierarchySegment (marker : option string) (delimiter : string)
    (o : ListBlobsSegmentOptions)
| ReqListBlobsFlatSegment (marker : option string) (o : ListBlobsSegmentOptions)
| ReqDelete (blob : string)
| ReqStartCopyFromURL (dest src : string) (metadata : gmap string string)
| ReqDownload (blob : string) (offset count : Z) (ifMatch : string)
| ReqUpload (blob : string) (body : string) (contentType : string)
    (metadata : gmap string string)
| ReqStageBlock (blob : string) (blockId : string) (body : option string)
| ReqStageBlockFromURL (blob : string) (blockId : string) (src : string)
    (offset size : Z)
| ReqCommitBlockList (blob : string) (parts : list string)
    (metadata : gmap string string)
| Sleep (ms : Z).

(** The container client [c] of the driver with what else a call takes from
    its environment, as transitions of a world [W]: the Azure service, the
    token state behind [refreshToken], the source of UUIDs.  An [error] on the
    right is the call's non-nil error. *)
Record AzureClient (W : Type) := {
  (* b.refreshToken(): its error, nil when it hands out the container URL *)
  az_refreshToken : W -> option error * W;
  az_GetProperties : string -> W -> (BlobGetPropertiesResponse + error) * W;
  az_ListBlobsHierarchySegment :
    option string -> string -> ListBlobsSegmentOptions -> W ->
    (ListBlobsSegmentResponse + error) * W;
  az_ListBlobsFlatSegment :
    option string -> ListBlobsSegmentOptions -> W ->
    (ListBlobsSegmentResponse + error) * W;
  az_Delete : string -> W -> option error * W;
  az_StartCopyFromURL :
    string -> string -> gmap string string -> W ->
    (BlobStartCopyFromURLResponse + error) * W;
  az_Download :
    string -> Z -> Z -> string -> W -> (DownloadResponse + error) * W;
  az_Upload :
    string -> string -> string -> gmap string string -> W ->
    (BlockBlobResponse + error) * W;
  az_StageBlock : string -> string -> option string -> W -> option error * W;
  (* the signed URL of a copy source under a shared key credential *)
  az_SignedURL : string -> W -> (string + error) * W;
  az_StageBlockFromURL :
    string -> string -> string -> Z -> Z -> W -> option error * W;
  az_CommitBlockList :
    string -> list string -> gmap string string -> W ->
    (BlockBlobResponse + error) * W;
  az_Sleep : Z -> W -> W;                     (* time.Sleep *)
  az_NewUUID : W -> UUID * W;                 (* uuid.New() *)
}.
Arguments az_refreshToken {W}.
Arguments az_GetProperties {W}.
Arguments az_ListBlobsHierarchySegment {W}.
Arguments az_ListBlobsFlatSegment {W}.
Arguments az_Delete {W}.
Arguments az_StartCopyFromURL {W}.
Arguments az_Download {W}.
Arguments az_Upload {W}.
Arguments az_StageBlock {W}.
Arguments az_SignedURL {W}.
Arguments az_StageBlockFromURL {W}.
Arguments az_CommitBlockList {W}.
Arguments az_Sleep {W}.
Arguments az_NewUUID {W}.

(** ** Calls as state transformers

    A call runs from a state (the world and the requests sent so far) to a
    value and a state, or panics.  A Go result [(v, err)] is a pair of
    options, nil being [None]. *)
Record St (W : Type) := { world : W; trace : list Request }.
Arguments world {W}.
Arguments trace {W}.

Inductive Res (W A : Type) :=
| Done (a : A) (s : St W)
| Panicked.
Arguments Done {W A}.
Arguments Panicked {W A}.

Definition M (W A : Type) : Type := St W -> Res W A.

Definition GoRet (A : Type) : Type := (option A * option error)%type.

Definition ret {W A} (a : A) : M W A := fun s => Done a s.

Definition bind {W A B} (m : M W A) (k : A -> M W B) : M W B :=
  fun s =>
    match m s with
    | Done a s' => k a s'
    | Panicked => Panicked
    end.

Definition panic {W A} : M W A := fun _ => Panicked.

Notation "x <- m ;; k" := (bind m (fun x => k))
  (at level 100, m at next level, right associativity,
   format "'[v' x  <-  m  ;;  '/' k ']'").
(** A transition of the world that is a request: it is logged. *)
Definition request {W A} (r : Request) (f : W -> A * W) : M W A :=
  fun s =>
    let (a, w) := f (world s) in
    Done a {| world := w; trace := trace s ++ [r] |}.

(** A transition of the world that is no request. *)
Definition local {W A} (f : W -> A * W) : M W A :=
  fun s =>
    let (a, w) := f (world s) in
    Done a {| world := w; trace := trace s |}.

(** ** Sorting

    Modelled from the spec: the [sort.Interface] wrappers [sortBlobItemOutput]
    and [sortBlobPrefixOutput] are declared in another file of the package;
    they order items by key and prefixes by prefix, ascending ("sorted in
    ascending alphabetical order of key"), which on Go strings is the
    byte-wise lexicographic order [<]. *)
Definition Less_string (a b : string) : bool := String.ltb a b.

Section Sort.
Context {A : Type} (key : A -> string).

(** [sort.IsSorted]: no element is [Less] than the one before it. *)
Fixpoint IsSorted (l : list A) : bool :=
  match l with
  | [] => true
  | x :: r =>
      match r with
      | [] => true
      | y :: _ => negb (Less_string (key y) (key x)) && IsSorted r
      end
  end.

Fixpoint sort_insert (x : A) (l : list A) : list A :=
  match l with
  | [] => [x]
  | y :: r =>
      if Less_string (key x) (key y) then x :: y :: r
      else y :: sort_insert x r
  end.

(** [sort.Sort]: a permutation in which no element is [Less] than the one
    before it.  The library leaves the order of elements with equal keys
    open; insertion after the equal keys is one such order. *)
Fixpoint Sort (l : list A) : list A :=
  match l with
  | [] => []
  | x :: r => sort_insert x (Sort r)
  end.

End Sort.

(** [sort.Search]: binary search for the least index in [0, n) at which [f]
    holds, [n] when there is none; the loop of the library, which halves
    [j - i] in each round, so that [n] rounds are enough. *)
Fixpoint Search_loop (rounds : nat) (f : nat -> bool) (i j : nat) : nat :=
  match rounds with
  | O => i
  | S rounds' =>
      if (i <? j)%nat then
        let h := ((i + j) / 2)%nat in
        if negb (f h) then Search_loop rounds' f (h + 1)%nat j
        else Search_loop rounds' f i h
      else i
  end.

Definition Search (n : nat) (f : nat -> bool) : nat := Search_loop n f 0%nat n.

(** The order of [sort.IsSorted], as a relation: [b] is not [Less] than
    [a]. *)
Definition str_le (a b : string) : Prop := Less_string b a = false.

(** A list of strings in ascending order. *)
Definition ascending (l : list string) : Prop := StronglySorted str_le l.

(** ** Metadata *)

(** The loop of [nilMetadata] over the entries of the map in the order the
    [range] visits them. *)
Definition nilMetadata_entries (entries : list (string * option string))
  : gmap string string :=
  foldl (fun metadata kv => <[ToLower (fst kv) := NilStr (snd kv)]> metadata)
        ∅ entries.

(** [nilMetadata].  Go leaves the order of a [range] over a map open;
    [map_to_list] is one order.  The order matters only when two keys of [m]
    have the same lower-case form. *)
Definition nilMetadata (m : gmap string (option string)) : gmap string string :=
  nilMetadata_entries (map_to_list m).

(** [PTime] *)
Definition PTime (t : Z) : option Z := Some t.

(** The driver itself, [b *AZBlob]: the fields of its configuration that the
    calls below read. *)
Record AZBlob := {
  config_Endpoint : string;                   (* b.config.Endpoint *)
  sasTokenProvider_nil : bool;                (* b.sasTokenProvider == nil *)
}.

Definition ok {A} (a : A) : GoRet A := (Some a, None).
Definition fail {A} (e : error) : GoRet A := (None, Some e).

(** ** Block ids: [uuid.UUID.String], [fmt.Sprintf], base64 *)

Definition hex_digit (n : nat) : ascii :=
  match String.get n "0123456789abcdef" with
  | Some c => c
  | None => "0"%char
  end.

(** [hex.Encode]: two lower-case digits for each byte. *)
Fixpoint hex_encode (src : list ascii) : string :=
  match src with
  | [] => ""
  | c :: rest =>
      String (hex_digit (nat_of_ascii c / 16))
        (String (hex_digit (nat_of_ascii c mod 16)) (hex_encode rest))
  end.

(** [UUID.String]: xxxxxxxx-xxxx-xxxx-xxxx-xxxxxxxxxxxx. *)
Definition UUID_String (u : UUID) : string :=
  hex_encode (take 4 u) +:+ "-" +:+
  hex_encode (take 2 (drop 4 u)) +:+ "-" +:+
  hex_encode (take 2 (drop 6 u)) +:+ "-" +:+
  hex_encode (take 2 (drop 8 u)) +:+ "-" +:+
  hex_encode (drop 10 u).

(** The decimal digits of an unsigned integer. *)
Definition decimal (n : N) : string := NilEmpty.string_of_uint (N.to_uint n).

Fixpoint zeros (k : nat) : string :=
  match k with
  | O => ""
  | S k' => String "0" (zeros k')
  end.

(** The verb [%05d] on an unsigned integer: its digits, padded with zeros on
    the left to a width of five. *)
Definition pad5 (n : N) : string :=
  zeros (5 - String.length (decimal n)) +:+ decimal n.

(** [fmt.Sprintf(format, n)] with one [uint32] operand, for formats made of
    plain text and the verb [%05d]: the first verb prints the operand, a
    later one has none left, and an operand no verb took is reported at the
    end.  Any other use of ['%'], which no upload id of this driver has, is
    copied as text. *)
Fixpoint Sprintf (format : string) (arg : option N) : string :=
  match format with
  | EmptyString =>
      match arg with
      | Some n => "%!(EXTRA uint32=" +:+ decimal n +:+ ")"
      | None => ""
      end
  | String "%" (String "0" (String "5" (String "d" rest))) =>
      match arg with
      | Some n => pad5 n
      | None => "%!d(MISSING)"
      end +:+ Sprintf rest None
  | String c rest => String c (Sprintf rest arg)
  end.

(** [base64.StdEncoding] *)
Definition encodeStd : string :=
  "ABCDEFGHIJKLMNOPQRSTUVWXYZabcdefghijklmnopqrstuvwxyz0123456789+/".

Definition enc (v : N) : ascii :=
  match String.get (N.to_nat v) encodeStd with
  | Some c => c
  | None => "="%char
  end.

(** [EncodeToString]: three bytes make four characters; a remainder of one
    or two bytes is padded with ['=']. *)
Fixpoint EncodeToString (src : list ascii) : string :=
  match src with
  | [] => ""
  | [a] =>
      let val := N.shiftl (N_of_ascii a) 16 in
      String (enc (N.land (N.shiftr val 18) 63))
        (String (enc (N.land (N.shiftr val 12) 63)) "==")
  | [a; b] =>
      let val := N.lor (N.shiftl (N_of_ascii a) 16)
                       (N.shiftl (N_of_ascii b) 8) in
      String (enc (N.land (N.shiftr val 18) 63))
        (String (enc (N.land (N.shiftr val 12) 63))
          (String (enc (N.land (N.shiftr val 6) 63)) "="))
  | a :: b :: c :: rest =>
      let val := N.lor (N.lor (N.shiftl (N_of_ascii a) 16)
                              (N.shiftl (N_of_ascii b) 8))
                       (N_of_ascii c) in
      String (enc (N.land (N.shiftr val 18) 63))
        (String (enc (N.land (N.shiftr val 12) 63))
          (String (enc (N.land (N.shiftr val 6) 63))
            (String (enc (N.land val 63)) (EncodeToString rest))))
  end.

(** The block id of a part: [base64(Sprintf(uploadId, partNumber))]. *)
Definition blockId_of (UploadId : string) (PartNumber : N) : string :=
  Sprintf UploadId (Some PartNumber).

Definition base64BlockId_of (UploadId : string) (PartNumber : N) : string :=
  EncodeToString (list_ascii_of_string (blockId_of UploadId PartNumber)).

(** The loop of [MultipartBlobCommit]: [parts[i] = *param.Parts[i]] for
    [i < NumParts]; [None] is the panic of an index out of range or of a nil
    part. *)
Fixpoint commit_parts (Parts : list (option string)) (i : nat) (count : nat)
  : option (list string) :=
  match count with
  | O => Some []
  | S count' =>
      match Parts !! i with
      | Some (Some part) =>
          match commit_parts Parts (S i) count' with
          | Some rest => Some (part :: rest)
          | None => None
          end
      | _ => None
      end
  end.

(** *** Definitions for the properties of block ids *)

Definition sextet_range : list N := map N.of_nat (seq 0 64).

(** The value that three bytes make. *)
Definition val3_of (a b c : ascii) : N :=
  N.lor (N.lor (N.shiftl (N_of_ascii a) 16) (N.shiftl (N_of_ascii b) 8))
        (N_of_ascii c).

(** A string without the byte ['%']. *)
Fixpoint no_verb (s : string) : Prop :=
  match s with
  | EmptyString => True
  | String c r => c <> "%"%char /\ no_verb r
  end.

(** Reading a padded number back. *)
Definition read_decimal (s : string) : option N :=
  option_map N.of_uint (NilEmpty.uint_of_string s).

(** ** The driver *)
Section Driver.
Context {W : Type}.
Variable az : AzureClient W.
Variable b : AZBlob.

(** [mapHttpError] and [PMetadata] are defined in other files of the
    package and are parameters: from an HTTP status to an error or nil, and
    from a [map[string]string] to a [map[string]*string]. *)
Variable mapHttpError : Z -> option error.
Variable PMetadata : gmap string string -> gmap string (option string).

Definition mapErr (e : error) : option error :=
  mapAZBError mapHttpError (Some e).

Definition refreshToken : M W (option error) := local (az_refreshToken az).

(** *** HeadBlob

    The body of [HeadBlob], with the call to itself on the key without its
    last byte as [HeadBlob']. *)
Definition HeadBlob_body (HeadBlob' : string -> M W (GoRet HeadBlobOutput))
    (Key : string) : M W (GoRet HeadBlobOutput) :=
  err <- refreshToken ;;
  match err with
  | Some e => ret (None, Some e)
  | None =>
      if HasSuffix Key "/" then
        r <- HeadBlob' (drop_last Key) ;;
        match r with
        | (Some dirBlob, None) =>
            if negb (IsDirBlob dirBlob)
            then
              (* we requested for a dir suffix, but this isn't one *)
              ret (Some dirBlob, Some (SyscallErrno ENOENT))
            else ret (Some dirBlob, None)
        | (None, None) => panic             (* dirBlob.IsDirBlob of nil *)
        | (dirBlob, Some e) => ret (dirBlob, Some e)
        end
      else
        resp <- request (ReqGetProperties Key) (az_GetProperties az Key) ;;
        match resp with
        | inr err => ret (None, mapErr err)
        | inl resp =>
            let metadata := gp_NewMetadata resp in
            let isDir := HasSuffix Key "/" in
            let isDir :=
              if negb isDir
              then bool_decide (is_Some (metadata !! AzureDirBlobMetadataKey))
              else isDir in
            (* don't expose this to user land *)
            let metadata := delete AzureDirBlobMetadataKey metadata in
            ret (ok {|
              Item := {|
                Key := Key;
                ETag := PString (gp_ETag resp);
                LastModified := PTime (gp_LastModified resp);
                Size := uint64_of_int64 (gp_ContentLength resp);
                StorageClass := PString (gp_AccessTier resp);
                Metadata := PMetadata metadata |};
              ContentType := PString (gp_ContentType resp);
              IsDirBlob := isDir |})
        end
  end.

(** The recursion of [HeadBlob] takes a byte off the key in each call; it
    is unrolled once for each byte of the key.  The innermost [HeadBlob'] is
    then never called ([HeadBlob_unfold]). *)
Fixpoint HeadBlob_depth (depth : nat) (Key : string)
  : M W (GoRet HeadBlobOutput) :=
  HeadBlob_body
    (match depth with
     | O => fun _ => panic
     | S depth' => HeadBlob_depth depth'
     end) Key.

Definition HeadBlob (Key : string) : M W (GoRet HeadBlobOutput) :=
  HeadBlob_depth (String.length Key) Key.

(** *** ListBlobs *)

(** The loop over [blobItems]; [None] is the panic of [*p.ContentLength] on
    a nil pointer. *)
Fixpoint ListBlobs_loop (hasDelimiter : bool) (blobItems : list BlobItemInternal)
    (prefixes : list BlobPrefixOutput) (items : list BlobItemOutput)
    (sortItems : bool)
  : option (list BlobPrefixOutput * list BlobItemOutput * bool) :=
  match blobItems with
  | [] => Some (prefixes, items, sortItems)
  | i :: rest =>
      let p := Properties i in
      let isDirBlob :=
        negb (String.eqb
                (default "" (bi_Metadata i !! AzureDirBlobMetadataKey)) "") in
      let i_Name := if isDirBlob then Name i +:+ "/" else Name i in
      if isDirBlob && hasDelimiter then
        (* do we already have such a prefix? *)
        let n := length prefixes in
        let at_ idx := Prefix (nth idx prefixes {| Prefix := "" |}) in
        let idx := Search n (fun idx => negb (Less_string (at_ idx) i_Name)) in
        let prefixes :=
          if (n <=? idx)%nat || negb (String.eqb (at_ idx) i_Name) then
            if (n <=? idx)%nat then prefixes ++ [{| Prefix := i_Name |}]
            else take idx prefixes ++ {| Prefix := i_Name |} :: drop idx prefixes
          else prefixes in
        ListBlobs_loop hasDelimiter rest prefixes items sortItems
      else
        let sortItems := if isDirBlob then true else sortItems in
        let pmeta :=
          delete AzureDirBlobMetadataKey (PMetadata (bi_Metadata i)) in
        match ContentLength p with
        | None => None
        | Some len =>
            ListBlobs_loop hasDelimiter rest prefixes
              (items ++ [{|
                 Key := i_Name;
                 ETag := PString (Etag p);
                 LastModified := PTime (bp_LastModified p);
                 Size := uint64_of_int64 len;
                 StorageClass := PString (AccessTier p);
                 Metadata := pmeta |}])
              sortItems
        end
  end.

(** The request of [ListBlobs] and what it keeps of the response:
    [prefixes], [items], [blobItems], [nextMarker]. *)
Definition ListBlobs_segment (param : ListBlobsInput)
    (options : ListBlobsSegmentOptions)
  : M W ((list BlobPrefixOutput * list BlobItemOutput *
          list BlobItemInternal * option string) + option error) :=
  let prefixes : list BlobPrefixOutput := [] in
  let items : list BlobItemOutput := [] in
  match lb_Delimiter param with
  | Some delimiter =>
      resp <- request
        (ReqListBlobsHierarchySegment (lb_ContinuationToken param)
           (NilStr (lb_Delimiter param)) options)
        (az_ListBlobsHierarchySegment az (lb_ContinuationToken param)
           (NilStr (lb_Delimiter param)) options) ;;
      match resp with
      | inr err => ret (inr (mapErr err))
      | inl resp =>
          let prefixes :=
            prefixes ++ map (fun name => {| Prefix := name |})
                            (BlobPrefixes resp) in
          let prefixes :=
            if String.eqb (config_Endpoint b) AzuriteEndpoint &&
               (* XXX in Azurite this is not sorted *)
               negb (IsSorted Prefix prefixes)
            then Sort Prefix prefixes else prefixes in
          ret (inl (prefixes, items, BlobItems resp, NextMarker resp))
      end
  | None =>
      resp <- request
        (ReqListBlobsFlatSegment (lb_ContinuationToken param) options)
        (az_ListBlobsFlatSegment az (lb_ContinuationToken param) options) ;;
      match resp with
      | inr err => ret (inr (mapErr err))
      | inl resp =>
          (* the slice sorted here is [items], which is still empty *)
          let items :=
            if String.eqb (config_Endpoint b) AzuriteEndpoint &&
               negb (IsSorted Key items)
            then Sort Key items else items in
          ret (inl (prefixes, items, BlobItems resp, NextMarker resp))
      end
  end.

Definition is_ENOENT (e : error) : bool :=
  bool_decide (e = SyscallErrno ENOENT).

Definition ListBlobs (param : ListBlobsInput) : M W (GoRet ListBlobsOutput) :=
  (* azure blob does not support startAfter *)
  match lb_StartAfter param with
  | Some _ => ret (fail (SyscallErrno ENOTSUP))
  | None =>
  err <- refreshToken ;;
  match err with
  | Some e => ret (None, Some e)
  | None =>
  let options := {|
    opt_Prefix := NilStr (lb_Prefix param);
    opt_MaxResults := int32_of_uint32 (nilUint32 (lb_MaxKeys param));
    opt_Details_Metadata := true |} in
  seg <- ListBlobs_segment param options ;;
  match seg with
  | inr err => ret (None, err)
  | inl (prefixes, items, blobItems, nextMarker) =>
  if (length blobItems =? 1)%nat &&
     (String.length (Name (nth 0 blobItems
        {| Name := ""; bi_Metadata := ∅;
           Properties := {| Etag := ""; bp_LastModified := 0;
                            ContentLength := None; AccessTier := "" |} |}))
      <=? String.length (opt_Prefix options))%nat &&
     HasSuffix (opt_Prefix options) "/"
  then
    (* the prefix we are listing is a blob: return empty response *)
    ret (ok ListBlobsOutput_zero)
  else
  match ListBlobs_loop (bool_decide (is_Some (lb_Delimiter param)))
          blobItems prefixes items false with
  | None => panic
  | Some (prefixes, items, sortItems) =>
  fill <-
    (if HasSuffix (opt_Prefix options) "/" then
       (* because azure doesn't use dir/ blobs, dir/ would not show up
          so we make another request to fill that in *)
       r <- HeadBlob (opt_Prefix options) ;;
       match r with
       | (Some dirBlob, None) =>
           let item := Item dirBlob in
           let item := {|
             Key := Key item +:+ "/";          (* *dirBlob.Key += "/" *)
             ETag := ETag item; LastModified := LastModified item;
             Size := Size item; StorageClass := StorageClass item;
             Metadata := Metadata item |} in
           ret (inl (items ++ [item], true))
       | (None, None) => panic
       | (_, Some err) =>
           if is_ENOENT err then ret (inl (items, sortItems))
           else ret (inr err)
       end
     else ret (inl (items, sortItems))) ;;
  match fill with
  | inr err => ret (None, Some err)
  | inl (items, sortItems) =>
  (* items are supposed to be alphabetical, but if there was a directory we
     would have changed the ordering *)
  let items := if sortItems then Sort Key items else items in
  let nextMarker :=
    match nextMarker with
    | Some marker => if String.eqb marker "" then None else Some marker
    | None => None
    end in
  ret (ok {|
    Prefixes := prefixes;
    Items := items;
    NextContinuationToken := nextMarker;
    IsTruncated := bool_decide (is_Some nextMarker) |})
  end end end end end.

(** *** DeleteBlob *)
Definition DeleteBlob_body (DeleteBlob' : string -> M W (GoRet DeleteBlobOutput))
    (Key : string) : M W (GoRet DeleteBlobOutput) :=
  err <- refreshToken ;;
  match err with
  | Some e => ret (None, Some e)
  | None =>
      if HasSuffix Key "/" then DeleteBlob' (drop_last Key)
      else
        err <- request (ReqDelete Key) (az_Delete az Key) ;;
        match err with
        | Some err => ret (None, mapErr err)
        | None => ret (ok Build_DeleteBlobOutput)
        end
  end.

Fixpoint DeleteBlob_depth (depth : nat) (Key : string)
  : M W (GoRet DeleteBlobOutput) :=
  DeleteBlob_body
    (match depth with
     | O => fun _ => panic
     | S depth' => DeleteBlob_depth depth'
     end) Key.

Definition DeleteBlob (Key : string) : M W (GoRet DeleteBlobOutput) :=
  DeleteBlob_depth (String.length Key) Key.

(** *** RenameBlob *)
Definition RenameBlob (param : RenameBlobInput) : M W (GoRet RenameBlobOutput) :=
  ret (None, Some (SyscallErrno ENOTSUP)).

(** *** CopyBlob *)

(** The polling loop of [CopyBlob]:
    [for cp, err = GetProperties(); err == nil; cp, err = GetProperties()],
    left by [break] when the copy is no longer pending or is another copy.
    The value is the [err] the loop ends with; [polls] bounds the number of
    polls, and [None] says that the loop is still going after that many. *)
Fixpoint CopyBlob_poll (polls : nat) (dest : string) (copyID : string)
  : M W (option (option error)) :=
  match polls with
  | O => ret None
  | S polls' =>
      r <- request (ReqGetProperties dest) (az_GetProperties az dest) ;;
      match r with
      | inr err => ret (Some (Some err))
      | inl cp =>
          (* if there's a new copy, we can only assume the last one was done *)
          if negb (String.eqb (gp_CopyStatus cp) CopyStatusPending) ||
             negb (String.eqb (gp_CopyID cp) copyID)
          then ret (Some None)
          else CopyBlob_poll polls' dest copyID
      end
  end.

Definition CopyBlob_body (polls : nat)
    (CopyBlob' : CopyBlobInput -> M W (option (GoRet CopyBlobOutput)))
    (param : CopyBlobInput) : M W (option (GoRet CopyBlobOutput)) :=
  if HasSuffix (cp_Source param) "/" && HasSuffix (cp_Destination param) "/"
  then
    CopyBlob' {| cp_Source := drop_last (cp_Source param);
                 cp_Destination := drop_last (cp_Destination param);
                 cp_Metadata := cp_Metadata param |}
  else
    err <- refreshToken ;;
    match err with
    | Some e => ret (Some (None, Some e))
    | None =>
        let src := cp_Source param in
        let dest := cp_Destination param in
        resp <- request
          (ReqStartCopyFromURL dest src (nilMetadata (cp_Metadata param)))
          (az_StartCopyFromURL az dest src (nilMetadata (cp_Metadata param))) ;;
        match resp with
        | inr err => ret (Some (None, mapErr err))
        | inl resp =>
            if String.eqb (sc_CopyStatus resp) CopyStatusPending then
              _ <- request (Sleep 50) (fun w => (tt, az_Sleep az 50 w)) ;;
              r <- CopyBlob_poll polls dest (sc_CopyID resp) ;;
              match r with
              | None => ret None
              | Some (Some err) => ret (Some (None, mapErr err))
              | Some None => ret (Some (ok Build_CopyBlobOutput))
              end
            else ret (Some (ok Build_CopyBlobOutput))
        end
    end.

Fixpoint CopyBlob_depth (polls : nat) (depth : nat) (param : CopyBlobInput)
  : M W (option (GoRet CopyBlobOutput)) :=
  CopyBlob_body polls
    (match depth with
     | O => fun _ => panic
     | S depth' => CopyBlob_depth polls depth'
     end) param.

(** [CopyBlob], with at most [polls] polls of the destination. *)
Definition CopyBlob (polls : nat) (param : CopyBlobInput)
  : M W (option (GoRet CopyBlobOutput)) :=
  CopyBlob_depth polls (String.length (cp_Source param)) param.

(** *** GetBlob *)
Definition GetBlob (param : GetBlobInput) : M W (GoRet GetBlobOutput) :=
  err <- refreshToken ;;
  match err with
  | Some e => ret (None, Some e)
  | None =>
      let ifMatch := match gb_IfMatch param with Some m => m | None => "" end in
      resp <- request
        (ReqDownload (gb_Key param) (gb_Start param) (gb_Count param) ifMatch)
        (az_Download az (gb_Key param) (gb_Start param) (gb_Count param)
           ifMatch) ;;
      match resp with
      | inr err => ret (None, mapErr err)
      | inl resp =>
          let metadata := PMetadata (dl_NewMetadata resp) in
          let metadata := delete AzureDirBlobMetadataKey metadata in
          ret (ok {|
            gb_Head := {|
              Item := {|
                Key := gb_Key param;
                ETag := PString (dl_ETag resp);
                LastModified := PTime (dl_LastModified resp);
                Size := uint64_of_int64 (dl_ContentLength resp);
                StorageClass := None;
                Metadata := metadata |};
              ContentType := PString (dl_ContentType resp);
              IsDirBlob := false |};
            gb_Body := dl_Body resp |})
      end
  end.

(** *** PutBlob *)
Definition PutBlob_body (PutBlob' : PutBlobInput -> M W (GoRet PutBlobOutput))
    (param : PutBlobInput) : M W (GoRet PutBlobOutput) :=
  err <- refreshToken ;;
  match err with
  | Some e => ret (None, Some e)
  | None =>
      if pb_DirBlob param && HasSuffix (pb_Key param) "/" then
        (* turn this into an empty blob with "hdi_isfolder" metadata *)
        PutBlob' {|
          pb_Key := drop_last (pb_Key param);
          pb_Metadata :=
            <[AzureDirBlobMetadataKey := PString "true"]> (pb_Metadata param);
          pb_ContentType := pb_ContentType param;
          pb_DirBlob := pb_DirBlob param;
          pb_Body := pb_Body param |}
      else
        let body := match pb_Body param with Some bytes => bytes | None => "" end in
        resp <- request
          (ReqUpload (pb_Key param) body (NilStr (pb_ContentType param))
             (nilMetadata (pb_Metadata param)))
          (az_Upload az (pb_Key param) body (NilStr (pb_ContentType param))
             (nilMetadata (pb_Metadata param))) ;;
        match resp with
        | inr err => ret (None, mapErr err)
        | inl resp =>
            ret (ok {| pb_ETag := PString (bb_ETag resp);
                       pb_LastModified := PTime (bb_LastModified resp) |})
        end
  end.

Fixpoint PutBlob_depth (depth : nat) (param : PutBlobInput)
  : M W (GoRet PutBlobOutput) :=
  PutBlob_body
    (match depth with
     | O => fun _ => panic
     | S depth' => PutBlob_depth depth'
     end) param.

Definition PutBlob (param : PutBlobInput) : M W (GoRet PutBlobOutput) :=
  PutBlob_depth (String.length (pb_Key param)) param.

(** *** Multipart uploads *)
Definition MultipartBlobBegin (param : MultipartBlobBeginInput)
  : M W (GoRet MultipartBlobCommitInput) :=
  (* we can have up to 50K parts, so %05d should be sufficient *)
  u <- local (az_NewUUID az) ;;
  let uploadId := UUID_String u +:+ "::%05d" in
  ret (ok {|
    mc_Key := mb_Key param;
    mc_Metadata := mb_Metadata param;
    mc_UploadId := uploadId;
    mc_Parts := replicate 50000 None;         (* at most 50K parts *)
    mc_NumParts := 0 |}).

Definition MultipartBlobAdd (param : MultipartBlobAddInput)
  : M W (GoRet MultipartBlobAddOutput) :=
  err <- refreshToken ;;
  match err with
  | Some e => ret (None, Some e)
  | None =>
      let blob := mc_Key (ma_Commit param) in
      let base64BlockId :=
        base64BlockId_of (mc_UploadId (ma_Commit param)) (ma_PartNumber param) in
      err <- request (ReqStageBlock blob base64BlockId (ma_Body param))
               (az_StageBlock az blob base64BlockId (ma_Body param)) ;;
      match err with
      | Some err => ret (None, mapErr err)
      | None => ret (ok {| ma_PartId := base64BlockId |})
      end
  end.

Definition MultipartBlobCopy (param : MultipartBlobCopyInput)
  : M W (GoRet MultipartBlobCopyOutput) :=
  err <- refreshToken ;;
  match err with
  | Some e => ret (None, Some e)
  | None =>
      let blob := mc_Key (my_Commit param) in
      let base64BlockId :=
        base64BlockId_of (mc_UploadId (my_Commit param)) (my_PartNumber param) in
      srcBlobURL <-
        (if sasTokenProvider_nil b
         then local (az_SignedURL az (my_CopySource param))
         else ret (inl (my_CopySource param))) ;;
      match srcBlobURL with
      | inr err => ret (None, Some err)
      | inl srcBlobURL =>
          err <- request
            (ReqStageBlockFromURL blob base64BlockId srcBlobURL
               (my_Offset param) (my_Size param))
            (az_StageBlockFromURL az blob base64BlockId srcBlobURL
               (my_Offset param) (my_Size param)) ;;
          match err with
          | Some err => ret (None, mapErr err)
          | None => ret (ok {| my_PartId := base64BlockId |})
          end
      end
  end.

Definition MultipartBlobCommit (param : MultipartBlobCommitInput)
  : M W (GoRet MultipartBlobCommitOutput) :=
  err <- refreshToken ;;
  match err with
  | Some e => ret (None, Some e)
  | None =>
      match commit_parts (mc_Parts param) 0 (N.to_nat (mc_NumParts param)) with
      | None => panic
      | Some parts =>
          resp <- request
            (ReqCommitBlockList (mc_Key param) parts
               (nilMetadata (mc_Metadata param)))
            (az_CommitBlockList az (mc_Key param) parts
               (nilMetadata (mc_Metadata param))) ;;
          match resp with
          | inr err => ret (None, mapErr err)
          | inl resp =>
              ret (ok {| mc_ETag := PString (bb_ETag resp);
                         mc_LastModified := PTime (bb_LastModified resp) |})
          end
      end
  end.

End Driver.

(** *** DeleteBlobs

    [DeleteBlobs] runs one goroutine for each key and waits for them.  Its
    runs are the interleavings of the steps of the main goroutine (the loop
    over [param.Items], the test of [deleteError] after each spawn, the
    deferred function) with the goroutines it has spawned.  A goroutine is
    one step: its [DeleteBlob], the write of [deleteError], the release of
    the gate and [wg.Done()]. *)
Inductive DeleteBlobs_pc :=
| AtLoop                                      (* for _, i := range param.Items *)
| AtCheck                                     (* if deleteError != nil *)
| AtWait                                      (* deferred: wg.Wait() *)
| Returned (ret : option DeleteBlobsOutput) (deleteError : option error).

Record DeleteBlobs_state (W : Type) := {
  db_pc : DeleteBlobs_pc;
  db_todo : list string;                      (* items the loop has not reached *)
  db_running : list string;                   (* goroutines not yet finished *)
  db_wg : nat;                                (* counter of the WaitGroup *)
  db_gate : nat;                              (* tokens held in SmallActionsGate *)
  db_deleteError : option error;
  db_st : St W;
  (* the per-key DeleteBlob calls that have returned, with their results *)
  db_finished : list (string * GoRet DeleteBlobOutput);
}.
Arguments db_pc {W}.
Arguments db_todo {W}.
Arguments db_running {W}.
Arguments db_wg {W}.
Arguments db_gate {W}.
Arguments db_deleteError {W}.
Arguments db_st {W}.
Arguments db_finished {W}.

Section DeleteBlobs.
Context {W : Type}.
Variable az : AzureClient W.
Variable mapHttpError : Z -> option error.

(** The capacity of the channel [SmallActionsGate] (declared in another file
    of the package) that is free for this call. *)
Variable gate_cap : nat.

Definition DeleteBlobs_init (Items : list string) (s : St W)
  : DeleteBlobs_state W :=
  {| db_pc := AtLoop; db_todo := Items; db_running := []; db_wg := 0;
     db_gate := 0; db_deleteError := None; db_st := s; db_finished := [] |}.

(** What a goroutine does with the error of its [DeleteBlob]:
    [err = mapAZBError(err); if err != syscall.ENOENT { deleteError = err }]. *)
Definition goroutine_deleteError (err : option error)
    (deleteError : option error) : option error :=
  match err with
  | None => deleteError
  | Some err =>
      match mapAZBError mapHttpError (Some err) with
      | Some err' => if is_ENOENT err' then deleteError else Some err'
      | None => deleteError
      end
  end.

Inductive DeleteBlobs_step : DeleteBlobs_state W -> DeleteBlobs_state W -> Prop :=
| step_spawn key todo running wg gate deleteError s finished :
    (* SmallActionsGate <- 1; wg.Add(1); go func(key) {...}(i) *)
    (gate < gate_cap)%nat ->
    DeleteBlobs_step
      {| db_pc := AtLoop; db_todo := key :: todo; db_running := running;
         db_wg := wg; db_gate := gate; db_deleteError := deleteError;
         db_st := s; db_finished := finished |}
      {| db_pc := AtCheck; db_todo := todo; db_running := key :: running;
         db_wg := S wg; db_gate := S gate; db_deleteError := deleteError;
         db_st := s; db_finished := finished |}
| step_check_error todo running wg gate err s finished :
    (* if deleteError != nil { return } *)
    DeleteBlobs_step
      {| db_pc := AtCheck; db_todo := todo; db_running := running;
         db_wg := wg; db_gate := gate; db_deleteError := Some err;
         db_st := s; db_finished := finished |}
      {| db_pc := AtWait; db_todo := todo; db_running := running;
         db_wg := wg; db_gate := gate; db_deleteError := Some err;
         db_st := s; db_finished := finished |}
| step_check_nil todo running wg gate s finished :
    DeleteBlobs_step
      {| db_pc := AtCheck; db_todo := todo; db_running := running;
         db_wg := wg; db_gate := gate; db_deleteError := None;
         db_st := s; db_finished := finished |}
      {| db_pc := AtLoop; db_todo := todo; db_running := running;
         db_wg := wg; db_gate := gate; db_deleteError := None;
         db_st := s; db_finished := finished |}
| step_loop_end running wg gate deleteError s finished :
    (* the range is over: return *)
    DeleteBlobs_step
      {| db_pc := AtLoop; db_todo := []; db_running := running;
         db_wg := wg; db_gate := gate; db_deleteError := deleteError;
         db_st := s; db_finished := finished |}
      {| db_pc := AtWait; db_todo := []; db_running := running;
         db_wg := wg; db_gate := gate; db_deleteError := deleteError;
         db_st := s; db_finished := finished |}
| step_goroutine pc todo before key after wg gate deleteError s finished r s' :
    (* _, err := b.DeleteBlob(&DeleteBlobInput{key}); ...;
       <-SmallActionsGate; wg.Done() *)
    DeleteBlob az mapHttpError key s = Done r s' ->
    DeleteBlobs_step
      {| db_pc := pc; db_todo := todo; db_running := before ++ key :: after;
         db_wg := wg; db_gate := gate; db_deleteError := deleteError;
         db_st := s; db_finished := finished |}
      {| db_pc := pc; db_todo := todo; db_running := before ++ after;
         db_wg := pred wg; db_gate := pred gate;
         db_deleteError := goroutine_deleteError (snd r) deleteError;
         db_st := s'; db_finished := finished ++ [(key, r)] |}
| step_return todo running gate deleteError s finished :
    (* wg.Wait() returns when the counter is zero;
       if deleteError != nil { ret = nil } else { ret = &DeleteBlobsOutput{} } *)
    DeleteBlobs_step
      {| db_pc := AtWait; db_todo := todo; db_running := running;
         db_wg := 0; db_gate := gate; db_deleteError := deleteError;
         db_st := s; db_finished := finished |}
      {| db_pc :=
           Returned
             (match deleteError with
              | Some _ => None
              | None => Some Build_DeleteBlobsOutput
              end) deleteError;
         db_todo := todo; db_running := running;
         db_wg := 0; db_gate := gate; db_deleteError := deleteError;
         db_st := s; db_finished := finished |}.

(** The runs of [DeleteBlobs(param)] from the state [s]. *)
Definition DeleteBlobs_reaches (Items : list string) (s : St W)
    (sigma : DeleteBlobs_state W) : Prop :=
  rtc DeleteBlobs_step (DeleteBlobs_init Items s) sigma.

(** A per-key result that [DeleteBlobs] tolerates: no error, or an error
    that [mapAZBError] maps to ENOENT. *)
Definition tolerated (r : GoRet DeleteBlobOutput) : Prop :=
  match snd r with
  | None => True
  | Some err => mapAZBError mapHttpError (Some err) = Some (SyscallErrno ENOENT)
  end.

(** What holds in every state of a run: the WaitGroup and the gate count
    the running goroutines; the items split into those spawned, which are
    running or finished, and those still to do; [deleteError] is nil exactly
    when every finished deletion was tolerated, and otherwise is the mapped
    error of a finished deletion that was not; the loop is left only at its
    end or on an error; and the call has returned only with no goroutine
    running, with [deleteError] and the output that goes with it. *)
Definition DeleteBlobs_inv (Items : list string) (sigma : DeleteBlobs_state W)
  : Prop :=
  db_wg sigma = length (db_running sigma) /\
  db_gate sigma = length (db_running sigma) /\
  (exists spawned,
     Items = spawned ++ db_todo sigma /\
     spawned ≡ₚ map fst (db_finished sigma) ++ db_running sigma) /\
  (db_deleteError sigma = None <->
   Forall (fun kr => tolerated (snd kr)) (db_finished sigma)) /\
  (forall e, db_deleteError sigma = Some e ->
     exists key r e0,
       (key, r) ∈ db_finished sigma /\ snd r = Some e0 /\
       mapAZBError mapHttpError (Some e0) = Some e /\
       e <> SyscallErrno ENOENT) /\
  match db_pc sigma with
  | AtLoop | AtCheck => True
  | AtWait => db_todo sigma = [] \/ db_deleteError sigma <> None
  | Returned ret err =>
      (db_todo sigma = [] \/ db_deleteError sigma <> None) /\
      db_running sigma = [] /\
      err = db_deleteError sigma /\
      ret = match db_deleteError sigma with
            | Some _ => None
            | None => Some Build_DeleteBlobsOutput
            end
  end.

(** A measure that every step makes smaller. *)
Definition DeleteBlobs_measure (sigma : DeleteBlobs_state W) : nat :=
  (4 * length (db_todo sigma) + length (db_running sigma) +
   match db_pc sigma with
   | AtCheck => 3
   | AtLoop => 2
   | AtWait => 1
   | Returned _ _ => 0
   end)%nat.

Definition DeleteBlobs_returned (sigma : DeleteBlobs_state W) : Prop :=
  match db_pc sigma with
  | Returned _ _ => True
  | _ => False
  end.

End DeleteBlobs.

(** *** The polls of [CopyBlob], one after the other *)
Section Polls.
Context {W : Type}.
Variable az : AzureClient W.
Variable dest : string.

(** The world before poll [k] of the destination (the polls are counted
    from 0) when the polling starts in the world [w]. *)
Fixpoint poll_world (k : nat) (w : W) : W :=
  match k with
  | O => w
  | S k' => poll_world k' (snd (az_GetProperties az dest w))
  end.

(** What poll [k] gets from the service. *)
Definition poll_answer (k : nat) (w : W) : BlobGetPropertiesResponse + error :=
  fst (az_GetProperties az dest (poll_world k w)).

(** The poll sees the copy [copyID] still pending. *)
Definition observes_pending (copyID : string)
    (r : BlobGetPropertiesResponse + error) : Prop :=
  match r with
  | inl cp => gp_CopyStatus cp = CopyStatusPending /\ gp_CopyID cp = copyID
  | inr _ => False
  end.

(** The poll sees a copy status other than pending, or another copy id. *)
Definition observes_done (copyID : string)
    (r : BlobGetPropertiesResponse + error) : Prop :=
  match r with
  | inl cp => gp_CopyStatus cp <> CopyStatusPending \/ gp_CopyID cp <> copyID
  | inr _ => False
  end.

End Polls.

(** *** The parts of a [ListBlobs] call, named for the properties *)
Section ListBlobsParts.
Context {W : Type}.
Variable az : AzureClient W.
Variable b : AZBlob.

(** The options of the list request. *)
Definition list_options (param : ListBlobsInput) : ListBlobsSegmentOptions :=
  {| opt_Prefix := NilStr (lb_Prefix param);
     opt_MaxResults := int32_of_uint32 (nilUint32 (lb_MaxKeys param));
     opt_Details_Metadata := true |}.

(** The list request: hierarchical when there is a delimiter, flat when
    there is none. *)
Definition list_request (param : ListBlobsInput) (w : W)
  : (ListBlobsSegmentResponse + error) * W :=
  match lb_Delimiter param with
  | Some _ =>
      az_ListBlobsHierarchySegment az (lb_ContinuationToken param)
        (NilStr (lb_Delimiter param)) (list_options param) w
  | None =>
      az_ListBlobsFlatSegment az (lb_ContinuationToken param)
        (list_options param) w
  end.

Definition list_request_sent (param : ListBlobsInput) : Request :=
  match lb_Delimiter param with
  | Some _ =>
      ReqListBlobsHierarchySegment (lb_ContinuationToken param)
        (NilStr (lb_Delimiter param)) (list_options param)
  | None =>
      ReqListBlobsFlatSegment (lb_ContinuationToken param) (list_options param)
  end.

(** The prefixes before the loop over the blob items. *)
Definition listed_prefixes (param : ListBlobsInput)
    (resp : ListBlobsSegmentResponse) : list BlobPrefixOutput :=
  match lb_Delimiter param with
  | Some _ =>
      let prefixes := map (fun name => {| Prefix := name |}) (BlobPrefixes resp) in
      if String.eqb (config_Endpoint b) AzuriteEndpoint &&
         negb (IsSorted Prefix prefixes)
      then Sort Prefix prefixes else prefixes
  | None => []
  end.

(** The test for "the prefix we are listing is a blob". *)
Definition lists_a_blob (param : ListBlobsInput)
    (resp : ListBlobsSegmentResponse) : bool :=
  match BlobItems resp with
  | [i] =>
      (String.length (Name i) <=? String.length (NilStr (lb_Prefix param)))%nat
      && HasSuffix (NilStr (lb_Prefix param)) "/"
  | _ => false
  end.

(** The item that [ListBlobs] makes of the directory blob of the prefix. *)
Definition dir_item (dirBlob : HeadBlobOutput) : BlobItemOutput :=
  {| Key := Key (Item dirBlob) +:+ "/";
     ETag := ETag (Item dirBlob);
     LastModified := LastModified (Item dirBlob);
     Size := Size (Item dirBlob);
     StorageClass := StorageClass (Item dirBlob);
     Metadata := Metadata (Item dirBlob) |}.

(** [nextMarker], an empty marker made nil. *)
Definition next_token (resp : ListBlobsSegmentResponse) : option string :=
  match NextMarker resp with
  | Some marker => if String.eqb marker "" then None else Some marker
  | None => None
  end.

End ListBlobsParts.

(** *** What the properties assume of the parts that are not in this file *)

(** All keys of a map are in lower case. *)
Definition lower_keys {V : Type} (m : gmap string V) : Prop :=
  forall k, is_Some (m !! k) -> ToLower k = k.

(** [PMetadata] makes its keys from the keys of its argument, as they are
    or in lower case. *)
Definition PMetadata_keys
    (PMetadata : gmap string string -> gmap string (option string)) : Prop :=
  forall m k, is_Some (PMetadata m !! k) ->
    exists k', is_Some (m !! k') /\ ToLower k' = ToLower k.

(** The SDK hands out the metadata of a blob, read from the headers of the
    response, under lower-case names ([NewMetadata]). *)
Definition lower_case_responses {W : Type} (az : AzureClient W) : Prop :=
  forall name w resp w',
    az_GetProperties az name w = (inl resp, w') ->
    lower_keys (gp_NewMetadata resp).

(** The output carries no directory marker in its metadata. *)
Definition hides_marker (item : BlobItemOutput) : Prop :=
  Metadata item !! AzureDirBlobMetadataKey = None.

(** *** Directory names, for the properties *)

(** The name under which the blob of a directory key is kept: the key
    without its trailing slashes, taken off one at a time as the calls of
    the driver on themselves do. *)
Fixpoint strip_slashes (rounds : nat) (Key : string) : string :=
  match rounds with
  | O => Key
  | S rounds' =>
      if HasSuffix Key "/" then strip_slashes rounds' (drop_last Key) else Key
  end.

Definition blob_name_of (Key : string) : string :=
  strip_slashes (String.length Key) Key.

(** The number of trailing slashes of a key. *)
Fixpoint count_slashes (rounds : nat) (Key : string) : nat :=
  match rounds with
  | O => O
  | S rounds' =>
      if HasSuffix Key "/" then S (count_slashes rounds' (drop_last Key)) else O
  end.

Definition trailing_slashes (Key : string) : nat :=
  count_slashes (String.length Key) Key.

(** [n] slashes. *)
Fixpoint slashes (n : nat) : string :=
  match n with
  | O => ""
  | S n' => slashes n' +:+ "/"
  end.

(** The world after [n] calls of [refreshToken] that all gave a token. *)
Fixpoint refreshed {W : Type} (az : AzureClient W) (n : nat) (w : W)
  : option W :=
  match n with
  | O => Some w
  | S n' =>
      match az_refreshToken az w with
      | (None, w') => refreshed az n' w'
      | (Some _, _) => None
      end
  end.

(** The output that [HeadBlob] makes of the properties of the blob [name]. *)
Definition head_output
    (PMetadata : gmap string string -> gmap string (option string))
    (name : string) (resp : BlobGetPropertiesResponse) : HeadBlobOutput :=
  {| Item := {|
       Key := name;
       ETag := PString (gp_ETag resp);
       LastModified := PTime (gp_LastModified resp);
       Size := uint64_of_int64 (gp_ContentLength resp);
       StorageClass := PString (gp_AccessTier resp);
       Metadata :=
         PMetadata (delete AzureDirBlobMetadataKey (gp_NewMetadata resp)) |};
     ContentType := PString (gp_ContentType resp);
     IsDirBlob :=
       bool_decide (is_Some (gp_NewMetadata resp !! AzureDirBlobMetadataKey)) |}.

(** The single upload of a [PutBlob]: its blob name, its metadata before
    [nilMetadata], the number of token refreshes before it, the request. *)
Definition put_name (param : PutBlobInput) : string :=
  if pb_DirBlob param then blob_name_of (pb_Key param) else pb_Key param.

Definition put_metadata (param : PutBlobInput) : gmap string (option string) :=
  if pb_DirBlob param && HasSuffix (pb_Key param) "/"
  then <[AzureDirBlobMetadataKey := PString "true"]> (pb_Metadata param)
  else pb_Metadata param.

Definition put_refreshes (param : PutBlobInput) : nat :=
  if pb_DirBlob param then S (trailing_slashes (pb_Key param)) else 1%nat.

Definition put_body (param : PutBlobInput) : string :=
  match pb_Body param with Some bytes => bytes | None => "" end.

Definition put_request (param : PutBlobInput) : Request :=
  ReqUpload (put_name param) (put_body param) (NilStr (pb_ContentType param))
    (nilMetadata (put_metadata param)).

(** No key of the map other than the marker key itself has the marker key
    as its lower-case form. *)
Definition no_marker_alias (m : gmap string (option string)) : Prop :=
  forall k, is_Some (m !! k) -> ToLower k = AzureDirBlobMetadataKey ->
            k = AzureDirBlobMetadataKey.

(** The metadata that a request carries. *)
Definition request_metadata (r : Request) : option (gmap string string) :=
  match r with
  | ReqStartCopyFromURL _ _ md => Some md
  | ReqUpload _ _ _ md => Some md
  | ReqCommitBlockList _ _ md => Some md
  | _ => None
  end.

Definition sends_lower_case (r : Request) : Prop :=
  forall md, request_metadata r = Some md -> lower_keys md.

(** ** A store to run the driver against

    An in-memory container: blobs by name, read after write; a copy started
    on it stays pending for a number of polls; listings are answered from a
    prepared response; the token never fails.  The examples below run the
    driver against it. *)
Module Store.

Record blob := {
  metadata : gmap string string;
  body : string;
  contentType : string;
  copyID : string;
  pendingPolls : nat;                         (* polls that still see "pending" *)
}.

Record service := {
  blobs : gmap string blob;
  listing : ListBlobsSegmentResponse;
}.

Definition not_found : error :=
  AzStorageError {| ServiceCode := ServiceCodes.BlobNotFound; StatusCode := 404 |}.

(** [NewMetadata] of the SDK: the metadata headers of a response, under
    their names in lower case. *)
Definition NewMetadata (headers : gmap string string) : gmap string string :=
  foldl (fun md kv => <[ToLower (fst kv) := snd kv]> md) ∅
        (map_to_list headers).

Definition properties (bl : blob) : BlobGetPropertiesResponse :=
  {| gp_ETag := "etag"; gp_LastModified := 0;
     gp_ContentLength := Z.of_nat (String.length (body bl));
     gp_AccessTier := "Hot"; gp_ContentType := contentType bl;
     gp_NewMetadata := NewMetadata (metadata bl);
     gp_CopyStatus :=
       match pendingPolls bl with O => "success" | S _ => CopyStatusPending end;
     gp_CopyID := copyID bl |}.

Definition with_blobs (w : service) (bs : gmap string blob) : service :=
  {| blobs := bs; listing := listing w |}.

Definition GetProperties (name : string) (w : service)
  : (BlobGetPropertiesResponse + error) * service :=
  match blobs w !! name with
  | None => (inr not_found, w)
  | Some bl =>
      (inl (properties bl),
       with_blobs w
         (<[name := {| metadata := metadata bl; body := body bl;
                       contentType := contentType bl; copyID := copyID bl;
                       pendingPolls := pred (pendingPolls bl) |}]> (blobs w)))
  end.

Definition Upload (name body contentType : string)
    (md : gmap string string) (w : service)
  : (BlockBlobResponse + error) * service :=
  (inl {| bb_ETag := "etag"; bb_LastModified := 0 |},
   with_blobs w
     (<[name := {| metadata := md; body := body; contentType := contentType;
                   copyID := ""; pendingPolls := 0 |}]> (blobs w))).

Definition Delete (name : string) (w : service) : option error * service :=
  match blobs w !! name with
  | None => (Some not_found, w)
  | Some _ => (None, with_blobs w (delete name (blobs w)))
  end.

Definition StartCopyFromURL (dest src : string) (md : gmap string string)
    (w : service) : (BlobStartCopyFromURLResponse + error) * service :=
  match blobs w !! src with
  | None => (inr not_found, w)
  | Some bl =>
      (inl {| sc_CopyStatus := CopyStatusPending; sc_CopyID := "copy-1" |},
       with_blobs w
         (<[dest := {| metadata := md; body := body bl;
                       contentType := contentType bl; copyID := "copy-1";
                       pendingPolls := 2 |}]> (blobs w)))
  end.

Definition Download (name : string) (offset count : Z) (ifMatch : string)
    (w : service) : (DownloadResponse + error) * service :=
  match blobs w !! name with
  | None => (inr not_found, w)
  | Some bl =>
      (inl {| dl_ETag := "etag"; dl_LastModified := 0;
              dl_ContentLength := Z.of_nat (String.length (body bl));
              dl_ContentType := contentType bl;
              dl_NewMetadata := NewMetadata (metadata bl);
              dl_Body := body bl |}, w)
  end.

Definition client : AzureClient service := {|
  az_refreshToken := fun w => (None, w);
  az_GetProperties := GetProperties;
  az_ListBlobsHierarchySegment := fun _ _ _ w => (inl (listing w), w);
  az_ListBlobsFlatSegment := fun _ _ w => (inl (listing w), w);
  az_Delete := Delete;
  az_StartCopyFromURL := StartCopyFromURL;
  az_Download := Download;
  az_Upload := Upload;
  az_StageBlock := fun _ _ _ w => (None, w);
  az_SignedURL := fun src w => (inl src, w);
  az_StageBlockFromURL := fun _ _ _ _ _ w => (None, w);
  az_CommitBlockList :=
    fun _ _ _ w => (inl {| bb_ETag := "etag"; bb_LastModified := 0 |}, w);
  az_Sleep := fun _ w => w;
  az_NewUUID := fun w => (list_ascii_of_string "0123456789abcdef", w);
|}.

(** A [mapHttpError] and a [PMetadata] to run with: statuses 404 and 403,
    and a pointer to each value. *)
Definition mapHttpError (status : Z) : option error :=
  if status =? 404 then Some (SyscallErrno ENOENT)
  else if status =? 403 then Some (SyscallErrno EACCES)
  else None.

Definition PMetadata (m : gmap string string) : gmap string (option string) :=
  Some <$> m.

Definition file (md : gmap string string) : blob :=
  {| metadata := md; body := "data"; contentType := "text/plain";
     copyID := ""; pendingPolls := 0 |}.

Definition no_listing : ListBlobsSegmentResponse :=
  {| BlobPrefixes := []; BlobItems := []; NextMarker := None |}.

Definition start (bs : gmap string blob) (l : ListBlobsSegmentResponse)
  : St service :=
  {| world := {| blobs := bs; listing := l |}; trace := [] |}.

Definition listed (name : string) (md : gmap string string) : BlobItemInternal :=
  {| Name := name; bi_Metadata := md;
     Properties := {| Etag := "etag"; bp_LastModified := 0;
                      ContentLength := Some 4; AccessTier := "Hot" |} |}.

(** Two drivers: one at the Azurite endpoint, one at an Azure endpoint. *)
Definition azurite : AZBlob :=
  {| config_Endpoint := AzuriteEndpoint; sasTokenProvider_nil := true |}.

Definition azure : AZBlob :=
  {| config_Endpoint := "https://account.blob.core.windows.net/";
     sasTokenProvider_nil := true |}.

Definition list_input (prefix delimiter : option string) : ListBlobsInput :=
  {| lb_Prefix := prefix; lb_Delimiter := delimiter; lb_MaxKeys := None;
     lb_ContinuationToken := None; lb_StartAfter := None |}.

Definition dir_marker : gmap string string :=
  {[ AzureDirBlobMetadataKey := "true" ]}.

End Store.


(** ** Proof automation *)

(** Splits the run [H : m s = Done r s'] of a call along its binds and
    matches, leaving the called functions folded. *)
Ltac exec_in H :=
  repeat (
    unfold bind, ret, panic, ok, fail in H;
    cbv beta iota zeta in H;
    try discriminate H;
    match type of H with
    | context [match ?x with _ => _ end] => destruct x eqn:?
    end);
  unfold bind, ret, panic, ok, fail in H;
  cbv beta iota zeta in H;
  try discriminate H.


(** * Further parts of the driver

    The calls around the ones above: [testBucket] and [Init], the token
    renewal behind [refreshToken], [NewAZBlob], the header fix of the HTTP
    sender, and definitions that the further properties are stated with. *)

(** ** Definitions for the further properties *)

(** The client [az] with another [refreshToken]. *)
Definition with_refreshToken {W : Type} (az : AzureClient W)
    (refresh : W -> option error * W) : AzureClient W :=
  {| az_refreshToken := refresh;
     az_GetProperties := az_GetProperties az;
     az_ListBlobsHierarchySegment := az_ListBlobsHierarchySegment az;
     az_ListBlobsFlatSegment := az_ListBlobsFlatSegment az;
     az_Delete := az_Delete az;
     az_StartCopyFromURL := az_StartCopyFromURL az;
     az_Download := az_Download az;
     az_Upload := az_Upload az;
     az_StageBlock := az_StageBlock az;
     az_SignedURL := az_SignedURL az;
     az_StageBlockFromURL := az_StageBlockFromURL az;
     az_CommitBlockList := az_CommitBlockList az;
     az_Sleep := az_Sleep az;
     az_NewUUID := az_NewUUID az |}.

(** A [mapHttpError] that gives errnos only, as the one of the package
    does. *)
Definition gives_no_storage_error (mapHttpError : Z -> option error) : Prop :=
  forall status e stgErr,
    mapHttpError status = Some e -> e <> AzStorageError stgErr.

(** [P] holds of the [count] numbers from [n] on. *)
Fixpoint all_from (count : nat) (n : N) (P : N -> bool) : bool :=
  match count with
  | O => true
  | S count' => P n && all_from count' (N.succ n) P
  end.

(** *** The blob items of a listing, for the properties *)

(** The test of the loop of [ListBlobs] for a directory blob:
    [i.Metadata[AzureDirBlobMetadataKey] != ""]. *)
Definition is_dir_blob (i : BlobItemInternal) : bool :=
  negb (String.eqb (default "" (bi_Metadata i !! AzureDirBlobMetadataKey)) "").

(** The key under which the loop puts a listed blob among the items; none
    for a directory blob of a listing with a delimiter, which goes to the
    prefixes. *)
Definition listed_key (hasDelimiter : bool) (i : BlobItemInternal)
  : option string :=
  if is_dir_blob i then
    if hasDelimiter then None else Some (Name i +:+ "/")
  else Some (Name i).

(** The prefix that the loop makes of a listed blob. *)
Definition merged_prefix (hasDelimiter : bool) (i : BlobItemInternal)
  : option string :=
  if is_dir_blob i && hasDelimiter then Some (Name i +:+ "/") else None.

(** A Go result that is an output with a nil error, or a nil output with
    an error. *)
Definition one_result {A : Type} (r : GoRet A) : Prop :=
  (exists out, r = (Some out, None)) \/ (exists e, r = (None, Some e)).

(** ** testBucket and Init *)
Section Probe.
Context {W : Type}.
Variable az : AzureClient W.
Variable mapHttpError : Z -> option error.
Variable PMetadata : gmap string string -> gmap string (option string).

(** [testBucket]: the error of a [HeadBlob] of the key, mapped once more;
    ENOENT is no error. *)
Definition testBucket (key : string) : M W (option error) :=
  r <- HeadBlob az mapHttpError PMetadata key ;;
  match snd r with
  | Some err =>
      match mapAZBError mapHttpError (Some err) with
      | Some err => if is_ENOENT err then ret None else ret (Some err)
      | None => ret None
      end
  | None => ret None
  end.

(** [Init] *)
Definition Init (key : string) : M W (option error) :=
  err <- refreshToken az ;;
  match err with
  | Some err => ret (Some err)
  | None => testBucket key
  end.

End Probe.

(** ** The SAS token: NewAZBlob, parseSasToken, updateToken, refreshToken

    The calls above take [refreshToken] as a transition of their world.
    Here it is as the driver has it, on the fields of [AZBlob] that it reads
    and writes, over an environment [E] that holds the clock and whatever
    the token provider works on. *)
Module Token.

(** A [time.Time] is a point on the time line, counted from the zero
    [Time]; a [time.Duration] is a difference of two. *)
Definition Time := Z.
Definition Before (t u : Time) : bool := t <? u.
Definition Add (t : Time) (d : Z) : Time := t + d.

(** [url.Values.Get]: the first value of the key, or the empty string. *)
Definition Values_Get (v : gmap string (list string)) (key : string) : string :=
  match v !! key with
  | Some (x :: _) => x
  | _ => ""
  end.

Record Capabilities := {
  MaxMultipartSize : Z;
  cap_Name : string;
}.

Section Token.
Context {E URL : Type}.

(** From the libraries: [time.Now().UTC()], [url.ParseQuery] (nil for its
    error), [time.Parse] by layout, [url.Parse], [TIME_MAX] (declared in
    another file of the package), [azblob.NewSharedKeyCredential] by its
    error. *)
Variable Now : E -> Time * E.
Variable ParseQuery : string -> option (gmap string (list string)).
Variable time_Parse : string -> string -> option Time.
Variable url_Parse : string -> URL + error.
Variable TIME_MAX : Time.
Variable NewSharedKeyCredential : string -> string -> option error.

(** [serviceURL.NewContainerURL(container)] *)
Record ContainerURL := {
  cu_service : URL;
  cu_container : string;
}.

(** [cfg.AZBlobConfig]; [SasToken] is the token provider, nil or a function
    that gives a token or an error. *)
Record AZBlobConfig := {
  Endpoint : string;
  AccountName : string;
  AccountKey : string;
  SasToken : option (E -> (string + error) * E);
  TokenRenewBuffer : Z;
}.

(** The fields of [AZBlob].  [renewing] stands for the goroutine that
    [refreshToken] starts: it is set while that goroutine holds
    [tokenRenewGate] and has its [updateToken] still to do. *)
Record AZBlob := {
  config : AZBlobConfig;
  cap : Capabilities;
  u : option URL;
  c : option ContainerURL;
  bucket : string;
  bareURL : string;
  sasTokenProvider : option (E -> (string + error) * E);
  tokenExpire : Time;
  tokenRenewBuffer : Z;
  renewing : bool;
}.

(** [NewAZBlob] *)
Definition NewAZBlob (container : string) (config : AZBlobConfig)
  : AZBlob + error :=
  let bareURL := Endpoint config in
  let made (bu : option URL) (bc : option ContainerURL) :=
    inl {| config := config;
           cap := {| MaxMultipartSize := 100 * 1024 * 1024;
                     cap_Name := "wasb" |};
           u := bu; c := bc;
           bucket := container;
           bareURL := bareURL;
           sasTokenProvider := SasToken config;
           tokenExpire := 0;
           tokenRenewBuffer := TokenRenewBuffer config;
           renewing := false |} in
  match SasToken config with
  | None =>
      match NewSharedKeyCredential (AccountName config) (AccountKey config) with
      | Some err =>
          (* fmt.Errorf("Unable to construct credential: %v", err); the
             text of [err] is not kept *)
          inr (OtherError "Unable to construct credential")
      | None =>
          match url_Parse bareURL with
          | inr err => inr err
          | inl u =>
              made (Some u)
                   (Some {| cu_service := u; cu_container := container |})
          end
      end
  | Some _ => made None None
  end.

(** [parseSasToken] *)
Definition parseSasToken (token : string) : Time :=
  match ParseQuery token with
  | None => TIME_MAX
  | Some parts =>
      let se := Values_Get parts "se" in
      if String.eqb se "" then TIME_MAX
      else
        match time_Parse "2006-01-02T15:04:05Z" se with
        | Some expire => expire
        | None =>
            (* sometimes they only have the date *)
            match time_Parse "2006-01-02" se with
            | Some expire => expire
            | None => TIME_MAX
            end
        end
  end.

(** [updateToken], for the provider [b.sasTokenProvider]. *)
Definition updateToken (b : AZBlob)
    (provider : E -> (string + error) * E) (env : E)
  : (option ContainerURL * option error) * AZBlob * E :=
  match provider env with
  | (inr _, env) => ((None, Some (SyscallErrno EACCES)), b, env)
  | (inl token, env) =>
      let expire := parseSasToken token in
      let sUrl := bareURL b +:+ "?" +:+ token in
      match url_Parse sUrl with
      | inr _ => ((None, Some (SyscallErrno EINVAL)), b, env)
      | inl serviceURL =>
          let containerURL :=
            {| cu_service := serviceURL; cu_container := bucket b |} in
          ((Some containerURL, None),
           {| config := config b; cap := cap b;
              u := Some serviceURL; c := Some containerURL;
              bucket := bucket b; bareURL := bareURL b;
              sasTokenProvider := sasTokenProvider b;
              tokenExpire := expire;
              tokenRenewBuffer := tokenRenewBuffer b;
              renewing := renewing b |},
           env)
      end
  end.

Definition with_renewing (b : AZBlob) (r : bool) : AZBlob :=
  {| config := config b; cap := cap b; u := u b; c := c b;
     bucket := bucket b; bareURL := bareURL b;
     sasTokenProvider := sasTokenProvider b;
     tokenExpire := tokenExpire b;
     tokenRenewBuffer := tokenRenewBuffer b;
     renewing := r |}.

(** The goroutine of [refreshToken]:
    [_, err := b.updateToken(); ...; <-b.tokenRenewGate]. *)
Definition renew_in_background (b : AZBlob)
    (provider : E -> (string + error) * E) (env : E) : AZBlob * E :=
  let '(_, b, env) := updateToken b provider env in
  (with_renewing b false, env).

(** [refreshToken], for a caller that no other call of [refreshToken] runs
    beside.  The goroutine of an earlier call may still be there; the send
    [b.tokenRenewGate <- 1] of an expired token then waits until that
    goroutine is through, and the [select] finds the gate taken. *)
Definition refreshToken (b : AZBlob) (env : E)
  : (option ContainerURL * option error) * AZBlob * E :=
  match sasTokenProvider b with
  | None => ((c b, None), b, env)
  | Some provider =>
      match c b with
      | None => updateToken b provider env
      | Some _ =>
          let (now, env) := Now env in
          if Before (tokenExpire b) now then
            (* our token totally expired, renew inline before using it *)
            let (b, env) :=
              if renewing b then renew_in_background b provider env
              else (b, env) in
            let (now, env) := Now env in
            (* check again, because in the mean time maybe it's renewed *)
            if Before (tokenExpire b) now then
              match updateToken b provider env with
              | ((_, Some _), b, env) =>
                  ((None, Some (SyscallErrno EACCES)), b, env)
              | ((_, None), b, env) => ((c b, None), b, env)
              end
            else
              (* another concurrent goroutine renewed it for us *)
              ((c b, None), b, env)
          else
            let (now, env) := Now env in
            if Before (Add (tokenExpire b) (tokenRenewBuffer b)) now then
              (* only allow one token renew at a time *)
              if renewing b then ((c b, None), b, env)
              else ((c b, None), with_renewing b true, env)
            else ((c b, None), b, env)
      end
  end.

End Token.

End Token.

(** An environment to run the token renewal in: a clock that gives the
    readings of a list one after the other, and a provider whose tokens
    carry no expiry. *)
Module Sas.

Definition Now (env : list Z) : Token.Time * list Z :=
  match env with
  | t :: rest => (t, rest)
  | [] => (0, [])
  end.

Definition ParseQuery (token : string) : option (gmap string (list string)) :=
  Some ∅.

Definition time_Parse (layout value : string) : option Token.Time := None.

Definition url_Parse (rawURL : string) : string + error := inl rawURL.

Definition TIME_MAX : Token.Time := 2 ^ 62.

Definition NewSharedKeyCredential (name key : string) : option error := None.

Definition provider (env : list Z) : (string + error) * list Z :=
  (inl "sig=abc", env).

Definition config (SasToken : option (list Z -> (string + error) * list Z))
  : Token.AZBlobConfig :=
  {| Token.Endpoint := "https://account.blob.core.windows.net/";
     Token.AccountName := "account"; Token.AccountKey := "key";
     Token.SasToken := SasToken; Token.TokenRenewBuffer := 900 |}.

(** A driver with a token that expires at the time 1000. *)
Definition renewed : Token.AZBlob :=
  {| Token.config := config (Some provider);
     Token.cap := {| Token.MaxMultipartSize := 100 * 1024 * 1024;
                     Token.cap_Name := "wasb" |};
     Token.u := Some "https://account.blob.core.windows.net/?sig=old";
     Token.c := Some {| Token.cu_service :=
                          "https://account.blob.core.windows.net/?sig=old";
                        Token.cu_container := "bucket" |};
     Token.bucket := "bucket";
     Token.bareURL := "https://account.blob.core.windows.net/";
     Token.sasTokenProvider := Some provider;
     Token.tokenExpire := 1000;
     Token.tokenRenewBuffer := 900;
     Token.renewing := false |}.

End Sas.

(** ** The HTTP sender: newAzBlobHTTPClientFactory

    Before it sends a request, the policy of [newAzBlobHTTPClientFactory]
    turns the names of the metadata headers into lower case. *)

(** [strings.Contains] *)
Fixpoint Contains (s substr : string) : bool :=
  if String.prefix substr s then true
  else
    match s with
    | EmptyString => false
    | String _ rest => Contains rest substr
    end.

(** The test of the loop on a header name: it is not in lower case, and in
    lower case it has the metadata prefix in it. *)
Definition is_upper_metadata_header (key : string) : bool :=
  negb (String.eqb (ToLower key) key) &&
  Contains (ToLower key) AzureBlobMetaDataHeaderPrefix.

(** The name under which the loop leaves a header. *)
Definition fixed_header_name (key : string) : string :=
  if is_upper_metadata_header key then ToLower key else key.

Section HTTPSender.

(** [textproto.CanonicalMIMEHeaderKey], from the library: [Header.Del]
    deletes the entry of the canonical form of its key. *)
Variable CanonicalMIMEHeaderKey : string -> string.

(** One round of [for key, value := range request.Header]: no round is
    made for an entry that was removed before the range came to it. *)
Definition fix_header (Header : gmap string (list string)) (key : string)
  : gmap string (list string) :=
  match Header !! key with
  | None => Header
  | Some value =>
      let keyLower := ToLower key in
      if negb (String.eqb keyLower key) &&
         Contains keyLower AzureBlobMetaDataHeaderPrefix
      then <[keyLower := value]> (delete (CanonicalMIMEHeaderKey key) Header)
      else Header
  end.

(** The loop, for the order in which the range comes to the names that the
    header has when the loop starts.  Go leaves that order open.  A name
    that the loop itself adds may get a round or not; such a name is in
    lower case, and its round would do nothing. *)
Definition fix_headers (order : list string)
    (Header : gmap string (list string)) : gmap string (list string) :=
  foldl fix_header Header order.

(** The orders of a range over the header. *)
Definition range_order (Header : gmap string (list string))
    (order : list string) : Prop :=
  NoDup order /\ forall key, key ∈ order <-> is_Some (Header !! key).

End HTTPSender.
(** * Properties *)

(** ** Strings *)
Section StringFacts.

Lemma lower_ascii_idem c : lower_ascii (lower_ascii c) = lower_ascii c.
Proof. destruct c as [[] [] [] [] [] [] [] []]; reflexivity. Qed.

Lemma ToLower_idem s : ToLower (ToLower s) = ToLower s.
Proof.
  induction s as [|c r IH]; simpl; [reflexivity|].
  now rewrite lower_ascii_idem, IH.
Qed.

Lemma lower_ascii_not_upper c : is_upper (lower_ascii c) = false.
Proof. destruct c as [[] [] [] [] [] [] [] []]; reflexivity. Qed.

Lemma append_nil_l (t : string) : "" +:+ t = t.
Proof. reflexivity. Qed.

Lemma append_cons c (s t : string) : String c s +:+ t = String c (s +:+ t).
Proof. reflexivity. Qed.

Lemma append_nil_r (s : string) : s +:+ "" = s.
Proof.
  induction s as [|c s IH]; [reflexivity|].
  rewrite append_cons. now rewrite IH.
Qed.

Lemma append_assoc (s t u : string) : (s +:+ t) +:+ u = s +:+ (t +:+ u).
Proof.
  induction s as [|c s IH]; [reflexivity|].
  rewrite !append_cons. now rewrite IH.
Qed.

Lemma substring_all s : substring 0 (String.length s) s = s.
Proof. induction s; simpl; congruence. Qed.

Lemma substring_0_app s t : substring 0 (String.length s) (s +:+ t) = s.
Proof.
  induction s as [|c s IH].
  - rewrite append_nil_l. destruct t; reflexivity.
  - rewrite append_cons. simpl. now rewrite IH.
Qed.

Lemma substring_skip_app s t n :
  substring (String.length s) n (s +:+ t) = substring 0 n t.
Proof.
  induction s as [|c s IH]; [reflexivity|].
  rewrite append_cons. simpl. apply IH.
Qed.

Lemma string_length_app s t :
  String.length (s +:+ t) = (String.length s + String.length t)%nat.
Proof.
  induction s as [|c s IH]; [reflexivity|].
  rewrite append_cons. simpl. now rewrite IH.
Qed.

Lemma HasSuffix_app s suf : HasSuffix (s +:+ suf) suf = true.
Proof.
  unfold HasSuffix. rewrite string_length_app.
  replace (String.length s + String.length suf - String.length suf)%nat
    with (String.length s) by lia.
  rewrite substring_skip_app, substring_all, String.eqb_refl.
  rewrite andb_true_r. apply Nat.leb_le. lia.
Qed.

Lemma drop_last_app s c : drop_last (s +:+ String c "") = s.
Proof.
  unfold drop_last. rewrite string_length_app. simpl.
  replace (String.length s + 1 - 1)%nat with (String.length s) by lia.
  apply substring_0_app.
Qed.

Lemma substring_split s n :
  (n <= String.length s)%nat ->
  s = substring 0 n s +:+ substring n (String.length s - n) s.
Proof.
  revert n. induction s as [|c s IH]; intros n Hn; simpl in *.
  - destruct n; [reflexivity|lia].
  - destruct n as [|n]; simpl.
    + now rewrite append_nil_l, substring_all.
    + rewrite append_cons. f_equal. apply IH. lia.
Qed.

(** A string with suffix ["/"] is its [drop_last] followed by ["/"]. *)
Lemma HasSuffix_slash s :
  HasSuffix s "/" = true -> s = drop_last s +:+ "/".
Proof.
  unfold HasSuffix, drop_last. simpl String.length.
  intros H. apply andb_true_iff in H as [Hlen Heq].
  apply Nat.leb_le in Hlen. apply String.eqb_eq in Heq.
  rewrite (substring_split s (String.length s - 1)) at 1 by lia.
  replace (String.length s - (String.length s - 1))%nat with 1%nat by lia.
  now rewrite Heq.
Qed.

Lemma HasSuffix_slash_length s :
  HasSuffix s "/" = true ->
  String.length s = S (String.length (drop_last s)).
Proof.
  intros H. rewrite (HasSuffix_slash s H) at 1.
  rewrite string_length_app. simpl. lia.
Qed.

End StringFacts.

(** ** mapAZBError *)

Lemma switch_case_table code e :
  In (code, e) service_code_table ->
  switch_case code service_code_table = Some e.
Proof.
  intros H. simpl in H.
  repeat (destruct H as [H|H]; [inversion H; subst; reflexivity|]).
  destruct H.
Qed.

(** C4, as amended.  [mapAZBError] maps nil to nil; it maps a storage error
    whose service code is an arm of its switch to the errno of that arm:
    blob-not-found and resource-not-found to ENOENT, the authentication and
    authorization failures to EACCES, server busy, operation timed out,
    internal error, container being deleted and system in use to EAGAIN; a
    storage error with any other service code goes by its HTTP status
    through [mapHttpError], and is returned as it is when that gives nil;
    an error that is no storage error is returned as it is. *)
Theorem mapAZBError_taxonomy (mapHttpError : Z -> option error) :
  mapAZBError mapHttpError None = None /\
  (forall code status e,
     In (code, e)
        [ (ServiceCodes.BlobNotFound, ENOENT);
          (ServiceCodes.ResourceNotFound, ENOENT);
          (ServiceCodes.AuthenticationFailed, EACCES);
          (ServiceCodes.InvalidAuthenticationInfo, EACCES);
          (ServiceCodes.AuthorizationFailure, EACCES);
          (ServiceCodes.ServerBusy, EAGAIN);
          (ServiceCodes.OperationTimedOut, EAGAIN);
          (ServiceCodes.InternalError, EAGAIN);
          (ServiceCodes.ContainerBeingDeleted, EAGAIN);
          (ServiceCodes.SystemInUse, EAGAIN) ] ->
     mapAZBError mapHttpError
       (Some (AzStorageError {| ServiceCode := code; StatusCode := status |}))
     = Some (SyscallErrno e)) /\
  (forall stgErr e,
     switch_case (ServiceCode stgErr) service_code_table = Some e ->
     mapAZBError mapHttpError (Some (AzStorageError stgErr))
     = Some (SyscallErrno e)) /\
  (forall stgErr,
     switch_case (ServiceCode stgErr) service_code_table = None ->
     mapAZBError mapHttpError (Some (AzStorageError stgErr))
     = match mapHttpError (StatusCode stgErr) with
       | Some err => Some err
       | None => Some (AzStorageError stgErr)
       end) /\
  (forall e, mapAZBError mapHttpError (Some (SyscallErrno e))
             = Some (SyscallErrno e)) /\
  (forall msg, mapAZBError mapHttpError (Some (OtherError msg))
               = Some (OtherError msg)).
Proof.
  repeat split.
  - intros code status e H. simpl in H.
    repeat (destruct H as [H|H]; [inversion H; subst; reflexivity|]).
    destruct H.
  - intros stgErr e H. unfold mapAZBError. now rewrite H.
  - intros stgErr H. unfold mapAZBError. now rewrite H.
Qed.

Lemma mapAZBError_taxonomy_witness :
  mapAZBError Store.mapHttpError
    (Some (AzStorageError {| ServiceCode := "LeaseLost"; StatusCode := 403 |}))
  = Some (SyscallErrno EACCES).
Proof.
  destruct (mapAZBError_taxonomy Store.mapHttpError)
    as (_ & _ & _ & Hdefault & _).
  rewrite Hdefault; reflexivity.
Defined.

(** C4 as stated fails: a storage error whose service code is no arm of the
    switch, with an HTTP status for which [mapHttpError] gives nil, is
    returned as it is, and is no errno. *)
Lemma mapAZBError_not_always_errno :
  ~ (forall (mapHttpError : Z -> option error) (stgErr : StorageError),
       exists e : Errno,
         mapAZBError mapHttpError (Some (AzStorageError stgErr))
         = Some (SyscallErrno e)).
Proof.
  intros H.
  destruct (H Store.mapHttpError
              {| ServiceCode := "LeaseLost"; StatusCode := 412 |}) as [e He].
  vm_compute in He. discriminate He.
Qed.

Lemma mapAZBError_is_Some mapHttpError e :
  is_Some (mapAZBError mapHttpError (Some e)).
Proof.
  unfold mapAZBError. repeat case_match; eauto.
Qed.

(** ** RenameBlob *)

(** C8.  [RenameBlob] returns ENOTSUP with a nil output on every input and in
    every state, sends no request (the trace of requests is the one it
    started with) and leaves the world as it was. *)
Theorem RenameBlob_not_supported {W : Type} (param : RenameBlobInput)
    (s : St W) :
  exists s',
    RenameBlob param s = Done (None, Some (SyscallErrno ENOTSUP)) s' /\
    trace s' = trace s /\ world s' = world s.
Proof. exists s. repeat split. Qed.

(** ** ListBlobs: the continuation token *)

(** C10.  In the output of a successful [ListBlobs], [IsTruncated] is true
    if and only if [NextContinuationToken] is not nil, and the token is never
    the empty string. *)
Theorem ListBlobs_truncated_iff_token {W : Type} (az : AzureClient W)
    (b : AZBlob) (mapHttpError : Z -> option error)
    (PMetadata : gmap string string -> gmap string (option string))
    (param : ListBlobsInput) (s s' : St W) (out : ListBlobsOutput) :
  ListBlobs az b mapHttpError PMetadata param s = Done (Some out, None) s' ->
  (IsTruncated out = true <-> is_Some (NextContinuationToken out)) /\
  NextContinuationToken out <> Some "".
Proof.
  intros H. unfold ListBlobs in H.
  exec_in H; inversion H; subst; clear H; simpl;
    try (split; [split; [discriminate|intros [? ?]; discriminate]|discriminate]).
  all: split; [split; eauto|].
  all: intros [= ->]; discriminate.
Qed.

Lemma ListBlobs_truncated_iff_token_witness :
  exists out s',
    ListBlobs Store.client Store.azure Store.mapHttpError Store.PMetadata
      (Store.list_input None (Some "/"))
      (Store.start ∅
         {| BlobPrefixes := ["b/"]; BlobItems := [Store.listed "a" ∅];
            NextMarker := Some "" |})
    = Done (Some out, None) s' /\
    (IsTruncated out = true <-> is_Some (NextContinuationToken out)) /\
    NextContinuationToken out <> Some "".
Proof.
  eexists _, _.
  refine ((fun H => conj H
             (ListBlobs_truncated_iff_token _ _ _ _ _ _ _ _ H)) _).
  vm_compute. reflexivity.
Defined.

(** ** CopyBlob *)
Section CopyBlobFacts.
Context {W : Type}.
Variable az : AzureClient W.
Variable mapHttpError : Z -> option error.

Lemma poll_world_S dest k (w : W) :
  poll_world az dest (S k) w
  = snd (az_GetProperties az dest (poll_world az dest k w)).
Proof.
  revert w. induction k as [|k IH]; intros w; [reflexivity|].
  change (poll_world az dest (S (S k)) w)
    with (poll_world az dest (S k) (snd (az_GetProperties az dest w))).
  rewrite IH. reflexivity.
Qed.

Lemma observes_pending_or_not copyID r :
  match r with
  | inl cp =>
      if negb (String.eqb (gp_CopyStatus cp) CopyStatusPending) ||
         negb (String.eqb (gp_CopyID cp) copyID)
      then observes_done copyID r /\ ~ observes_pending copyID r
      else observes_pending copyID r /\ ~ observes_done copyID r
  | inr _ => ~ observes_pending copyID r /\ ~ observes_done copyID r
  end.
Proof.
  destruct r as [cp|e]; simpl; [|tauto].
  destruct (String.eqb_spec (gp_CopyStatus cp) CopyStatusPending);
    destruct (String.eqb_spec (gp_CopyID cp) copyID); simpl; tauto.
Qed.

(** The polling loop, by the answers of the polls: it ends at the first
    poll that is not answered "pending, same copy", with nil when that poll
    sees the copy done and with the error of the poll otherwise. *)
Lemma CopyBlob_poll_spec dest copyID polls : forall s : St W,
  match CopyBlob_poll az polls dest copyID s with
  | Done None s' =>
      (forall j, (j < polls)%nat ->
         observes_pending copyID (poll_answer az dest j (world s))) /\
      world s' = poll_world az dest polls (world s) /\
      trace s' = trace s ++ replicate polls (ReqGetProperties dest)
  | Done (Some None) s' =>
      exists k, (k < polls)%nat /\
        (forall j, (j < k)%nat ->
           observes_pending copyID (poll_answer az dest j (world s))) /\
        observes_done copyID (poll_answer az dest k (world s)) /\
        world s' = poll_world az dest (S k) (world s) /\
        trace s' = trace s ++ replicate (S k) (ReqGetProperties dest)
  | Done (Some (Some err)) s' =>
      exists k, (k < polls)%nat /\
        (forall j, (j < k)%nat ->
           observes_pending copyID (poll_answer az dest j (world s))) /\
        poll_answer az dest k (world s) = inr err /\
        world s' = poll_world az dest (S k) (world s) /\
        trace s' = trace s ++ replicate (S k) (ReqGetProperties dest)
  | Panicked => False
  end.
Proof.
  induction polls as [|polls IH]; intros s.
  - simpl. unfold ret; cbv beta iota. repeat split; try lia.
    now rewrite app_nil_r.
  - simpl. unfold bind, request.
    destruct (az_GetProperties az dest (world s)) as [r w] eqn:Hgp.
    assert (Hans : poll_answer az dest 0 (world s) = r)
      by (unfold poll_answer; simpl; now rewrite Hgp).
    assert (Hw : snd (az_GetProperties az dest (world s)) = w)
      by now rewrite Hgp.
    assert (Hshift : forall k,
      poll_answer az dest (S k) (world s) = poll_answer az dest k w)
      by (intros k; unfold poll_answer; simpl; now rewrite Hw).
    assert (Hshiftw : forall k,
      poll_world az dest (S k) (world s) = poll_world az dest k w)
      by (intros k; simpl; now rewrite Hw).
    pose proof (observes_pending_or_not copyID r) as Hobs.
    destruct r as [cp|err].
    + destruct (negb (gp_CopyStatus cp =? CopyStatusPending)%string
                || negb (gp_CopyID cp =? copyID)%string) eqn:Hc.
      * unfold ret; cbv beta iota. exists 0%nat.
        split; [lia|]. split; [intros j Hj; lia|].
        split; [rewrite Hans; tauto|]. split; [first [apply Hshiftw|reflexivity]|reflexivity].
      * specialize (IH {| world := w;
                          trace := trace s ++ [ReqGetProperties dest] |}).
        destruct (CopyBlob_poll az polls dest copyID _) as [[[err|]|] s'|];
          simpl in IH; [| | |exact IH].
        -- destruct IH as (k & Hk & Hbefore & Hat & Hw' & Htr).
           exists (S k). split; [lia|]. split.
           { intros [|j] Hj; [rewrite Hans; tauto|].
             rewrite Hshift. apply Hbefore. lia. }
           split; [now rewrite Hshift|].
           split; [first [rewrite Hw'; reflexivity|now rewrite Hshiftw]|].
           rewrite Htr, <- app_assoc. reflexivity.
        -- destruct IH as (k & Hk & Hbefore & Hat & Hw' & Htr).
           exists (S k). split; [lia|]. split.
           { intros [|j] Hj; [rewrite Hans; tauto|].
             rewrite Hshift. apply Hbefore. lia. }
           split; [now rewrite Hshift|].
           split; [first [rewrite Hw'; reflexivity|now rewrite Hshiftw]|].
           rewrite Htr, <- app_assoc. reflexivity.
        -- destruct IH as (Hbefore & Hw' & Htr).
           split.
           { intros [|j] Hj; [rewrite Hans; tauto|].
             rewrite Hshift. apply Hbefore. lia. }
           split; [first [rewrite Hw'; reflexivity|now rewrite Hshiftw]|].
           rewrite Htr, <- app_assoc. reflexivity.
    + unfold ret; cbv beta iota. exists 0%nat.
      split; [lia|]. split; [intros j Hj; lia|].
      split; [exact Hans|]. split; [first [apply Hshiftw|reflexivity]|reflexivity].
Qed.

Lemma pending_not_done copyID r :
  observes_pending copyID r -> observes_done copyID r -> False.
Proof. destruct r; simpl; tauto. Qed.

Lemma pending_not_error copyID r (e : error) :
  observes_pending copyID r -> r = inr e -> False.
Proof. intros H ->. exact H. Qed.

Lemma done_not_error copyID r (e : error) :
  observes_done copyID r -> r = inr e -> False.
Proof. intros H ->. exact H. Qed.

(** [CopyBlob] on names that are not both directory names, when the token
    is fresh and the copy it starts is pending: it sleeps and polls. *)
Lemma CopyBlob_pending_eq (param : CopyBlobInput) (s : St W) w1 w2 resp polls :
  HasSuffix (cp_Source param) "/" && HasSuffix (cp_Destination param) "/"
  = false ->
  az_refreshToken az (world s) = (None, w1) ->
  az_StartCopyFromURL az (cp_Destination param) (cp_Source param)
    (nilMetadata (cp_Metadata param)) w1 = (inl resp, w2) ->
  sc_CopyStatus resp = CopyStatusPending ->
  CopyBlob az mapHttpError polls param s
  = match
      CopyBlob_poll az polls (cp_Destination param) (sc_CopyID resp)
        {| world := az_Sleep az 50 w2;
           trace := (trace s ++
                     [ReqStartCopyFromURL (cp_Destination param)
                        (cp_Source param) (nilMetadata (cp_Metadata param))])
                    ++ [Sleep 50] |}
    with
    | Done None s' => Done None s'
    | Done (Some (Some err)) s' =>
        Done (Some (None, mapAZBError mapHttpError (Some err))) s'
    | Done (Some None) s' => Done (Some (Some Build_CopyBlobOutput, None)) s'
    | Panicked => Panicked
    end.
Proof.
  intros Hslash Htoken Hstart Hpending.
  unfold CopyBlob.
  assert (Hbody : forall rec,
    CopyBlob_body az mapHttpError polls rec param s
    = match
        CopyBlob_poll az polls (cp_Destination param) (sc_CopyID resp)
          {| world := az_Sleep az 50 w2;
             trace := (trace s ++
                       [ReqStartCopyFromURL (cp_Destination param)
                          (cp_Source param) (nilMetadata (cp_Metadata param))])
                      ++ [Sleep 50] |}
      with
      | Done None s' => Done None s'
      | Done (Some (Some err)) s' =>
          Done (Some (None, mapAZBError mapHttpError (Some err))) s'
      | Done (Some None) s' => Done (Some (Some Build_CopyBlobOutput, None)) s'
      | Panicked => Panicked
      end).
  { intros rec. unfold CopyBlob_body. rewrite Hslash.
    unfold bind, refreshToken, local, request. rewrite Htoken. simpl.
    rewrite Hstart. simpl. rewrite Hpending. simpl.
    destruct (CopyBlob_poll az polls _ _ _) as [[[err|]|] s'|]; reflexivity. }
  destruct (String.length (cp_Source param)); simpl; apply Hbody.
Qed.

(** C3.  When the copy that [CopyBlob] starts is reported pending, the call
    sends the copy request, sleeps 50 ms and then polls the properties of
    the destination, and nothing else.  It returns success exactly when the
    first poll that is not answered "pending, same copy id" sees a status
    other than pending or another copy id; it returns the error of that
    poll, mapped by [mapAZBError], exactly when that poll fails; it is still
    polling after [polls] polls exactly when all of them saw the copy
    pending; so it returns as soon as a poll is answered otherwise. *)
Theorem CopyBlob_pending_polls (param : CopyBlobInput) (s : St W) w1 w2 resp
    (polls : nat) :
  HasSuffix (cp_Source param) "/" && HasSuffix (cp_Destination param) "/"
  = false ->
  az_refreshToken az (world s) = (None, w1) ->
  az_StartCopyFromURL az (cp_Destination param) (cp_Source param)
    (nilMetadata (cp_Metadata param)) w1 = (inl resp, w2) ->
  sc_CopyStatus resp = CopyStatusPending ->
  let dest := cp_Destination param in
  let answer j := poll_answer az dest j (az_Sleep az 50 w2) in
  let pending j := observes_pending (sc_CopyID resp) (answer j) in
  let sent n :=
    trace s ++
    [ReqStartCopyFromURL dest (cp_Source param)
       (nilMetadata (cp_Metadata param)); Sleep 50] ++
    replicate n (ReqGetProperties dest) in
  let run := CopyBlob az mapHttpError polls param s in
  (exists r s' n, run = Done r s' /\ trace s' = sent n /\
     (is_Some r -> (0 < n)%nat)) /\
  ((exists s', run = Done (Some (Some Build_CopyBlobOutput, None)) s') <->
   (exists k, (k < polls)%nat /\ (forall j, (j < k)%nat -> pending j) /\
              observes_done (sc_CopyID resp) (answer k))) /\
  (forall err,
     (exists s', run = Done (Some (None, err)) s') <->
     (exists k e, (k < polls)%nat /\ (forall j, (j < k)%nat -> pending j) /\
                  answer k = inr e /\
                  err = mapAZBError mapHttpError (Some e))) /\
  ((exists s', run = Done None s') <->
   (forall j, (j < polls)%nat -> pending j)) /\
  (forall k, (k < polls)%nat -> ~ pending k ->
     exists r s', run = Done (Some r) s').
Proof.
  intros Hslash Htoken Hstart Hpending dest answer pending sent run.
  pose proof (CopyBlob_pending_eq param s w1 w2 resp polls
                Hslash Htoken Hstart Hpending) as Heq.
  fold run dest in Heq.
  match type of Heq with
  | _ = match CopyBlob_poll _ _ _ _ ?s2 with _ => _ end =>
      pose proof (CopyBlob_poll_spec dest (sc_CopyID resp) polls s2) as Hspec
  end.
  simpl world in Hspec. simpl trace in Hspec.
  fold answer in Hspec.
  assert (Hsent : forall n,
    (trace s ++ [ReqStartCopyFromURL dest (cp_Source param)
                   (nilMetadata (cp_Metadata param))]) ++ [Sleep 50]
      ++ replicate n (ReqGetProperties dest) = sent n).
  { intros n. unfold sent. now rewrite <- !app_assoc. }
  destruct (CopyBlob_poll az polls dest (sc_CopyID resp) _)
    as [[[err|]|] s'|]; [| | |destruct Hspec].
  - (* a poll failed *)
    destruct Hspec as (k & Hk & Hbefore & Hat & _ & Htr).
    rewrite <- (app_assoc (trace s ++ _) [Sleep 50]), Hsent in Htr.
    repeat split.
    + exists (Some (None, mapAZBError mapHttpError (Some err))), s', (S k).
      repeat split; [exact Heq|exact Htr|lia].
    + intros [s0 H0]. rewrite Heq in H0. discriminate H0.
    + intros (k' & Hk' & Hbefore' & Hdone).
      exfalso.
      destruct (Nat.lt_trichotomy k k') as [Hlt|[->|Hlt]].
      * eapply pending_not_error; [apply (Hbefore' k Hlt)|exact Hat].
      * eapply done_not_error; [exact Hdone|exact Hat].
      * eapply pending_not_done; [apply (Hbefore k' Hlt)|exact Hdone].
    + intros [s0 H0]. rewrite Heq in H0. inversion H0; subst.
      exists k, err. repeat split; assumption.
    + intros (k' & e & Hk' & Hbefore' & Hat' & ->).
      exists s'. rewrite Heq.
      destruct (Nat.lt_trichotomy k k') as [Hlt|[->|Hlt]].
      * exfalso. eapply pending_not_error; [apply (Hbefore' k Hlt)|exact Hat].
      * unfold answer in Hat'. rewrite Hat in Hat'. now inversion Hat'.
      * exfalso. eapply pending_not_error; [apply (Hbefore k' Hlt)|exact Hat'].
    + intros [s0 H0]. rewrite Heq in H0. discriminate H0.
    + intros Hall. exfalso.
      eapply pending_not_error; [apply (Hall k Hk)|exact Hat].
    + intros k' Hk' Hnot. eauto.
  - (* a poll saw the copy done *)
    destruct Hspec as (k & Hk & Hbefore & Hat & _ & Htr).
    rewrite <- (app_assoc (trace s ++ _) [Sleep 50]), Hsent in Htr.
    repeat split.
    + exists (Some (Some Build_CopyBlobOutput, None)), s', (S k).
      repeat split; [exact Heq|exact Htr|lia].
    + intros _. exists k. repeat split; assumption.
    + intros _. eauto.
    + intros [s0 H0]. rewrite Heq in H0. discriminate H0.
    + intros (k' & e & Hk' & Hbefore' & Hat' & ->).
      exfalso.
      destruct (Nat.lt_trichotomy k k') as [Hlt|[->|Hlt]].
      * eapply pending_not_done; [apply (Hbefore' k Hlt)|exact Hat].
      * eapply done_not_error; [exact Hat|exact Hat'].
      * eapply pending_not_error; [apply (Hbefore k' Hlt)|exact Hat'].
    + intros [s0 H0]. rewrite Heq in H0. discriminate H0.
    + intros Hall. exfalso.
      eapply pending_not_done; [apply (Hall k Hk)|exact Hat].
    + intros k' Hk' Hnot. eauto.
  - (* every poll saw the copy pending *)
    destruct Hspec as (Hall & _ & Htr).
    rewrite <- (app_assoc (trace s ++ _) [Sleep 50]), Hsent in Htr.
    repeat split.
    + exists None, s', polls.
      repeat split; [exact Heq|exact Htr|intros [? ?]; discriminate].
    + intros [s0 H0]. rewrite Heq in H0. discriminate H0.
    + intros (k' & Hk' & Hbefore' & Hdone). exfalso.
      eapply pending_not_done; [apply (Hall k' Hk')|exact Hdone].
    + intros [s0 H0]. rewrite Heq in H0. discriminate H0.
    + intros (k' & e & Hk' & Hbefore' & Hat' & ->). exfalso.
      eapply pending_not_error; [apply (Hall k' Hk')|exact Hat'].
    + intros _. exact Hall.
    + intros _. eauto.
    + intros k' Hk' Hnot. exfalso. apply Hnot, Hall, Hk'.
Qed.

End CopyBlobFacts.

Lemma CopyBlob_pending_polls_witness :
  exists s',
    CopyBlob Store.client Store.mapHttpError 5
      {| cp_Source := "a"; cp_Destination := "b"; cp_Metadata := ∅ |}
      (Store.start {[ "a" := Store.file ∅ ]} Store.no_listing)
    = Done (Some (Some Build_CopyBlobOutput, None)) s'.
Proof.
  pose proof
    (CopyBlob_pending_polls Store.client Store.mapHttpError
       {| cp_Source := "a"; cp_Destination := "b"; cp_Metadata := ∅ |}
       (Store.start {[ "a" := Store.file ∅ ]} Store.no_listing)
       (world (Store.start {[ "a" := Store.file ∅ ]} Store.no_listing))
       (snd (Store.StartCopyFromURL "b" "a" ∅
               (world (Store.start {[ "a" := Store.file ∅ ]}
                         Store.no_listing))))
       {| sc_CopyStatus := CopyStatusPending; sc_CopyID := "copy-1" |}
       5%nat eq_refl eq_refl) as H.
  cbv zeta in H.
  destruct H as (_ & [_ Hsuccess] & _).
  - vm_compute. reflexivity.
  - reflexivity.
  - apply Hsuccess. exists 2%nat. split; [lia|]. split.
    + intros [|[|j]] Hj; [vm_compute; auto ..|lia].
    + vm_compute. left. discriminate.
Defined.

(** ** Block ids *)

Lemma lor_shifted_add (x c n : N) :
  (c < 2 ^ n)%N -> N.lor (N.shiftl x n) c = (x * 2 ^ n + c)%N.
Proof.
  intros Hc.
  assert (Hland : N.land (N.shiftl x n) c = 0%N).
  { rewrite <- (N.mod_small c (2 ^ n)) by exact Hc.
    rewrite <- N.land_ones, (N.land_comm c), N.land_assoc, N.land_ones,
      N.shiftl_mul_pow2.
    rewrite N.Div0.mod_mul. apply N.land_0_l. }
  rewrite <- N.lxor_lor, <- N.add_nocarry_lxor by exact Hland.
  now rewrite N.shiftl_mul_pow2.
Qed.

Lemma byte_lt (a : ascii) : (N_of_ascii a < 256)%N.
Proof. apply N_ascii_bounded. Qed.

Lemma val3 (a b c : ascii) :
  N.lor (N.lor (N.shiftl (N_of_ascii a) 16) (N.shiftl (N_of_ascii b) 8))
        (N_of_ascii c)
  = (N_of_ascii a * 65536 + N_of_ascii b * 256 + N_of_ascii c)%N.
Proof.
  pose proof (byte_lt a). pose proof (byte_lt b). pose proof (byte_lt c).
  rewrite (N.shiftl_mul_pow2 (N_of_ascii b)).
  change (2 ^ 8)%N with 256%N.
  rewrite (lor_shifted_add _ (N_of_ascii b * 256) 16)
    by (change (2 ^ 16)%N with 65536%N; lia).
  change (2 ^ 16)%N with 65536%N.
  replace (N_of_ascii a * 65536 + N_of_ascii b * 256)%N
    with (N.shiftl (N_of_ascii a * 256 + N_of_ascii b) 8)
    by (rewrite N.shiftl_mul_pow2; change (2 ^ 8)%N with 256%N; lia).
  rewrite lor_shifted_add by (change (2 ^ 8)%N with 256%N; lia).
  rewrite N.shiftl_mul_pow2. change (2 ^ 8)%N with 256%N. lia.
Qed.

Lemma sextet (x : N) (k : N) : N.land (N.shiftr x k) 63 = ((x / 2 ^ k) mod 64)%N.
Proof.
  change 63%N with (N.ones 6). rewrite N.land_ones, N.shiftr_div_pow2. reflexivity.
Qed.

Lemma divmod64_eq (x y : N) :
  (x / 64 = y / 64)%N -> (x mod 64 = y mod 64)%N -> x = y.
Proof.
  intros Hq Hr.
  rewrite (N.div_mod x 64), (N.div_mod y 64) by discriminate.
  now rewrite Hq, Hr.
Qed.

Lemma sextets_inj (x y : N) :
  (x < 16777216)%N -> (y < 16777216)%N ->
  ((x / 262144) mod 64 = (y / 262144) mod 64)%N ->
  ((x / 4096) mod 64 = (y / 4096) mod 64)%N ->
  ((x / 64) mod 64 = (y / 64) mod 64)%N ->
  (x mod 64 = y mod 64)%N -> x = y.
Proof.
  intros Hx Hy H1 H2 H3 H4.
  apply divmod64_eq; [|exact H4].
  apply divmod64_eq; [|exact H3].
  rewrite !N.Div0.div_div. change (64 * 64)%N with 4096%N.
  apply divmod64_eq; [|exact H2].
  rewrite !N.Div0.div_div. change (4096 * 64)%N with 262144%N.
  rewrite <- (N.mod_small (x / 262144) 64), <- (N.mod_small (y / 262144) 64);
    [exact H1| |].
  - apply N.Div0.div_lt_upper_bound. exact Hy.
  - apply N.Div0.div_lt_upper_bound. exact Hx.
Qed.

Lemma in_sextet_range (v : N) : (v < 64)%N -> In v sextet_range.
Proof.
  intros Hv. unfold sextet_range. apply in_map_iff.
  exists (N.to_nat v). split; [apply N2Nat.id|].
  apply in_seq. lia.
Qed.

Lemma enc_inj (i j : N) : (i < 64)%N -> (j < 64)%N -> enc i = enc j -> i = j.
Proof.
  intros Hi Hj Heq.
  assert (Hall : forallb (fun i => forallb (fun j =>
            implb (Ascii.eqb (enc i) (enc j)) (N.eqb i j)) sextet_range)
            sextet_range = true) by (vm_compute; reflexivity).
  rewrite forallb_forall in Hall.
  specialize (Hall i (in_sextet_range i Hi)).
  rewrite forallb_forall in Hall.
  specialize (Hall j (in_sextet_range j Hj)).
  rewrite Heq, Ascii.eqb_refl in Hall. simpl in Hall.
  now apply N.eqb_eq.
Qed.

Lemma enc_not_pad (i : N) : (i < 64)%N -> enc i <> "="%char.
Proof.
  intros Hi Heq.
  assert (Hall : forallb (fun i => negb (Ascii.eqb (enc i) "="%char))
                   sextet_range = true) by (vm_compute; reflexivity).
  rewrite forallb_forall in Hall.
  specialize (Hall i (in_sextet_range i Hi)).
  rewrite Heq, Ascii.eqb_refl in Hall. discriminate Hall.
Qed.

Lemma sextet_lt (x k : N) : (N.land (N.shiftr x k) 63 < 64)%N.
Proof. rewrite sextet. now apply N.mod_lt. Qed.

Lemma val3_lt a b c : (val3_of a b c < 16777216)%N.
Proof.
  unfold val3_of. rewrite val3.
  pose proof (byte_lt a). pose proof (byte_lt b). pose proof (byte_lt c). lia.
Qed.

Lemma val3_inj a b c a' b' c' :
  val3_of a b c = val3_of a' b' c' -> a = a' /\ b = b' /\ c = c'.
Proof.
  unfold val3_of. rewrite !val3. intros H.
  pose proof (byte_lt a). pose proof (byte_lt b). pose proof (byte_lt c).
  pose proof (byte_lt a'). pose proof (byte_lt b'). pose proof (byte_lt c').
  assert (N_of_ascii a = N_of_ascii a' /\ N_of_ascii b = N_of_ascii b' /\
          N_of_ascii c = N_of_ascii c') as (Ha & Hb & Hc) by lia.
  rewrite <- (ascii_N_embedding a), <- (ascii_N_embedding a'),
          <- (ascii_N_embedding b), <- (ascii_N_embedding b'),
          <- (ascii_N_embedding c), <- (ascii_N_embedding c').
  now rewrite Ha, Hb, Hc.
Qed.

Lemma val1_eq a : N.shiftl (N_of_ascii a) 16 = val3_of a zero zero.
Proof.
  unfold val3_of. change (N_of_ascii zero) with 0%N.
  now rewrite N.shiftl_0_l, !N.lor_0_r.
Qed.

Lemma val2_eq a b :
  N.lor (N.shiftl (N_of_ascii a) 16) (N.shiftl (N_of_ascii b) 8)
  = val3_of a b zero.
Proof.
  unfold val3_of. change (N_of_ascii zero) with 0%N. now rewrite N.lor_0_r.
Qed.

Lemma val_low_sextet a b : (val3_of a b zero mod 64 = 0)%N.
Proof.
  unfold val3_of. rewrite val3. change (N_of_ascii zero) with 0%N.
  replace (N_of_ascii a * 65536 + N_of_ascii b * 256 + 0)%N
    with ((N_of_ascii a * 1024 + N_of_ascii b * 4) * 64)%N by lia.
  apply N.Div0.mod_mul.
Qed.

Lemma val_third_sextet a : ((val3_of a zero zero / 64) mod 64 = 0)%N.
Proof.
  unfold val3_of. rewrite val3. change (N_of_ascii zero) with 0%N.
  replace (N_of_ascii a * 65536 + 0 * 256 + 0)%N
    with ((N_of_ascii a * 1024) * 64)%N by lia.
  rewrite N.div_mul by discriminate.
  replace (N_of_ascii a * 1024)%N with ((N_of_ascii a * 16) * 64)%N by lia.
  apply N.Div0.mod_mul.
Qed.

(** Equal sextets, equal values. *)
Lemma val3_sextets a b c a' b' c' :
  let x := val3_of a b c in
  let y := val3_of a' b' c' in
  enc (N.land (N.shiftr x 18) 63) = enc (N.land (N.shiftr y 18) 63) ->
  enc (N.land (N.shiftr x 12) 63) = enc (N.land (N.shiftr y 12) 63) ->
  ((x / 64) mod 64 = (y / 64) mod 64)%N ->
  (x mod 64 = y mod 64)%N ->
  a = a' /\ b = b' /\ c = c'.
Proof.
  intros x y H1 H2 H3 H4.
  apply enc_inj in H1; try apply sextet_lt.
  apply enc_inj in H2; try apply sextet_lt.
  rewrite !sextet in H1, H2.
  apply val3_inj. fold x y.
  apply sextets_inj; try apply val3_lt; assumption.
Qed.

Lemma list_ind3 {A} (P : list A -> Prop) :
  P [] -> (forall a, P [a]) -> (forall a b, P [a; b]) ->
  (forall a b c l, P l -> P (a :: b :: c :: l)) ->
  forall l, P l.
Proof.
  intros H0 H1 H2 H3.
  fix IH 1.
  intros [|a [|b [|c l]]]; [exact H0|apply H1|apply H2|apply H3, IH].
Qed.

Lemma EncodeToString_inj (l1 l2 : list ascii) :
  EncodeToString l1 = EncodeToString l2 -> l1 = l2.
Proof.
  revert l2. induction l1 as [|a|a b|a b c l1 IH] using list_ind3;
    intros [|a' [|b' [|c' l2]]] H; simpl in H; try discriminate H;
    try reflexivity.
  - (* one byte, one byte *)
    injection H as H1 H2. rewrite !val1_eq in H1, H2.
    destruct (val3_sextets a zero zero a' zero zero) as (-> & _); auto.
    + now rewrite !val_third_sextet.
    + now rewrite !val_low_sextet.
  - injection H as _ _ H3. symmetry in H3.
    exfalso. eapply enc_not_pad; [apply sextet_lt|exact H3].
  - injection H as _ _ H3. symmetry in H3.
    exfalso. eapply enc_not_pad; [apply sextet_lt|exact H3].
  - injection H as _ _ H3.
    exfalso. eapply enc_not_pad; [apply sextet_lt|exact H3].
  - (* two bytes, two bytes *)
    injection H as H1 H2 H3. rewrite !val2_eq in H1, H2, H3.
    apply enc_inj in H3; try apply sextet_lt. rewrite !sextet in H3.
    destruct (val3_sextets a b zero a' b' zero) as (-> & -> & _); auto.
    now rewrite !val_low_sextet.
  - injection H as _ _ _ H4. symmetry in H4.
    exfalso. eapply enc_not_pad; [|exact H4].
    change 63%N with (N.ones 6). rewrite N.land_ones. now apply N.mod_lt.
  - injection H as _ _ H3.
    exfalso. eapply enc_not_pad; [apply sextet_lt|exact H3].
  - injection H as _ _ _ H4.
    exfalso. eapply enc_not_pad; [|exact H4].
    change 63%N with (N.ones 6). rewrite N.land_ones. now apply N.mod_lt.
  - (* three bytes and more *)
    injection H as H1 H2 H3 H4 Hrest.
    fold (val3_of a b c) in H1, H2, H3, H4.
    fold (val3_of a' b' c') in H1, H2, H3, H4.
    apply enc_inj in H3; try apply sextet_lt. rewrite !sextet in H3.
    apply enc_inj in H4;
      try (change 63%N with (N.ones 6); rewrite N.land_ones;
           now apply N.mod_lt).
    change 63%N with (N.ones 6) in H4. rewrite !N.land_ones in H4.
    destruct (val3_sextets a b c a' b' c') as (-> & -> & ->); auto.
    f_equal. f_equal. f_equal. now apply IH.
Qed.

Lemma Sprintf_text c rest arg :
  c <> "%"%char -> Sprintf (String c rest) arg = String c (Sprintf rest arg).
Proof.
  intros Hc.
  destruct c as [[] [] [] [] [] [] [] []]; try reflexivity.
  now destruct Hc.
Qed.

Lemma Sprintf_prefix t rest arg :
  no_verb t -> Sprintf (t +:+ rest) arg = t +:+ Sprintf rest arg.
Proof.
  induction t as [|c t IH]; intros Ht; [reflexivity|].
  destruct Ht as [Hc Ht].
  change (String c t +:+ rest) with (String c (t +:+ rest)).
  rewrite Sprintf_text by exact Hc. rewrite IH by exact Ht. reflexivity.
Qed.

Lemma hex_digit_no_verb n : hex_digit n <> "%"%char.
Proof.
  unfold hex_digit.
  do 16 (destruct n as [|n]; [discriminate|]). discriminate.
Qed.

Lemma hex_encode_no_verb l : no_verb (hex_encode l).
Proof.
  induction l as [|c l IH]; simpl; [exact I|].
  repeat split; auto using hex_digit_no_verb.
Qed.

Lemma no_verb_app s t : no_verb s -> no_verb t -> no_verb (s +:+ t).
Proof.
  induction s as [|c s IH]; intros Hs Ht; [exact Ht|].
  destruct Hs as [Hc Hs]. split; [exact Hc|]. now apply IH.
Qed.

Lemma UUID_String_no_verb u : no_verb (UUID_String u).
Proof.
  unfold UUID_String.
  repeat (apply no_verb_app;
          [first [apply hex_encode_no_verb | split; [discriminate|exact I]]|]).
  apply hex_encode_no_verb.
Qed.

Lemma Sprintf_uploadId u n :
  Sprintf (UUID_String u +:+ "::%05d") (Some n)
  = UUID_String u +:+ "::" +:+ pad5 n.
Proof.
  rewrite Sprintf_prefix by apply UUID_String_no_verb.
  f_equal. change (Sprintf "::%05d" (Some n)) with ("::" +:+ (pad5 n +:+ "")).
  f_equal. induction (pad5 n) as [|c s IH]; [reflexivity|].
  change (String c s +:+ "") with (String c (s +:+ "")). now rewrite IH.
Qed.

Lemma read_decimal_zero s : read_decimal (String "0" s) = read_decimal s.
Proof.
  unfold read_decimal. simpl.
  destruct (NilEmpty.uint_of_string s); reflexivity.
Qed.

Lemma read_pad5 n : read_decimal (pad5 n) = Some n.
Proof.
  unfold pad5.
  induction (5 - String.length (decimal n))%nat as [|k IH].
  - change (zeros 0 +:+ decimal n) with (decimal n).
    unfold read_decimal, decimal. rewrite NilEmpty.usu.
    cbn [option_map]. f_equal. apply DecimalN.Unsigned.of_to.
  - change (zeros (S k) +:+ decimal n)
      with (String "0" (zeros k +:+ decimal n)).
    rewrite read_decimal_zero. exact IH.
Qed.

Lemma pad5_inj p q : pad5 p = pad5 q -> p = q.
Proof.
  intros H. apply (f_equal read_decimal) in H.
  rewrite !read_pad5 in H. now inversion H.
Qed.

Lemma list_ascii_of_string_inj s t :
  list_ascii_of_string s = list_ascii_of_string t -> s = t.
Proof.
  intros H. apply (f_equal string_of_list_ascii) in H.
  now rewrite !string_of_list_ascii_of_string in H.
Qed.

Lemma base64BlockId_of_inj u p q :
  base64BlockId_of (UUID_String u +:+ "::%05d") p
  = base64BlockId_of (UUID_String u +:+ "::%05d") q -> p = q.
Proof.
  unfold base64BlockId_of, blockId_of. intros H.
  apply EncodeToString_inj, list_ascii_of_string_inj in H.
  rewrite !Sprintf_uploadId in H.
  apply String.app_inj in H. apply String.app_inj in H.
  now apply pad5_inj.
Qed.

(** ** Multipart uploads *)

Lemma commit_parts_take Parts n : forall i parts,
  commit_parts Parts i n = Some parts ->
  Some <$> parts = take n (drop i Parts) /\ length parts = n.
Proof.
  induction n as [|n IH]; intros i parts H; simpl in H.
  - inversion H. now rewrite take_0.
  - destruct (Parts !! i) as [[part|]|] eqn:Hi; try discriminate H.
    destruct (commit_parts Parts (S i) n) as [rest|] eqn:Hrest;
      try discriminate H.
    inversion H; subst. destruct (IH _ _ Hrest) as [Htake Hlen].
    rewrite (drop_S _ _ _ Hi), fmap_cons, Htake.
    split; [reflexivity|]. simpl. now rewrite Hlen.
Qed.

Lemma commit_parts_total Parts n : forall i,
  (forall j, (j < n)%nat -> exists part, Parts !! (i + j)%nat = Some (Some part)) ->
  exists parts, commit_parts Parts i n = Some parts.
Proof.
  induction n as [|n IH]; intros i H; simpl; [eauto|].
  destruct (H 0%nat ltac:(lia)) as [part Hpart].
  rewrite Nat.add_0_r in Hpart. rewrite Hpart.
  destruct (IH (S i)) as [rest ->]; [|eauto].
  intros j Hj. destruct (H (S j) ltac:(lia)) as [p Hp].
  exists p. now replace (S i + j)%nat with (i + S j)%nat by lia.
Qed.

Section MultipartFacts.
Context {W : Type}.
Variable az : AzureClient W.
Variable b : AZBlob.
Variable mapHttpError : Z -> option error.

Lemma MultipartBlobBegin_run (param : MultipartBlobBeginInput) (s : St W) :
  exists u w,
    az_NewUUID az (world s) = (u, w) /\
    MultipartBlobBegin az param s
    = Done (Some {| mc_Key := mb_Key param; mc_Metadata := mb_Metadata param;
                    mc_UploadId := UUID_String u +:+ "::%05d";
                    mc_Parts := replicate 50000 None; mc_NumParts := 0 |},
            None)
           {| world := w; trace := trace s |}.
Proof.
  unfold MultipartBlobBegin, bind, local.
  destruct (az_NewUUID az (world s)) as [u w]. now exists u, w.
Qed.

Lemma MultipartBlobAdd_PartId param (s s' : St W) out :
  MultipartBlobAdd az mapHttpError param s = Done (Some out, None) s' ->
  ma_PartId out
  = base64BlockId_of (mc_UploadId (ma_Commit param)) (ma_PartNumber param).
Proof.
  intros H. unfold MultipartBlobAdd in H. exec_in H.
  all: try (pose proof (mapAZBError_is_Some mapHttpError) as Hs;
            unfold mapErr in H; inversion H; subst;
            match goal with
            | Hn : mapAZBError _ (Some ?e) = None |- _ =>
                destruct (Hs e) as [? Hx]; rewrite Hx in Hn; discriminate Hn
            | Hn : None = mapAZBError _ (Some ?e) |- _ =>
                destruct (Hs e) as [? Hx]; rewrite Hx in Hn; discriminate Hn
            end).
  inversion H; subst. reflexivity.
Qed.

Lemma MultipartBlobCopy_PartId param (s s' : St W) out :
  MultipartBlobCopy az b mapHttpError param s = Done (Some out, None) s' ->
  my_PartId out
  = base64BlockId_of (mc_UploadId (my_Commit param)) (my_PartNumber param).
Proof.
  intros H. unfold MultipartBlobCopy in H. exec_in H.
  all: try (pose proof (mapAZBError_is_Some mapHttpError) as Hs;
            unfold mapErr in H; inversion H; subst;
            match goal with
            | Hn : mapAZBError _ (Some ?e) = None |- _ =>
                destruct (Hs e) as [? Hx]; rewrite Hx in Hn; discriminate Hn
            | Hn : None = mapAZBError _ (Some ?e) |- _ =>
                destruct (Hs e) as [? Hx]; rewrite Hx in Hn; discriminate Hn
            end).
  all: inversion H; subst; reflexivity.
Qed.

Lemma MultipartBlobCommit_run param (s s' : St W) r :
  MultipartBlobCommit az mapHttpError param s = Done r s' ->
  (exists e, r = (None, Some e) /\ trace s' = trace s) \/
  (exists parts,
     trace s' = trace s ++
       [ReqCommitBlockList (mc_Key param) parts
          (nilMetadata (mc_Metadata param))] /\
     Some <$> parts = take (N.to_nat (mc_NumParts param)) (mc_Parts param) /\
     length parts = N.to_nat (mc_NumParts param)).
Proof.
  intros H. unfold MultipartBlobCommit in H.
  unfold bind, refreshToken, local in H.
  destruct (az_refreshToken az (world s)) as [[e|] w] eqn:Htoken.
  - left. inversion H; subst. eauto.
  - destruct (commit_parts _ _ _) as [parts|] eqn:Hparts;
      [|discriminate H].
    apply commit_parts_take in Hparts as [Htake Hlen]. rewrite drop_0 in Htake.
    right. exists parts. unfold request in H. simpl in H.
    destruct (az_CommitBlockList az _ _ _ w) as [[resp|e] w'];
      inversion H; subst; auto.
Qed.



End MultipartFacts.


(** ** Metadata *)

Lemma nilMetadata_entries_lower entries :
  lower_keys (nilMetadata_entries entries).
Proof.
  unfold nilMetadata_entries.
  assert (H : forall acc : gmap string string,
            lower_keys acc ->
            lower_keys
              (foldl (fun metadata kv =>
                        <[ToLower (fst kv) := NilStr (snd kv)]> metadata)
                     acc entries)).
  { induction entries as [|[k v] entries IH]; intros acc Hacc; [exact Hacc|].
    simpl. apply IH. intros k' Hk'.
    destruct (decide (ToLower k = k')) as [<-|Hne].
    - apply ToLower_idem.
    - rewrite lookup_insert_ne in Hk' by exact Hne. now apply Hacc. }
  apply H. intros k Hk. rewrite lookup_empty in Hk. now destruct Hk.
Qed.

Lemma nilMetadata_lower m : lower_keys (nilMetadata m).
Proof. apply nilMetadata_entries_lower. Qed.

Lemma PMetadata_hides PMetadata (md : gmap string string) :
  PMetadata_keys PMetadata -> lower_keys md ->
  PMetadata (delete AzureDirBlobMetadataKey md) !! AzureDirBlobMetadataKey
  = None.
Proof.
  intros Hkeys Hlower.
  destruct (PMetadata _ !! AzureDirBlobMetadataKey) as [v|] eqn:Hv;
    [|reflexivity].
  exfalso.
  destruct (Hkeys _ AzureDirBlobMetadataKey (ex_intro _ v Hv))
    as (k' & [x Hk'] & Hlow).
  destruct (decide (AzureDirBlobMetadataKey = k')) as [<-|Hne].
  - rewrite lookup_delete_eq in Hk'. discriminate Hk'.
  - rewrite lookup_delete_ne in Hk' by exact Hne.
    apply Hne. rewrite <- (Hlower k' (ex_intro _ x Hk')), Hlow. reflexivity.
Qed.

Section MetadataFacts.
Context {W : Type}.
Variable az : AzureClient W.
Variable b : AZBlob.
Variable mapHttpError : Z -> option error.
Variable PMetadata : gmap string string -> gmap string (option string).
Hypothesis PMetadata_ok : PMetadata_keys PMetadata.
Hypothesis responses_ok : lower_case_responses az.

Lemma HeadBlob_body_hides HeadBlob' Key :
  (forall k (s s' : St W) out e,
     HeadBlob' k s = Done (Some out, e) s' -> hides_marker (Item out)) ->
  forall (s s' : St W) out e,
    HeadBlob_body az mapHttpError PMetadata HeadBlob' Key s
    = Done (Some out, e) s' ->
    hides_marker (Item out).
Proof.
  intros Hrec s s' out e H. unfold HeadBlob_body in H.
  unfold bind at 1 in H. unfold refreshToken, local in H.
  destruct (az_refreshToken az (world s)) as [[err|] w]; [discriminate H|].
  destruct (HasSuffix Key "/").
  - unfold bind in H.
    destruct (HeadBlob' (drop_last Key) _) as [[[d|] [e'|]] s1|] eqn:Hcall;
      try discriminate H.
    + inversion H; subst. eapply Hrec, Hcall.
    + destruct (negb (IsDirBlob d)); inversion H; subst; eapply Hrec, Hcall.
  - unfold bind, request in H. cbn [world trace] in H.
    destruct (az_GetProperties az Key w) as [[resp|err] w'] eqn:Hgp;
      [|discriminate H].
    inversion H; subst. unfold hides_marker. cbn [Item Metadata].
    apply PMetadata_hides; [exact PMetadata_ok|].
    eapply responses_ok, Hgp.
Qed.

Lemma HeadBlob_depth_hides depth : forall Key (s s' : St W) out e,
  HeadBlob_depth az mapHttpError PMetadata depth Key s
  = Done (Some out, e) s' ->
  hides_marker (Item out).
Proof.
  induction depth as [|depth IH]; intros Key s s' out e H; simpl in H.
  - eapply HeadBlob_body_hides, H. intros k s0 s0' out0 e0 H0. discriminate H0.
  - eapply HeadBlob_body_hides, H. exact IH.
Qed.

Lemma HeadBlob_hides Key (s s' : St W) out e :
  HeadBlob az mapHttpError PMetadata Key s = Done (Some out, e) s' ->
  hides_marker (Item out).
Proof. apply HeadBlob_depth_hides. Qed.

End MetadataFacts.

(** ** ListBlobs, by cases *)
Section ListBlobsFacts.
Context {W : Type}.
Variable az : AzureClient W.
Variable b : AZBlob.
Variable mapHttpError : Z -> option error.
Variable PMetadata : gmap string string -> gmap string (option string).

(** A successful [ListBlobs]: the token was fresh, the list request was
    answered, and either the answer was the single blob that the prefix
    names, and the output is empty, or the output is made by the loop over
    the blob items, the directory blob of the prefix and the final sort. *)
Lemma ListBlobs_cases (param : ListBlobsInput) (s s' : St W) out :
  ListBlobs az b mapHttpError PMetadata param s = Done (Some out, None) s' ->
  exists w0 resp w1,
    lb_StartAfter param = None /\
    az_refreshToken az (world s) = (None, w0) /\
    list_request az param w0 = (inl resp, w1) /\
    let s1 := {| world := w1;
                 trace := trace s ++ [list_request_sent param] |} in
    ((lists_a_blob param resp = true /\
      out = ListBlobsOutput_zero /\ s' = s1) \/
     (lists_a_blob param resp = false /\
      exists prefixes items sortItems items' sortItems',
        ListBlobs_loop PMetadata (bool_decide (is_Some (lb_Delimiter param)))
          (BlobItems resp) (listed_prefixes b param resp) [] false
        = Some (prefixes, items, sortItems) /\
        (if HasSuffix (NilStr (lb_Prefix param)) "/" then
           exists r,
             HeadBlob az mapHttpError PMetadata (NilStr (lb_Prefix param)) s1
             = Done r s' /\
             ((exists dirBlob, r = (Some dirBlob, None) /\
                 items' = items ++ [dir_item dirBlob] /\ sortItems' = true) \/
              (exists d e, r = (d, Some e) /\ is_ENOENT e = true /\
                 items' = items /\ sortItems' = sortItems))
         else items' = items /\ sortItems' = sortItems /\ s' = s1) /\
        out = {| Prefixes := prefixes;
                 Items := if sortItems' then Sort Key items' else items';
                 NextContinuationToken := next_token resp;
                 IsTruncated := bool_decide (is_Some (next_token resp)) |})).
Proof.
  intros H. unfold ListBlobs in H.
  destruct (lb_StartAfter param) eqn:Hstart; [discriminate H|].
  unfold bind at 1 in H. unfold refreshToken, local in H.
  destruct (az_refreshToken az (world s)) as [[e|] w0] eqn:Htoken;
    [discriminate H|].
  unfold bind at 1 in H.
  fold (list_options param) in H.
  destruct (ListBlobs_segment az b mapHttpError param (list_options param) _)
    as [[[[[prefixes0 items0] blobItems] nextMarker]|e] s1|] eqn:Hseg;
    try discriminate H.
  assert (Hresp : exists resp w1,
    list_request az param w0 = (inl resp, w1) /\
    s1 = {| world := w1; trace := trace s ++ [list_request_sent param] |} /\
    prefixes0 = listed_prefixes b param resp /\ items0 = [] /\
    blobItems = BlobItems resp /\ nextMarker = NextMarker resp).
  { destruct (list_request az param w0) as [[resp|e] w1] eqn:Hreq.
    - exists resp, w1. split; [reflexivity|].
      unfold ListBlobs_segment in Hseg. unfold list_request in Hreq.
      unfold list_request_sent, listed_prefixes.
      destruct (lb_Delimiter param) as [d|];
        unfold bind, request, ret in Hseg; cbn [world trace] in Hseg;
        rewrite Hreq in Hseg; inversion Hseg; subst; repeat split;
        try reflexivity; simpl; rewrite ?andb_false_r; reflexivity.
    - exfalso.
      unfold ListBlobs_segment in Hseg. unfold list_request in Hreq.
      destruct (lb_Delimiter param) as [d|];
        unfold bind, request, ret in Hseg; cbn [world trace] in Hseg;
        rewrite Hreq in Hseg; discriminate Hseg. }
  destruct Hresp as (resp & w1 & Hreq & -> & -> & -> & -> & ->).
  exists w0, resp, w1. repeat split; try assumption.
  cbv zeta.
  assert (Hblob :
    (length (BlobItems resp) =? 1)%nat &&
    (String.length (Name (nth 0 (BlobItems resp)
       {| Name := ""; bi_Metadata := ∅;
          Properties := {| Etag := ""; bp_LastModified := 0;
                           ContentLength := None; AccessTier := "" |} |}))
     <=? String.length (opt_Prefix (list_options param)))%nat &&
    HasSuffix (opt_Prefix (list_options param)) "/"
    = lists_a_blob param resp).
  { unfold lists_a_blob. cbn [opt_Prefix list_options].
    destruct (BlobItems resp) as [|i [|i' rest]]; simpl; try reflexivity. }
  rewrite Hblob in H. clear Hblob.
  destruct (lists_a_blob param resp).
  { left. unfold ret in H. inversion H; subst. auto. }
  right. split; [reflexivity|].
  destruct (ListBlobs_loop _ _ _ _ _ _) as [[[prefixes items] sortItems]|]
    eqn:Hloop; [|discriminate H].
  exists prefixes, items, sortItems.
  cbn [opt_Prefix list_options] in H.
  destruct (HasSuffix (NilStr (lb_Prefix param)) "/").
  - unfold bind in H.
    destruct (HeadBlob az mapHttpError PMetadata _ _)
      as [[[d|] [e|]] s2|] eqn:Hhead; try discriminate H.
    + destruct (is_ENOENT e) eqn:He; [|discriminate H].
      unfold ret in H. inversion H; subst.
      exists items, sortItems. split; [reflexivity|]. split; [|reflexivity].
      eexists. split; [reflexivity|]. right. eauto 10.
    + unfold ret in H. inversion H; subst.
      exists (items ++ [dir_item d]), true.
      split; [reflexivity|]. split; [|reflexivity].
      eexists. split; [reflexivity|]. left. eauto.
    + destruct (is_ENOENT e) eqn:He; [|discriminate H].
      unfold ret in H. inversion H; subst.
      exists items, sortItems. split; [reflexivity|]. split; [|reflexivity].
      eexists. split; [reflexivity|]. right. eauto 10.
  - unfold bind, ret in H. inversion H; subst.
    exists items, sortItems. auto.
Qed.


(** The same, from the answers of the service to the call. *)
Lemma ListBlobs_eq (param : ListBlobsInput) (s : St W) w0 resp w1 :
  lb_StartAfter param = None ->
  az_refreshToken az (world s) = (None, w0) ->
  list_request az param w0 = (inl resp, w1) ->
  ListBlobs az b mapHttpError PMetadata param s
  = let s1 := {| world := w1;
                 trace := trace s ++ [list_request_sent param] |} in
    let finish prefixes items' (sortItems' : bool) (s2 : St W) :=
      Done (Some {| Prefixes := prefixes;
                    Items := if sortItems' then Sort Key items' else items';
                    NextContinuationToken := next_token resp;
                    IsTruncated := bool_decide (is_Some (next_token resp)) |},
            None) s2 in
    if lists_a_blob param resp then Done (Some ListBlobsOutput_zero, None) s1
    else
      match
        ListBlobs_loop PMetadata (bool_decide (is_Some (lb_Delimiter param)))
          (BlobItems resp) (listed_prefixes b param resp) [] false
      with
      | None => Panicked
      | Some (prefixes, items, sortItems) =>
          if HasSuffix (NilStr (lb_Prefix param)) "/" then
            match
              HeadBlob az mapHttpError PMetadata (NilStr (lb_Prefix param)) s1
            with
            | Done (Some dirBlob, None) s2 =>
                finish prefixes (items ++ [dir_item dirBlob]) true s2
            | Done (None, None) s2 => Panicked
            | Done (_, Some e) s2 =>
                if is_ENOENT e then finish prefixes items sortItems s2
                else Done (None, Some e) s2
            | Panicked => Panicked
            end
          else finish prefixes items sortItems s1
      end.
Proof.
  intros Hstart Htoken Hreq. unfold ListBlobs. rewrite Hstart.
  unfold bind at 1. unfold refreshToken, local. rewrite Htoken.
  unfold bind at 1. fold (list_options param).
  assert (Hseg :
    ListBlobs_segment az b mapHttpError param (list_options param)
      {| world := w0; trace := trace s |}
    = Done (inl (listed_prefixes b param resp, [], BlobItems resp,
                 NextMarker resp))
           {| world := w1; trace := trace s ++ [list_request_sent param] |}).
  { unfold ListBlobs_segment. unfold list_request in Hreq.
    unfold list_request_sent, listed_prefixes.
    destruct (lb_Delimiter param) as [d|];
      unfold bind, request, ret; cbn [world trace];
      rewrite Hreq; try reflexivity.
    simpl. now rewrite andb_false_r. }
  rewrite Hseg. clear Hseg. cbv zeta.
  assert (Hblob :
    (length (BlobItems resp) =? 1)%nat &&
    (String.length (Name (nth 0 (BlobItems resp)
       {| Name := ""; bi_Metadata := ∅;
          Properties := {| Etag := ""; bp_LastModified := 0;
                           ContentLength := None; AccessTier := "" |} |}))
     <=? String.length (opt_Prefix (list_options param)))%nat &&
    HasSuffix (opt_Prefix (list_options param)) "/"
    = lists_a_blob param resp).
  { unfold lists_a_blob. cbn [opt_Prefix list_options].
    destruct (BlobItems resp) as [|i [|i' rest]]; simpl; try reflexivity. }
  rewrite Hblob. clear Hblob.
  destruct (lists_a_blob param resp); [reflexivity|].
  destruct (ListBlobs_loop _ _ _ _ _ _) as [[[prefixes items] sortItems]|];
    [|reflexivity].
  cbn [opt_Prefix list_options].
  destruct (HasSuffix (NilStr (lb_Prefix param)) "/"); [|reflexivity].
  unfold bind.
  destruct (HeadBlob az mapHttpError PMetadata _ _) as [[[d|] [e|]] s2|];
    try reflexivity.
  - destruct (is_ENOENT e); reflexivity.
  - destruct (is_ENOENT e); reflexivity.
Qed.

End ListBlobsFacts.

(** ** Directory names *)

Lemma drop_last_length Key :
  HasSuffix Key "/" = true ->
  String.length (drop_last Key) = pred (String.length Key).
Proof. intros H. rewrite (HasSuffix_slash_length Key H). reflexivity. Qed.

Lemma HasSuffix_empty : HasSuffix "" "/" = false.
Proof. reflexivity. Qed.

Lemma HasSuffix_short Key :
  String.length Key = 0%nat -> HasSuffix Key "/" = false.
Proof. destruct Key; [reflexivity|discriminate]. Qed.

Lemma strip_slashes_more rounds : forall Key,
  (String.length Key <= rounds)%nat ->
  strip_slashes (S rounds) Key = strip_slashes rounds Key.
Proof.
  induction rounds as [|rounds IH]; intros Key Hlen.
  - simpl. rewrite HasSuffix_short by lia. reflexivity.
  - change (strip_slashes (S (S rounds)) Key)
      with (if HasSuffix Key "/"
            then strip_slashes (S rounds) (drop_last Key) else Key).
    change (strip_slashes (S rounds) Key)
      with (if HasSuffix Key "/"
            then strip_slashes rounds (drop_last Key) else Key).
    destruct (HasSuffix Key "/") eqn:Hs; [|reflexivity].
    apply IH. rewrite drop_last_length by exact Hs. lia.
Qed.

Lemma blob_name_of_unfold Key :
  blob_name_of Key
  = if HasSuffix Key "/" then blob_name_of (drop_last Key) else Key.
Proof.
  unfold blob_name_of.
  destruct (HasSuffix Key "/") eqn:Hs.
  - rewrite (HasSuffix_slash_length Key Hs). simpl. now rewrite Hs.
  - destruct (String.length Key); simpl; [reflexivity|now rewrite Hs].
Qed.

Lemma count_slashes_more rounds : forall Key,
  (String.length Key <= rounds)%nat ->
  count_slashes (S rounds) Key = count_slashes rounds Key.
Proof.
  induction rounds as [|rounds IH]; intros Key Hlen.
  - simpl. rewrite HasSuffix_short by lia. reflexivity.
  - change (count_slashes (S (S rounds)) Key)
      with (if HasSuffix Key "/"
            then S (count_slashes (S rounds) (drop_last Key)) else O).
    change (count_slashes (S rounds) Key)
      with (if HasSuffix Key "/"
            then S (count_slashes rounds (drop_last Key)) else O).
    destruct (HasSuffix Key "/") eqn:Hs; [|reflexivity].
    f_equal. apply IH. rewrite drop_last_length by exact Hs. lia.
Qed.

Lemma trailing_slashes_unfold Key :
  trailing_slashes Key
  = if HasSuffix Key "/" then S (trailing_slashes (drop_last Key)) else O.
Proof.
  unfold trailing_slashes.
  destruct (HasSuffix Key "/") eqn:Hs.
  - rewrite (HasSuffix_slash_length Key Hs). simpl. now rewrite Hs.
  - destruct (String.length Key); simpl; [reflexivity|now rewrite Hs].
Qed.

(** Induction on a key along its trailing slashes. *)
Lemma slash_ind (P : string -> Prop) :
  (forall Key, HasSuffix Key "/" = false -> P Key) ->
  (forall Key, HasSuffix Key "/" = true -> P (drop_last Key) -> P Key) ->
  forall Key, P Key.
Proof.
  intros Hbase Hstep Key.
  remember (String.length Key) as n eqn:Hn. revert Key Hn.
  induction n as [|n IH]; intros Key Hn.
  - apply Hbase, HasSuffix_short. lia.
  - destruct (HasSuffix Key "/") eqn:Hs; [|now apply Hbase].
    apply Hstep; [exact Hs|]. apply IH.
    rewrite drop_last_length by exact Hs. lia.
Qed.

(** The name of the blob has no trailing slash, and the key is that name
    followed by its trailing slashes. *)
Lemma blob_name_of_no_slash Key : HasSuffix (blob_name_of Key) "/" = false.
Proof.
  induction Key as [Key Hs|Key Hs IH] using slash_ind;
    rewrite blob_name_of_unfold, Hs; assumption.
Qed.

Lemma blob_name_of_slashes Key :
  Key = blob_name_of Key +:+ slashes (trailing_slashes Key).
Proof.
  induction Key as [Key Hs|Key Hs IH] using slash_ind;
    rewrite blob_name_of_unfold, trailing_slashes_unfold, Hs.
  - simpl. now rewrite append_nil_r.
  - simpl. rewrite <- append_assoc, <- IH. now apply HasSuffix_slash.
Qed.

(** ** HeadBlob, unrolled *)
Section HeadBlobFacts.
Context {W : Type}.
Variable az : AzureClient W.
Variable mapHttpError : Z -> option error.
Variable PMetadata : gmap string string -> gmap string (option string).

Lemma HeadBlob_body_ext rec1 rec2 Key :
  (HasSuffix Key "/" = true ->
   forall s : St W, rec1 (drop_last Key) s = rec2 (drop_last Key) s) ->
  forall s : St W,
    HeadBlob_body az mapHttpError PMetadata rec1 Key s
    = HeadBlob_body az mapHttpError PMetadata rec2 Key s.
Proof.
  intros Hrec s. unfold HeadBlob_body, bind.
  destruct (refreshToken az s) as [[e|] s0|]; try reflexivity.
  destruct (HasSuffix Key "/"); [|reflexivity].
  now rewrite Hrec.
Qed.

Lemma HeadBlob_depth_more depth : forall Key (s : St W),
  (String.length Key <= depth)%nat ->
  HeadBlob_depth az mapHttpError PMetadata (S depth) Key s
  = HeadBlob_depth az mapHttpError PMetadata depth Key s.
Proof.
  induction depth as [|depth IH]; intros Key s Hlen.
  - apply HeadBlob_body_ext. intros Hs.
    rewrite HasSuffix_short in Hs by lia. discriminate Hs.
  - apply HeadBlob_body_ext. intros Hs s0. apply IH.
    rewrite drop_last_length by exact Hs. lia.
Qed.

(** [HeadBlob] is its body with itself for the inner call. *)
Lemma HeadBlob_unfold Key (s : St W) :
  HeadBlob az mapHttpError PMetadata Key s
  = HeadBlob_body az mapHttpError PMetadata
      (HeadBlob az mapHttpError PMetadata) Key s.
Proof.
  unfold HeadBlob at 1.
  destruct (String.length Key) as [|n] eqn:Hn.
  - apply HeadBlob_body_ext. intros Hs.
    rewrite HasSuffix_short in Hs by exact Hn. discriminate Hs.
  - apply HeadBlob_body_ext. intros Hs s0. unfold HeadBlob.
    rewrite drop_last_length, Hn by exact Hs. reflexivity.
Qed.

(** [HeadBlob] of a key, when every token refresh on the way gives a token
    and the service has the properties of the blob: the key is resolved to
    the blob named by the key without its trailing slashes; a key with a
    trailing slash is found only when that blob carries the directory
    marker. *)
Lemma HeadBlob_resolves Key : forall (s : St W) w resp w',
  refreshed az (S (trailing_slashes Key)) (world s) = Some w ->
  az_GetProperties az (blob_name_of Key) w = (inl resp, w') ->
  HeadBlob az mapHttpError PMetadata Key s
  = Done (Some (head_output PMetadata (blob_name_of Key) resp),
          if HasSuffix Key "/" &&
             negb (IsDirBlob (head_output PMetadata (blob_name_of Key) resp))
          then Some (SyscallErrno ENOENT) else None)
         {| world := w';
            trace := trace s ++ [ReqGetProperties (blob_name_of Key)] |}.
Proof.
  induction Key as [Key Hs|Key Hs IH] using slash_ind;
    intros s w resp w' Htoken Hgp;
    rewrite trailing_slashes_unfold, Hs in Htoken;
    rewrite blob_name_of_unfold, Hs in Hgp |- *;
    rewrite HeadBlob_unfold; unfold HeadBlob_body, bind, refreshToken, local;
    simpl in Htoken;
    destruct (az_refreshToken az (world s)) as [[e|] w1]; try discriminate Htoken.
  - inversion Htoken; subst. rewrite Hs. unfold request. cbn [world trace].
    rewrite Hgp. reflexivity.
  - rewrite Hs.
    rewrite (IH {| world := w1; trace := trace s |} w resp w' Htoken Hgp).
    cbn [world trace andb].
    destruct (HasSuffix (drop_last Key) "/");
      destruct (IsDirBlob (head_output PMetadata _ resp)); reflexivity.
Qed.

(** [HeadBlob] returns, whatever the service answers. *)
Lemma HeadBlob_returns Key : forall s : St W,
  exists r s', HeadBlob az mapHttpError PMetadata Key s = Done r s'.
Proof.
  induction Key as [Key Hs|Key Hs IH] using slash_ind; intros s;
    rewrite HeadBlob_unfold; unfold HeadBlob_body, bind, refreshToken, local;
    destruct (az_refreshToken az (world s)) as [[e|] w1];
    unfold ret; eauto; rewrite Hs.
  - unfold request. cbn [world trace].
    destruct (az_GetProperties az Key w1) as [[resp|err] w']; eauto.
  - destruct (IH {| world := w1; trace := trace s |}) as (r & s' & Hr).
    rewrite Hr.
    assert (Hinner := Hr). rewrite HeadBlob_unfold in Hinner.
    destruct r as [[d|] [e|]]; eauto.
    + destruct (negb (IsDirBlob d)); eauto.
    + exfalso. unfold HeadBlob_body in Hinner. exec_in Hinner.
      inversion Hinner as [[Hnone Hstate]]. unfold mapErr in Hnone.
      match type of Hnone with
      | mapAZBError _ (Some ?err) = None =>
          destruct (mapAZBError_is_Some mapHttpError err) as [x Hx];
          rewrite Hx in Hnone; discriminate Hnone
      end.
Qed.

End HeadBlobFacts.

(** ** PutBlob, unrolled *)
Section PutBlobFacts.
Context {W : Type}.
Variable az : AzureClient W.
Variable mapHttpError : Z -> option error.

Lemma PutBlob_body_ext rec1 rec2 param :
  (pb_DirBlob param && HasSuffix (pb_Key param) "/" = true ->
   forall p (s : St W), pb_Key p = drop_last (pb_Key param) ->
                        rec1 p s = rec2 p s) ->
  forall s : St W,
    PutBlob_body az mapHttpError rec1 param s
    = PutBlob_body az mapHttpError rec2 param s.
Proof.
  intros Hrec s. unfold PutBlob_body, bind.
  destruct (refreshToken az s) as [[e|] s0|]; try reflexivity.
  destruct (pb_DirBlob param && HasSuffix (pb_Key param) "/"); [|reflexivity].
  now apply Hrec.
Qed.

Lemma PutBlob_depth_more depth : forall param (s : St W),
  (String.length (pb_Key param) <= depth)%nat ->
  PutBlob_depth az mapHttpError (S depth) param s
  = PutBlob_depth az mapHttpError depth param s.
Proof.
  induction depth as [|depth IH]; intros param s Hlen.
  - apply PutBlob_body_ext. intros Hs.
    apply andb_true_iff in Hs as [_ Hs].
    rewrite HasSuffix_short in Hs by lia. discriminate Hs.
  - apply PutBlob_body_ext. intros Hs p s0 Hp.
    apply andb_true_iff in Hs as [_ Hs]. apply IH.
    rewrite Hp, drop_last_length by exact Hs. lia.
Qed.

Lemma PutBlob_unfold param (s : St W) :
  PutBlob az mapHttpError param s
  = PutBlob_body az mapHttpError (PutBlob az mapHttpError) param s.
Proof.
  unfold PutBlob at 1.
  destruct (String.length (pb_Key param)) as [|n] eqn:Hn.
  - apply PutBlob_body_ext. intros Hs.
    apply andb_true_iff in Hs as [_ Hs].
    rewrite HasSuffix_short in Hs by exact Hn. discriminate Hs.
  - apply PutBlob_body_ext. intros Hs p s0 Hp.
    apply andb_true_iff in Hs as [_ Hs]. unfold PutBlob.
    rewrite Hp, drop_last_length, Hn by exact Hs. reflexivity.
Qed.

(** [PutBlob] by the token refreshes and the answer to its upload: when a
    refresh fails it returns that error and has sent nothing; otherwise it
    sends one upload, to the blob named by the key (without its trailing
    slashes when [DirBlob] is set), with the metadata through
    [nilMetadata] (with the directory marker when [DirBlob] is set and the
    key ends in a slash). *)
Lemma PutBlob_cases Key : forall param (s : St W),
  pb_Key param = Key ->
  match refreshed az (put_refreshes param) (world s) with
  | None =>
      exists e s',
        PutBlob az mapHttpError param s = Done (None, Some e) s' /\
        trace s' = trace s
  | Some w =>
      PutBlob az mapHttpError param s
      = match
          az_Upload az (put_name param) (put_body param)
            (NilStr (pb_ContentType param))
            (nilMetadata (put_metadata param)) w
        with
        | (inl resp, w') =>
            Done (Some {| pb_ETag := PString (bb_ETag resp);
                          pb_LastModified := PTime (bb_LastModified resp) |},
                  None)
                 {| world := w'; trace := trace s ++ [put_request param] |}
        | (inr err, w') =>
            Done (None, mapErr mapHttpError err)
                 {| world := w'; trace := trace s ++ [put_request param] |}
        end
  end.
Proof.
  induction Key as [Key Hs|Key Hs IH] using slash_ind;
    intros param s HKey; rewrite PutBlob_unfold;
    unfold PutBlob_body, bind, refreshToken, local.
  - (* no trailing slash: one refresh, one upload *)
    assert (Hone : put_refreshes param = 1%nat).
    { unfold put_refreshes. rewrite trailing_slashes_unfold, HKey, Hs.
      now destruct (pb_DirBlob param). }
    assert (Hname : put_name param = pb_Key param).
    { unfold put_name. rewrite blob_name_of_unfold, HKey, Hs.
      now destruct (pb_DirBlob param). }
    assert (Hmd : put_metadata param = pb_Metadata param).
    { unfold put_metadata. rewrite HKey, Hs. now rewrite andb_false_r. }
    unfold put_request. rewrite Hone, Hname, Hmd. simpl.
    destruct (az_refreshToken az (world s)) as [[e|] w1].
    + unfold ret. eauto.
    + rewrite HKey, Hs, andb_false_r. unfold request. cbn [world trace].
      fold (put_body param).
      destruct (az_Upload az _ _ _ _ w1) as [[resp|err] w']; reflexivity.
  - destruct (pb_DirBlob param) eqn:Hdir.
    + (* a directory key: the call on the key without its last slash *)
      set (inner := {|
        pb_Key := drop_last (pb_Key param);
        pb_Metadata :=
          <[AzureDirBlobMetadataKey := PString "true"]> (pb_Metadata param);
        pb_ContentType := pb_ContentType param;
        pb_DirBlob := true;
        pb_Body := pb_Body param |}).
      assert (Hrefreshes : put_refreshes param = S (put_refreshes inner)).
      { unfold put_refreshes. rewrite Hdir. cbn [pb_DirBlob pb_Key inner].
        now rewrite (trailing_slashes_unfold (pb_Key param)), HKey, Hs. }
      assert (Hname : put_name param = put_name inner).
      { unfold put_name. rewrite Hdir. cbn [pb_DirBlob pb_Key inner].
        now rewrite (blob_name_of_unfold (pb_Key param)), HKey, Hs. }
      assert (Hmd : put_metadata param = put_metadata inner).
      { unfold put_metadata. rewrite Hdir, HKey, Hs.
        cbn [pb_DirBlob pb_Key pb_Metadata inner andb].
        destruct (HasSuffix (drop_last (pb_Key param)) "/");
          [now rewrite insert_insert_eq|reflexivity]. }
      assert (Hreq : put_request param = put_request inner).
      { unfold put_request. now rewrite Hname, Hmd. }
      rewrite Hrefreshes, Hname, Hmd, Hreq.
      change (refreshed az (S (put_refreshes inner)) (world s))
        with (match az_refreshToken az (world s) with
              | (None, w') => refreshed az (put_refreshes inner) w'
              | (Some _, _) => None
              end).
      destruct (az_refreshToken az (world s)) as [[e|] w1].
      * unfold ret. eauto.
      * rewrite HKey, Hs. cbn [andb].
        assert (HinnerKey : pb_Key inner = drop_last Key)
          by (cbn [pb_Key inner]; now rewrite HKey).
        specialize (IH inner {| world := w1; trace := trace s |} HinnerKey).
        cbn [world trace] in IH. fold inner.
        destruct (refreshed az (put_refreshes inner) w1) as [w|];
          exact IH.
    + (* DirBlob is not set: the key is taken as it is *)
      unfold put_request, put_name, put_metadata, put_refreshes.
      rewrite Hdir. cbn [andb]. simpl.
      destruct (az_refreshToken az (world s)) as [[e|] w1].
      * unfold ret. eauto.
      * unfold request. cbn [world trace]. fold (put_body param).
        destruct (az_Upload az _ _ _ _ w1) as [[resp|err] w']; reflexivity.
Qed.

End PutBlobFacts.

(** ** The directory marker through nilMetadata *)

Lemma nilMetadata_entries_lookup entries k0 v0 :
  (exists k v, (k, v) ∈ entries /\ ToLower k = k0) ->
  (forall k v, (k, v) ∈ entries -> ToLower k = k0 -> NilStr v = v0) ->
  nilMetadata_entries entries !! k0 = Some v0.
Proof.
  unfold nilMetadata_entries. intros Hex Hall.
  assert (H : forall acc : gmap string string,
    (acc !! k0 = Some v0 \/ exists k v, (k, v) ∈ entries /\ ToLower k = k0) ->
    foldl (fun metadata kv => <[ToLower (fst kv) := NilStr (snd kv)]> metadata)
      acc entries !! k0 = Some v0).
  { clear Hex. induction entries as [|[k v] rest IH]; intros acc Hacc.
    - destruct Hacc as [Hacc|(k & v & Hin & _)]; [exact Hacc|].
      inversion Hin.
    - simpl. apply IH.
      + intros k' v' Hin. apply Hall. now right.
      + destruct (decide (ToLower k = k0)) as [Heq|Hne].
        * left. rewrite <- Heq at 1. rewrite lookup_insert_eq. f_equal.
          apply (Hall k v); [now left|exact Heq].
        * rewrite lookup_insert_ne by exact Hne.
          destruct Hacc as [Hacc|(k' & v' & Hin & Hk')]; [now left|].
          right. exists k', v'. split; [|exact Hk'].
          apply elem_of_cons in Hin as [Heq|Hin]; [|exact Hin].
          inversion Heq; subst. contradiction. }
  apply H. now right.
Qed.

Lemma nilMetadata_entries_is_Some entries k0 :
  (exists k v, (k, v) ∈ entries /\ ToLower k = k0) ->
  is_Some (nilMetadata_entries entries !! k0).
Proof.
  unfold nilMetadata_entries. intros Hex.
  assert (H : forall acc : gmap string string,
    (is_Some (acc !! k0) \/ exists k v, (k, v) ∈ entries /\ ToLower k = k0) ->
    is_Some
      (foldl (fun metadata kv =>
                <[ToLower (fst kv) := NilStr (snd kv)]> metadata)
             acc entries !! k0)).
  { clear Hex. induction entries as [|[k v] rest IH]; intros acc Hacc.
    - destruct Hacc as [Hacc|(k & v & Hin & _)]; [exact Hacc|].
      inversion Hin.
    - simpl. apply IH.
      destruct (decide (ToLower k = k0)) as [Heq|Hne].
      + left. rewrite <- Heq. rewrite lookup_insert_eq. eauto.
      + rewrite lookup_insert_ne by exact Hne.
        destruct Hacc as [Hacc|(k' & v' & Hin & Hk')]; [now left|].
        right. exists k', v'. split; [|exact Hk'].
        apply elem_of_cons in Hin as [Heq|Hin]; [|exact Hin].
        inversion Heq; subst. contradiction. }
  apply H. now right.
Qed.

Lemma ToLower_marker : ToLower AzureDirBlobMetadataKey = AzureDirBlobMetadataKey.
Proof. reflexivity. Qed.

(** The marker that [PutBlob] sets is sent; it is sent as "true" when no
    other key of the caller's metadata is the marker key in another case. *)
Lemma nilMetadata_marker (md : gmap string (option string)) :
  is_Some (nilMetadata (<[AzureDirBlobMetadataKey := PString "true"]> md)
           !! AzureDirBlobMetadataKey) /\
  (no_marker_alias md ->
   nilMetadata (<[AzureDirBlobMetadataKey := PString "true"]> md)
   !! AzureDirBlobMetadataKey = Some "true").
Proof.
  assert (Hin : exists k v,
    (k, v) ∈ map_to_list (<[AzureDirBlobMetadataKey := PString "true"]> md) /\
    ToLower k = AzureDirBlobMetadataKey).
  { exists AzureDirBlobMetadataKey, (PString "true").
    split; [|reflexivity].
    apply elem_of_map_to_list, lookup_insert_eq. }
  split.
  - now apply nilMetadata_entries_is_Some.
  - intros Halias. apply nilMetadata_entries_lookup; [exact Hin|].
    intros k v Hkv Hlow. apply elem_of_map_to_list in Hkv.
    destruct (decide (AzureDirBlobMetadataKey = k)) as [<-|Hne].
    + rewrite lookup_insert_eq in Hkv. now inversion Hkv.
    + rewrite lookup_insert_ne in Hkv by exact Hne.
      exfalso. apply Hne. symmetry. apply Halias; [eauto|exact Hlow].
Qed.

(** ** Directory blobs: PutBlob, then HeadBlob *)




(** ** Sorting *)
Section SortFacts.
Context {A : Type} (key : A -> string).

Lemma sort_insert_perm x l : sort_insert key x l ≡ₚ x :: l.
Proof.
  induction l as [|y l IH]; simpl; [reflexivity|].
  destruct (Less_string (key x) (key y)); [reflexivity|].
  rewrite IH. apply Permutation_swap.
Qed.

Lemma Sort_perm l : Sort key l ≡ₚ l.
Proof.
  induction l as [|x l IH]; simpl; [reflexivity|].
  now rewrite sort_insert_perm, IH.
Qed.

Lemma Sort_Forall (P : A -> Prop) l : Forall P l -> Forall P (Sort key l).
Proof. intros H. now rewrite Sort_perm. Qed.

End SortFacts.

(** ** Metadata that is returned, metadata that is sent *)
Section HiddenMarker.
Context {W : Type}.
Variable az : AzureClient W.
Variable b : AZBlob.
Variable mapHttpError : Z -> option error.
Variable PMetadata : gmap string string -> gmap string (option string).

Lemma ListBlobs_loop_hides hasDelimiter blobItems :
  forall prefixes items sortItems prefixes' items' sortItems',
    Forall hides_marker items ->
    ListBlobs_loop PMetadata hasDelimiter blobItems prefixes items sortItems
    = Some (prefixes', items', sortItems') ->
    Forall hides_marker items'.
Proof.
  induction blobItems as [|i rest IH];
    intros prefixes items sortItems prefixes' items' sortItems' Hitems H;
    simpl in H.
  - inversion H; subst. exact Hitems.
  - destruct (negb (String.eqb
        (default "" (bi_Metadata i !! AzureDirBlobMetadataKey)) "")
      && hasDelimiter).
    + eapply IH, H. exact Hitems.
    + destruct (ContentLength (Properties i)) as [len|]; [|discriminate H].
      eapply IH, H. apply Forall_app. split; [exact Hitems|].
      constructor; [|constructor].
      unfold hides_marker. cbn [Metadata]. apply lookup_delete_eq.
Qed.

Lemma GetBlob_hides param (s s' : St W) out e :
  GetBlob az mapHttpError PMetadata param s = Done (Some out, e) s' ->
  hides_marker (Item (gb_Head out)).
Proof.
  intros H. unfold GetBlob in H. exec_in H.
  inversion H; subst. unfold hides_marker. cbn [gb_Head Item Metadata].
  apply lookup_delete_eq.
Qed.

Lemma ListBlobs_hides param (s s' : St W) out :
  PMetadata_keys PMetadata -> lower_case_responses az ->
  ListBlobs az b mapHttpError PMetadata param s = Done (Some out, None) s' ->
  Forall hides_marker (Items out).
Proof.
  intros HP Hresp H.
  destruct (ListBlobs_cases az b mapHttpError PMetadata param s s' out H)
    as (w0 & resp & w1 & _ & _ & _ & Hcases).
  cbv zeta in Hcases.
  destruct Hcases as [(_ & -> & _)|
    (_ & prefixes & items & sortItems & items' & sortItems' &
     Hloop & Hfill & ->)]; [constructor|].
  cbn [Items].
  assert (Hitems : Forall hides_marker items)
    by (eapply ListBlobs_loop_hides, Hloop; constructor).
  assert (Hitems' : Forall hides_marker items').
  { destruct (HasSuffix (NilStr (lb_Prefix param)) "/").
    - destruct Hfill as (r & Hhead &
        [(d & -> & -> & _)|(d & e & -> & _ & -> & _)]); [|exact Hitems].
      apply Forall_app. split; [exact Hitems|].
      constructor; [|constructor].
      unfold hides_marker, dir_item. cbn [Metadata].
      eapply (HeadBlob_hides az mapHttpError PMetadata HP Hresp), Hhead.
    - now destruct Hfill as (-> & _). }
  destruct sortItems'; [now apply Sort_Forall|exact Hitems'].
Qed.

Lemma CopyBlob_depth_sends polls depth : forall param (s s' : St W) r,
  CopyBlob_depth az mapHttpError polls depth param s = Done r s' ->
  exists sent, trace s' = trace s ++ sent /\ Forall sends_lower_case sent.
Proof.
  induction depth as [|depth IH]; intros param s s' r H; simpl in H;
    unfold CopyBlob_body in H;
    (destruct (HasSuffix (cp_Source param) "/" &&
               HasSuffix (cp_Destination param) "/");
     [first [discriminate H | eapply IH, H]|]).
  all: unfold bind at 1 in H; unfold refreshToken, local in H;
    destruct (az_refreshToken az (world s)) as [[e|] w0];
    [inversion H; subst; exists []; rewrite app_nil_r; split;
       [reflexivity|constructor]|].
  all: unfold bind at 1 in H; unfold request at 1 in H;
    cbn [world trace] in H;
    destruct (az_StartCopyFromURL az _ _ _ w0) as [[resp|err] w1].
  all: try (inversion H; subst; eexists [_]; split; [reflexivity|];
            constructor; [|constructor];
            intros md [= <-]; apply nilMetadata_lower).
  all: destruct (String.eqb (sc_CopyStatus resp) CopyStatusPending);
    [|inversion H; subst; eexists [_]; split; [reflexivity|];
      constructor; [|constructor];
      intros md [= <-]; apply nilMetadata_lower].
  all: unfold bind at 1 in H; unfold request at 1 in H;
    cbn [world trace] in H; unfold bind at 1 in H;
    match type of H with
    | context [CopyBlob_poll _ ?p ?d ?c ?s2] =>
        pose proof (CopyBlob_poll_spec az d c p s2) as Hspec;
        destruct (CopyBlob_poll az p d c s2) as [[[err|]|] s3|]
    end; try discriminate H.
  all: cbn [world trace] in Hspec;
    assert (Htr : exists n, trace s3 =
      ((trace s ++ [ReqStartCopyFromURL (cp_Destination param)
                      (cp_Source param) (nilMetadata (cp_Metadata param))])
       ++ [Sleep 50]) ++ replicate n (ReqGetProperties (cp_Destination param)))
      by (first [destruct Hspec as (k & _ & _ & _ & _ & Htr)
                |destruct Hspec as (_ & _ & Htr)];
          eexists; exact Htr).
  all: destruct Htr as [n Htr]; inversion H; subst s'; rewrite Htr;
    rewrite <- !app_assoc; eexists; split; [reflexivity|];
    constructor; [intros md [= <-]; apply nilMetadata_lower|];
    constructor; [intros md [=]|];
    apply Forall_forall; intros x Hx;
    apply elem_of_replicate in Hx as [-> _]; intros md [=].
Qed.


End HiddenMarker.

Lemma Store_PMetadata_keys : PMetadata_keys Store.PMetadata.
Proof.
  intros m k [v Hv]. unfold Store.PMetadata in Hv.
  rewrite lookup_fmap in Hv. exists k. split; [|reflexivity].
  destruct (m !! k); [eauto|discriminate Hv].
Qed.

Lemma Store_NewMetadata_lower headers : lower_keys (Store.NewMetadata headers).
Proof.
  unfold Store.NewMetadata.
  assert (H : forall (entries : list (string * string))
                     (acc : gmap string string),
            lower_keys acc ->
            lower_keys
              (foldl (fun md kv => <[ToLower (fst kv) := snd kv]> md)
                     acc entries)).
  { induction entries as [|[k v] entries IH]; intros acc Hacc; [exact Hacc|].
    simpl. apply IH. intros k' Hk'.
    destruct (decide (ToLower k = k')) as [<-|Hne].
    - apply ToLower_idem.
    - rewrite lookup_insert_ne in Hk' by exact Hne. now apply Hacc. }
  apply H. intros k Hk. rewrite lookup_empty in Hk. now destruct Hk.
Qed.

Lemma Store_lower_case_responses : lower_case_responses Store.client.
Proof.
  intros name w resp w' H. cbn [az_GetProperties Store.client] in H.
  unfold Store.GetProperties in H.
  destruct (Store.blobs w !! name) as [bl|]; [|discriminate H].
  inversion H; subst. apply Store_NewMetadata_lower.
Qed.


(** ** Listing under the key of a file *)

Lemma blob_name_of_dir key :
  HasSuffix key "/" = false ->
  blob_name_of (key +:+ "/") = key /\ trailing_slashes (key +:+ "/") = 1%nat.
Proof.
  intros Hs.
  rewrite blob_name_of_unfold, trailing_slashes_unfold, HasSuffix_app.
  rewrite drop_last_app.
  rewrite blob_name_of_unfold, trailing_slashes_unfold, Hs. auto.
Qed.

(** C6.  A [ListBlobs] whose prefix is the key of a file (a key without a
    trailing slash; the service answers with that one blob, which carries no
    directory marker, and with no prefix) returns that one item and no
    prefix.  A [ListBlobs] under the key followed by a slash returns an empty
    result: when the service answers with the blob of the file itself, as
    under hierarchical namespaces, and when it answers with nothing and the
    blob of the file carries no directory marker. *)
Theorem ListBlobs_prefix_is_file_key {W : Type} (az : AzureClient W)
    (b : AZBlob) (mapHttpError : Z -> option error)
    (PMetadata : gmap string string -> gmap string (option string)) :
  (forall param (s : St W) key w0 resp w1 it len,
     lb_StartAfter param = None ->
     lb_Prefix param = Some key ->
     HasSuffix key "/" = false ->
     az_refreshToken az (world s) = (None, w0) ->
     list_request az param w0 = (inl resp, w1) ->
     BlobItems resp = [it] -> BlobPrefixes resp = [] ->
     Name it = key ->
     bi_Metadata it !! AzureDirBlobMetadataKey = None ->
     ContentLength (Properties it) = Some len ->
     exists out s',
       ListBlobs az b mapHttpError PMetadata param s
       = Done (Some out, None) s' /\
       Prefixes out = [] /\
       Items out =
         [{| Key := key;
             ETag := PString (Etag (Properties it));
             LastModified := PTime (bp_LastModified (Properties it));
             Size := uint64_of_int64 len;
             StorageClass := PString (AccessTier (Properties it));
             Metadata :=
               delete AzureDirBlobMetadataKey (PMetadata (bi_Metadata it)) |}])
  /\
  (forall param (s : St W) key w0 resp w1 it,
     lb_StartAfter param = None ->
     lb_Prefix param = Some (key +:+ "/") ->
     az_refreshToken az (world s) = (None, w0) ->
     list_request az param w0 = (inl resp, w1) ->
     BlobItems resp = [it] -> Name it = key ->
     exists s',
       ListBlobs az b mapHttpError PMetadata param s
       = Done (Some ListBlobsOutput_zero, None) s') /\
  (forall param (s : St W) key w0 resp w1 w2 props w3,
     lb_StartAfter param = None ->
     lb_Prefix param = Some (key +:+ "/") ->
     HasSuffix key "/" = false ->
     az_refreshToken az (world s) = (None, w0) ->
     list_request az param w0 = (inl resp, w1) ->
     BlobItems resp = [] -> BlobPrefixes resp = [] ->
     refreshed az 2 w1 = Some w2 ->
     az_GetProperties az key w2 = (inl props, w3) ->
     gp_NewMetadata props !! AzureDirBlobMetadataKey = None ->
     exists out s',
       ListBlobs az b mapHttpError PMetadata param s
       = Done (Some out, None) s' /\
       Prefixes out = [] /\ Items out = []).
Proof.
  assert (Hnoprefix : forall param resp,
    BlobPrefixes resp = [] -> listed_prefixes b param resp = []).
  { intros param resp Hnone. unfold listed_prefixes. rewrite Hnone.
    destruct (lb_Delimiter param); [|reflexivity].
    simpl. now rewrite andb_false_r. }
  split; [|split].
  - intros param s key w0 resp w1 it len
      Hstart Hprefix Hfile Htoken Hreq Hitems Hprefixes Hname Hmarker Hlen.
    rewrite (ListBlobs_eq az b mapHttpError PMetadata param s w0 resp w1
               Hstart Htoken Hreq).
    cbv zeta. unfold lists_a_blob.
    rewrite Hitems, Hprefix, (Hnoprefix _ _ Hprefixes). cbn [NilStr].
    rewrite Hfile, andb_false_r.
    simpl ListBlobs_loop. rewrite Hmarker, Hlen, Hname. simpl.
    eexists _, _. split; [reflexivity|]. split; reflexivity.
  - intros param s key w0 resp w1 it Hstart Hprefix Htoken Hreq Hitems Hname.
    rewrite (ListBlobs_eq az b mapHttpError PMetadata param s w0 resp w1
               Hstart Htoken Hreq).
    cbv zeta. unfold lists_a_blob. rewrite Hitems, Hprefix. cbn [NilStr].
    rewrite HasSuffix_app, andb_true_r, Hname, string_length_app.
    replace (String.length key <=? String.length key + String.length "/")%nat
      with true by (symmetry; apply Nat.leb_le; lia).
    eauto.
  - intros param s key w0 resp w1 w2 props w3
      Hstart Hprefix Hfile Htoken Hreq Hitems Hprefixes Htokens Hgp Hmarker.
    rewrite (ListBlobs_eq az b mapHttpError PMetadata param s w0 resp w1
               Hstart Htoken Hreq).
    cbv zeta. unfold lists_a_blob.
    rewrite Hitems, Hprefix, (Hnoprefix _ _ Hprefixes). cbn [NilStr].
    simpl ListBlobs_loop. rewrite HasSuffix_app.
    destruct (blob_name_of_dir key Hfile) as [Hblob Hone].
    erewrite (HeadBlob_resolves az mapHttpError PMetadata (key +:+ "/"));
      [| cbn [world]; rewrite Hone; exact Htokens
       | rewrite Hblob; exact Hgp].
    rewrite HasSuffix_app.
    assert (Hflag :
      IsDirBlob (head_output PMetadata (blob_name_of (key +:+ "/")) props)
      = false).
    { unfold head_output. cbn [IsDirBlob]. apply bool_decide_eq_false.
      rewrite Hmarker. intros [x Hx]. discriminate Hx. }
    rewrite Hflag. cbn [andb negb]. simpl is_ENOENT. cbv iota.
    eexists _, _. split; [reflexivity|]. split; reflexivity.
Qed.

Lemma ListBlobs_prefix_is_file_key_witness :
  match
    ListBlobs Store.client Store.azure Store.mapHttpError Store.PMetadata
      (Store.list_input (Some "f") (Some "/"))
      (Store.start {[ "f" := Store.file ∅ ]}
         {| BlobPrefixes := []; BlobItems := [Store.listed "f" ∅];
            NextMarker := None |})
  with
  | Done (Some out, None) _ => map Key (Items out) = ["f"] /\ Prefixes out = []
  | _ => False
  end.
Proof.
  destruct (ListBlobs_prefix_is_file_key Store.client Store.azure
              Store.mapHttpError Store.PMetadata) as (Hfile & _ & _).
  set (s0 := Store.start {[ "f" := Store.file ∅ ]}
               {| BlobPrefixes := []; BlobItems := [Store.listed "f" ∅];
                  NextMarker := None |}).
  destruct (Hfile (Store.list_input (Some "f") (Some "/")) s0 "f"
              (world s0) (Store.listing (world s0)) (world s0)
              (Store.listed "f" ∅) 4
              eq_refl eq_refl eq_refl eq_refl eq_refl eq_refl eq_refl eq_refl
              eq_refl eq_refl)
    as (out & s' & Hrun & Hprefixes & Hitems).
  rewrite Hrun, Hitems, Hprefixes. split; reflexivity.
Defined.

(** ** DeleteBlob and DeleteBlobs *)
Section DeleteBlobsFacts.
Context {W : Type}.
Variable az : AzureClient W.
Variable mapHttpError : Z -> option error.
Variable gate_cap : nat.

Lemma DeleteBlob_body_ext rec1 rec2 Key :
  (HasSuffix Key "/" = true ->
   forall s : St W, rec1 (drop_last Key) s = rec2 (drop_last Key) s) ->
  forall s : St W,
    DeleteBlob_body az mapHttpError rec1 Key s
    = DeleteBlob_body az mapHttpError rec2 Key s.
Proof.
  intros Hrec s. unfold DeleteBlob_body, bind.
  destruct (refreshToken az s) as [[e|] s0|]; try reflexivity.
  destruct (HasSuffix Key "/"); [|reflexivity].
  now apply Hrec.
Qed.

Lemma DeleteBlob_unfold Key (s : St W) :
  DeleteBlob az mapHttpError Key s
  = DeleteBlob_body az mapHttpError (DeleteBlob az mapHttpError) Key s.
Proof.
  unfold DeleteBlob at 1.
  destruct (String.length Key) as [|n] eqn:Hn.
  - apply DeleteBlob_body_ext. intros Hs.
    rewrite HasSuffix_short in Hs by exact Hn. discriminate Hs.
  - apply DeleteBlob_body_ext. intros Hs s0. unfold DeleteBlob.
    rewrite drop_last_length, Hn by exact Hs. reflexivity.
Qed.

(** [DeleteBlob] returns, whatever the service answers. *)
Lemma DeleteBlob_returns Key : forall s : St W,
  exists r s', DeleteBlob az mapHttpError Key s = Done r s'.
Proof.
  induction Key as [Key Hs|Key Hs IH] using slash_ind; intros s;
    rewrite DeleteBlob_unfold; unfold DeleteBlob_body, bind, refreshToken, local;
    destruct (az_refreshToken az (world s)) as [[e|] w1];
    unfold ret; eauto; rewrite Hs.
  - unfold request. cbn [world trace].
    destruct (az_Delete az Key w1) as [[err|] w']; eauto.
  - apply IH.
Qed.

Lemma DeleteBlobs_inv_init Items (s : St W) :
  DeleteBlobs_inv mapHttpError Items (DeleteBlobs_init Items s).
Proof.
  unfold DeleteBlobs_inv, DeleteBlobs_init. simpl.
  repeat split; auto.
  - exists []. split; reflexivity.
  - intros e He. discriminate He.
Qed.

Lemma goroutine_deleteError_None (r : GoRet DeleteBlobOutput) deleteError :
  goroutine_deleteError mapHttpError (snd r) deleteError = None <->
  deleteError = None /\ tolerated mapHttpError r.
Proof.
  unfold goroutine_deleteError, tolerated.
  destruct (snd r) as [err|]; [|tauto].
  destruct (mapAZBError_is_Some mapHttpError err) as [err' Herr]. rewrite Herr.
  unfold is_ENOENT. destruct (bool_decide_reflect (err' = SyscallErrno ENOENT))
    as [->|Hne]; [tauto|].
  split; [discriminate|]. intros [_ [= H]]. contradiction.
Qed.

Lemma goroutine_deleteError_Some (r : GoRet DeleteBlobOutput) deleteError e :
  goroutine_deleteError mapHttpError (snd r) deleteError = Some e ->
  deleteError = Some e \/
  exists e0, snd r = Some e0 /\
             mapAZBError mapHttpError (Some e0) = Some e /\
             e <> SyscallErrno ENOENT.
Proof.
  unfold goroutine_deleteError.
  destruct (snd r) as [err|]; [|tauto].
  destruct (mapAZBError mapHttpError (Some err)) as [err'|] eqn:Herr; [|tauto].
  unfold is_ENOENT. destruct (bool_decide_reflect (err' = SyscallErrno ENOENT))
    as [->|Hne]; [tauto|].
  intros [= <-]. right. eauto.
Qed.

Lemma DeleteBlobs_inv_step Items sigma sigma' :
  DeleteBlobs_inv mapHttpError Items sigma ->
  DeleteBlobs_step az mapHttpError gate_cap sigma sigma' ->
  DeleteBlobs_inv mapHttpError Items sigma'.
Proof.
  intros (Hwg & Hgate & (spawned & Hitems & Hperm) & Hnil & Hsome & Hpc) Hstep.
  destruct Hstep; unfold DeleteBlobs_inv;
    cbn [db_pc db_todo db_running db_wg db_gate db_deleteError db_st
         db_finished] in *;
    refine (conj _ (conj _ (conj _ (conj _ (conj _ _))))).
  - (* spawn *) cbn. now rewrite Hwg.
  - cbn. now rewrite Hgate.
  - exists (spawned ++ [key]). split.
    + now rewrite <- app_assoc.
    + rewrite Hperm, <- app_assoc. apply Permutation_app_head.
      symmetry. apply Permutation_cons_append.
  - exact Hnil.
  - exact Hsome.
  - exact I.
  - (* the test finds an error *) exact Hwg.
  - exact Hgate.
  - eauto.
  - exact Hnil.
  - exact Hsome.
  - right. discriminate.
  - (* the test finds none *) exact Hwg.
  - exact Hgate.
  - eauto.
  - exact Hnil.
  - exact Hsome.
  - exact I.
  - (* the range is over *) exact Hwg.
  - exact Hgate.
  - eauto.
  - exact Hnil.
  - exact Hsome.
  - now left.
  - (* a goroutine finishes *)
    rewrite length_app in Hwg |- *. cbn in Hwg. lia.
  - rewrite length_app in Hgate |- *. cbn in Hgate. lia.
  - exists spawned. split; [exact Hitems|].
    rewrite Hperm, map_app. cbn. rewrite <- !app_assoc.
    apply Permutation_app_head. cbn.
    rewrite (Permutation_middle before after key). reflexivity.
  - split.
    + intros Hnone. apply goroutine_deleteError_None in Hnone as [Hold Htol].
      apply Forall_app. split; [now apply Hnil|].
      constructor; [exact Htol|constructor].
    + intros Hall. apply Forall_app in Hall as [Hall Hlast].
      apply goroutine_deleteError_None. split; [now apply Hnil|].
      now inversion Hlast.
  - intros e He. apply goroutine_deleteError_Some in He as [He|He].
    + destruct (Hsome e He) as (key' & r' & e0 & Hin & Hrest).
      exists key', r', e0. split; [|exact Hrest].
      apply elem_of_app. now left.
    + destruct He as (e0 & Hrest). exists key, r, e0.
      split; [|exact Hrest]. apply elem_of_app. right. now left.
  - destruct pc as [| | |ret err]; auto.
    + destruct Hpc as [Hpc|Hpc]; [now left|right].
      rewrite goroutine_deleteError_None. tauto.
    + destruct Hpc as (_ & Hrun & _). now destruct before.
  - (* the call returns *) exact Hwg.
  - exact Hgate.
  - eauto.
  - exact Hnil.
  - exact Hsome.
  - split; [exact Hpc|]. split; [|split; reflexivity].
    symmetry in Hwg. now apply length_zero_iff_nil in Hwg.
Qed.

Lemma DeleteBlobs_inv_reaches Items (s : St W) sigma :
  DeleteBlobs_reaches az mapHttpError gate_cap Items s sigma ->
  DeleteBlobs_inv mapHttpError Items sigma.
Proof.
  unfold DeleteBlobs_reaches. intros Hrun.
  revert sigma Hrun. apply rtc_ind_r.
  - apply DeleteBlobs_inv_init.
  - intros y z _ Hstep IH. eapply DeleteBlobs_inv_step; eassumption.
Qed.

Lemma DeleteBlobs_step_measure sigma sigma' :
  DeleteBlobs_step az mapHttpError gate_cap sigma sigma' ->
  (DeleteBlobs_measure sigma' < DeleteBlobs_measure sigma)%nat.
Proof.
  intros Hstep. destruct Hstep; unfold DeleteBlobs_measure;
    cbn [db_pc db_todo db_running length]; rewrite ?List.length_app;
    cbn [length]; try lia; destruct pc; lia.
Qed.

Lemma DeleteBlobs_progress Items sigma :
  (0 < gate_cap)%nat ->
  DeleteBlobs_inv mapHttpError Items sigma ->
  ~ DeleteBlobs_returned sigma ->
  exists sigma', DeleteBlobs_step az mapHttpError gate_cap sigma sigma'.
Proof.
  intros Hcap (Hwg & Hgate & _) Hnot.
  destruct sigma as [pc todo running wg gate deleteError s finished].
  cbn [db_wg db_gate db_running] in Hwg, Hgate.
  assert (Hgo : running <> [] ->
    exists sigma',
      DeleteBlobs_step az mapHttpError gate_cap
        {| db_pc := pc; db_todo := todo; db_running := running; db_wg := wg;
           db_gate := gate; db_deleteError := deleteError; db_st := s;
           db_finished := finished |} sigma').
  { destruct running as [|key after]; [intros H; now destruct H|]. intros _.
    destruct (DeleteBlob_returns key s) as (r & s' & Hr).
    eexists. apply (step_goroutine az mapHttpError gate_cap pc todo [] key
                      after wg gate deleteError s finished r s' Hr). }
  destruct pc as [| | |ret err].
  - destruct todo as [|key todo].
    + eexists. apply step_loop_end.
    + destruct (decide (gate < gate_cap)%nat) as [Hlt|Hge].
      * eexists. apply step_spawn. exact Hlt.
      * apply Hgo. intros ->. cbn in Hgate. lia.
  - destruct deleteError as [e|].
    + eexists. apply step_check_error.
    + eexists. apply step_check_nil.
  - destruct running as [|key after].
    + cbn in Hwg. subst wg. eexists. apply step_return.
    + apply Hgo. discriminate.
  - exfalso. apply Hnot. exact I.
Qed.

Lemma DeleteBlobs_can_return Items : forall sigma,
  (0 < gate_cap)%nat ->
  DeleteBlobs_inv mapHttpError Items sigma ->
  exists sigma',
    rtc (DeleteBlobs_step az mapHttpError gate_cap) sigma sigma' /\
    DeleteBlobs_returned sigma'.
Proof.
  intros sigma Hcap.
  remember (DeleteBlobs_measure sigma) as n eqn:Hn. revert sigma Hn.
  induction n as [n IH] using lt_wf_ind. intros sigma Hn Hinv.
  destruct (db_pc sigma) as [| | |ret err] eqn:Hpc.
  4:{ exists sigma. split; [constructor|].
      unfold DeleteBlobs_returned. now rewrite Hpc. }
  all: destruct (DeleteBlobs_progress Items sigma Hcap Hinv) as [next Hstep];
    [unfold DeleteBlobs_returned; rewrite Hpc; tauto|].
  all: destruct (IH (DeleteBlobs_measure next)) with (sigma := next)
         as (final & Hrun & Hret);
    [subst n; now apply DeleteBlobs_step_measure
    |reflexivity
    |eapply DeleteBlobs_inv_step; eassumption|].
  all: exists final; split; [eapply rtc_l; eassumption|exact Hret].
Qed.

(** C9.  In every run of [DeleteBlobs]: the call can always go on to its
    return, and every step brings it closer; when it has returned, no
    goroutine it spawned is still running, each of them has finished, and
    it spawned them for the first items of [param.Items]; when every
    finished per-key [DeleteBlob] succeeded or failed with an error that
    [mapAZBError] maps to ENOENT, the call returns an output and a nil error,
    and every item was deleted in its goroutine; when some finished per-key
    [DeleteBlob] failed otherwise, the call returns a nil output and the
    mapped error of such a deletion. *)
Theorem DeleteBlobs_result (Items : list string) (s : St W)
    (sigma : DeleteBlobs_state W) :
  DeleteBlobs_reaches az mapHttpError gate_cap Items s sigma ->
  ((0 < gate_cap)%nat ->
   exists sigma',
     rtc (DeleteBlobs_step az mapHttpError gate_cap) sigma sigma' /\
     DeleteBlobs_returned sigma') /\
  (forall sigma',
     DeleteBlobs_step az mapHttpError gate_cap sigma sigma' ->
     (DeleteBlobs_measure sigma' < DeleteBlobs_measure sigma)%nat) /\
  (forall ret err,
     db_pc sigma = Returned ret err ->
     db_running sigma = [] /\
     db_wg sigma = 0%nat /\
     (exists spawned,
        Items = spawned ++ db_todo sigma /\
        spawned ≡ₚ map fst (db_finished sigma)) /\
     (Forall (fun kr => tolerated mapHttpError (snd kr)) (db_finished sigma) ->
      ret = Some Build_DeleteBlobsOutput /\ err = None /\
      Items ≡ₚ map fst (db_finished sigma)) /\
     (Exists (fun kr => ~ tolerated mapHttpError (snd kr)) (db_finished sigma) ->
      ret = None /\
      exists key r e0 e,
        (key, r) ∈ db_finished sigma /\ snd r = Some e0 /\
        mapAZBError mapHttpError (Some e0) = Some e /\
        e <> SyscallErrno ENOENT /\ err = Some e)).
Proof.
  intros Hrun. pose proof (DeleteBlobs_inv_reaches _ _ _ Hrun) as Hinv.
  split; [|split].
  - intros Hcap. now apply (DeleteBlobs_can_return Items).
  - apply DeleteBlobs_step_measure.
  - intros ret err Hpc.
    destruct Hinv as (Hwg & Hgate & (spawned & Hitems & Hperm) & Hnil & Hsome
                      & Hat).
    rewrite Hpc in Hat. destruct Hat as (Hleft & Hnone & -> & ->).
    rewrite Hnone in Hwg, Hperm. rewrite app_nil_r in Hperm.
    split; [exact Hnone|]. split; [exact Hwg|].
    split; [eauto|]. split.
    + intros Hall. apply Hnil in Hall. rewrite Hall.
      split; [reflexivity|]. split; [reflexivity|].
      destruct Hleft as [Htodo|Herr]; [|contradiction].
      rewrite Hitems, Htodo, app_nil_r. exact Hperm.
    + intros Hex.
      destruct (db_deleteError sigma) as [e|] eqn:Herr.
      * split; [reflexivity|].
        destruct (Hsome e eq_refl) as (key & r & e0 & Hin & Hr & Hmap & Hne).
        exists key, r, e0, e. auto.
      * exfalso. apply Exists_exists in Hex as (kr & Hin & Hnot).
        assert (Hall := proj1 Hnil eq_refl).
        rewrite Forall_forall in Hall. apply Hnot, Hall. exact Hin.
Qed.

End DeleteBlobsFacts.

Lemma DeleteBlobs_result_witness :
  let s0 := Store.start {[ "a" := Store.file ∅ ]} Store.no_listing in
  let final := {|
    db_pc := Returned (Some Build_DeleteBlobsOutput) None;
    db_todo := []; db_running := []; db_wg := 0; db_gate := 0;
    db_deleteError := None;
    db_st := {| world := {| Store.blobs := ∅;
                            Store.listing := Store.no_listing |};
                trace := [ReqDelete "a"] |};
    db_finished := [("a", (Some Build_DeleteBlobOutput, None))] |} in
  DeleteBlobs_reaches Store.client Store.mapHttpError 1 ["a"] s0 final /\
  db_running final = [] /\
  (exists spawned, ["a"] = spawned ++ db_todo final /\
                   spawned ≡ₚ map fst (db_finished final)).
Proof.
  intros s0 final.
  assert (Hrun :
    DeleteBlobs_reaches Store.client Store.mapHttpError 1 ["a"] s0 final).
  { unfold DeleteBlobs_reaches, DeleteBlobs_init, final.
    eapply rtc_l; [apply step_spawn; lia|].
    eapply rtc_l.
    { apply (step_goroutine Store.client Store.mapHttpError 1 AtCheck []
               [] "a" [] 1 1 None s0 []
               (Some Build_DeleteBlobOutput, None)
               {| world := {| Store.blobs := ∅;
                              Store.listing := Store.no_listing |};
                  trace := [ReqDelete "a"] |}).
      vm_compute. reflexivity. }
    eapply rtc_l; [apply step_check_nil|].
    eapply rtc_l; [apply step_loop_end|].
    eapply rtc_l; [apply step_return|].
    apply rtc_refl. }
  split; [exact Hrun|].
  destruct (DeleteBlobs_result Store.client Store.mapHttpError 1 ["a"] s0
              final Hrun) as (_ & _ & Hreturned).
  destruct (Hreturned _ _ eq_refl) as (Hnone & _ & Hspawned & _).
  split; [exact Hnone|exact Hspawned].
Defined.

(** ** Order *)

Lemma str_le_leb a b : str_le a b <-> String.leb a b = true.
Proof.
  unfold str_le, Less_string, String.ltb, String.leb.
  rewrite (String.compare_antisym a b).
  destruct (String.compare b a); simpl; split; congruence.
Qed.

Lemma str_le_refl a : str_le a a.
Proof.
  apply str_le_leb. destruct (String.leb_total a a); assumption.
Qed.

Lemma str_le_trans a b c : str_le a b -> str_le b c -> str_le a c.
Proof.
  rewrite !str_le_leb. intros Hab Hbc.
  pose proof (@transitivity _ String.le _ a b c) as Htrans.
  unfold String.le in Htrans.
  apply Is_true_true. apply Htrans; now apply Is_true_true.
Qed.

Lemma str_lt_le a b : Less_string a b = true -> str_le a b.
Proof.
  unfold str_le, Less_string, String.ltb.
  rewrite (String.compare_antisym a b).
  destruct (String.compare b a); simpl; congruence.
Qed.

#[local] Instance str_le_transitive : Transitive str_le.
Proof. intros a b c. apply str_le_trans. Qed.

Lemma IsSorted_cons {A : Type} (key : A -> string) x y r :
  IsSorted key (x :: y :: r)
  = negb (Less_string (key y) (key x)) && IsSorted key (y :: r).
Proof. reflexivity. Qed.

Lemma IsSorted_ascending {A : Type} (key : A -> string) l :
  IsSorted key l = true <-> ascending (map key l).
Proof.
  unfold ascending. split.
  - intros H. apply Sorted_StronglySorted; [apply str_le_transitive|].
    induction l as [|x l IH]; [constructor|].
    destruct l as [|y r]; [repeat constructor|].
    rewrite IsSorted_cons in H. apply andb_true_iff in H as [Hxy H].
    simpl. constructor; [now apply IH|].
    constructor. unfold str_le. now apply negb_true_iff in Hxy.
  - intros H. apply StronglySorted_Sorted in H.
    induction l as [|x l IH]; [reflexivity|].
    destruct l as [|y r]; [reflexivity|].
    simpl in H. inversion H as [|? ? Hrest Hhd]; subst.
    rewrite IsSorted_cons, (IH Hrest), andb_true_r.
    inversion Hhd; subst. now apply negb_true_iff.
Qed.

Lemma ascending_remove l1 x l2 :
  ascending (l1 ++ x :: l2) -> ascending (l1 ++ l2).
Proof.
  unfold ascending. rewrite !StronglySorted_app, StronglySorted_cons.
  intros (Hcross & Hl1 & _ & Hl2). repeat split; try assumption.
  intros x1 x2 H1 H2. apply Hcross; [exact H1|]. now right.
Qed.

Lemma sort_insert_ascending {A : Type} (key : A -> string) x l :
  ascending (map key l) -> ascending (map key (sort_insert key x l)).
Proof.
  unfold ascending. induction l as [|y r IH]; intros H; cbn [map sort_insert].
  - repeat constructor.
  - cbn [map] in H. apply StronglySorted_cons in H as [Hall Hr].
    destruct (Less_string (key x) (key y)) eqn:Hlt; cbn [map].
    + apply StronglySorted_cons. split.
      * constructor; [apply str_lt_le; exact Hlt|].
        eapply Forall_impl; [exact Hall|].
        intros z Hz.
        exact (str_le_trans _ _ _ (str_lt_le _ _ Hlt) Hz).
      * apply StronglySorted_cons. now split.
    + apply StronglySorted_cons. split; [|now apply IH].
      rewrite (sort_insert_perm key x r). constructor; [exact Hlt|exact Hall].
Qed.

Lemma Sort_ascending {A : Type} (key : A -> string) l :
  ascending (map key (Sort key l)).
Proof.
  induction l as [|x l IH]; simpl; [constructor|].
  now apply sort_insert_ascending.
Qed.

Lemma Sort_IsSorted {A : Type} (key : A -> string) l :
  IsSorted key (Sort key l) = true.
Proof. apply IsSorted_ascending, Sort_ascending. Qed.

(** [sort.Search] returns an index at which [f] holds, when it is below [n],
    and just after one at which [f] fails, when it is above 0; [f] need not
    be monotone for that. *)
Lemma Search_loop_spec (n : nat) (f : nat -> bool) (rounds i j : nat) :
  (i <= j <= n)%nat -> (j - i <= rounds)%nat ->
  ((0 < i)%nat -> f (i - 1)%nat = false) ->
  ((j < n)%nat -> f j = true) ->
  let r := Search_loop rounds f i j in
  (r <= n)%nat /\
  ((0 < r)%nat -> f (r - 1)%nat = false) /\
  ((r < n)%nat -> f r = true).
Proof.
  revert i j. induction rounds as [|rounds IH]; intros i j Hij Hfuel Hlo Hhi.
  - assert (i = j) by lia. subst j. cbn. repeat split; [lia|exact Hlo|exact Hhi].
  - cbn [Search_loop]. destruct (i <? j)%nat eqn:Hlt.
    + apply Nat.ltb_lt in Hlt.
      pose proof (Nat.div_mod_eq (i + j) 2) as Hdiv.
      pose proof (Nat.mod_upper_bound (i + j) 2 ltac:(lia)) as Hmod.
      cbv zeta. destruct (f ((i + j) / 2)%nat) eqn:Hf; cbn [negb].
      * apply IH; [lia|lia|exact Hlo|]. intros _. exact Hf.
      * apply IH; [lia|lia| |exact Hhi]. intros _.
        replace ((i + j) / 2 + 1 - 1)%nat with ((i + j) / 2)%nat by lia.
        exact Hf.
    + apply Nat.ltb_ge in Hlt. assert (i = j) by lia. subst j.
      repeat split; [lia|exact Hlo|exact Hhi].
Qed.

Lemma Search_spec (n : nat) (f : nat -> bool) :
  (Search n f <= n)%nat /\
  ((0 < Search n f)%nat -> f (Search n f - 1)%nat = false) /\
  ((Search n f < n)%nat -> f (Search n f) = true).
Proof.
  unfold Search. apply Search_loop_spec; [lia|lia| |]; intros; lia.
Qed.

(** A name put between the names below it and the names not below it keeps
    the list in ascending order. *)
Lemma insert_ascending (ps : list string) (name : string) :
  ascending ps ->
  forall idx : nat, (idx <= length ps)%nat ->
  ((0 < idx)%nat -> Less_string (nth (idx - 1) ps "") name = true) ->
  ((idx < length ps)%nat -> Less_string (nth idx ps "") name = false) ->
  ascending (take idx ps ++ name :: drop idx ps).
Proof.
  unfold ascending. induction 1 as [|a r Hr IH Hall]; intros idx Hlen Hlo Hhi.
  - destruct idx; cbn; repeat constructor.
  - destruct idx as [|k]; cbn [take drop app].
    + apply StronglySorted_cons. split; [|now constructor].
      assert (Ha : str_le name a) by (apply Hhi; cbn; lia).
      constructor; [exact Ha|].
      eapply Forall_impl; [exact Hall|].
      intros z Hz. exact (str_le_trans _ _ _ Ha Hz).
    + cbn [length] in Hlen.
      apply StronglySorted_cons. split.
      * apply Forall_app. split; [now apply Forall_take|].
        constructor; [|now apply Forall_drop].
        specialize (Hlo ltac:(lia)).
        replace (S k - 1)%nat with k in Hlo by lia.
        apply str_lt_le in Hlo.
        refine (str_le_trans _ _ _ _ Hlo).
        destruct k as [|k']; cbn [nth]; [apply str_le_refl|].
        rewrite Forall_forall in Hall. apply Hall.
        apply list_elem_of_In, nth_In. lia.
      * apply IH; [lia| |].
        -- intros Hk. specialize (Hlo ltac:(lia)).
           replace (S k - 1)%nat with (S (k - 1)) in Hlo by lia.
           exact Hlo.
        -- intros Hk. apply Hhi. cbn [length]. lia.
Qed.

(** The prefixes stay in ascending order when the loop of [ListBlobs] puts
    the name of a directory blob among them. *)
Lemma prefixes_insert_ascending (prefixes : list BlobPrefixOutput)
    (i_Name : string) :
  ascending (map Prefix prefixes) ->
  let n := length prefixes in
  let at_ idx := Prefix (nth idx prefixes {| Prefix := "" |}) in
  let idx := Search n (fun idx => negb (Less_string (at_ idx) i_Name)) in
  ascending
    (map Prefix
       (if (n <=? idx)%nat || negb (String.eqb (at_ idx) i_Name) then
          if (n <=? idx)%nat then prefixes ++ [{| Prefix := i_Name |}]
          else take idx prefixes ++ {| Prefix := i_Name |} :: drop idx prefixes
        else prefixes)).
Proof.
  intros Hsorted n at_ idx.
  destruct (Search_spec n (fun idx => negb (Less_string (at_ idx) i_Name)))
    as (Hle & Hlo & Hhi).
  fold idx in Hle, Hlo, Hhi.
  assert (Hat : forall j, at_ j = nth j (map Prefix prefixes) "").
  { intros j. unfold at_.
    change "" with (Prefix {| Prefix := "" |}) at 2.
    now rewrite map_nth. }
  assert (Hins : ascending
    (map Prefix (take idx prefixes ++ {| Prefix := i_Name |}
                   :: drop idx prefixes))).
  { rewrite map_app. cbn [map Prefix].
    rewrite <- firstn_map, <- skipn_map.
    apply insert_ascending; [exact Hsorted|now rewrite length_map| |].
    - intros Hpos. rewrite <- Hat.
      specialize (Hlo Hpos). now apply negb_false_iff in Hlo.
    - rewrite length_map. intros Hlt. rewrite <- Hat.
      specialize (Hhi Hlt). now apply negb_true_iff in Hhi. }
  destruct (n <=? idx)%nat eqn:Hge; cbn [orb].
  - apply Nat.leb_le in Hge. assert (Hidx : idx = n) by lia.
    rewrite Hidx in Hins. unfold n in Hins.
    now rewrite firstn_all, skipn_all in Hins.
  - destruct (String.eqb (at_ idx) i_Name); cbn [negb];
      [exact Hsorted|exact Hins].
Qed.

Section ListBlobsOrder.
Context {W : Type}.
Variable az : AzureClient W.
Variable b : AZBlob.
Variable mapHttpError : Z -> option error.
Variable PMetadata : gmap string string -> gmap string (option string).

(** The loop over the blob items keeps the prefixes in ascending order, and
    the items too as long as [sortItems] is not set: the names that are still
    to come are above the keys that were already taken. *)
Lemma ListBlobs_loop_ascending hasDelimiter blobItems :
  forall prefixes items sortItems prefixes' items' sortItems',
  ListBlobs_loop PMetadata hasDelimiter blobItems prefixes items sortItems
  = Some (prefixes', items', sortItems') ->
  ascending (map Prefix prefixes) ->
  (sortItems = false -> ascending (map Key items ++ map Name blobItems)) ->
  ascending (map Prefix prefixes') /\
  (sortItems' = false -> ascending (map Key items')).
Proof.
  induction blobItems as [|i rest IH];
    intros prefixes items sortItems prefixes' items' sortItems' Hloop Hp Hi.
  - cbn in Hloop. injection Hloop as <- <- <-. split; [exact Hp|].
    intros Hs. specialize (Hi Hs). cbn [map] in Hi.
    now rewrite app_nil_r in Hi.
  - cbn [ListBlobs_loop] in Hloop. cbv zeta in Hloop.
    destruct (negb (String.eqb
                (default "" (bi_Metadata i !! AzureDirBlobMetadataKey)) ""))
      eqn:HisDir; cbn [andb] in Hloop.
    + destruct hasDelimiter.
      * apply IH in Hloop; [exact Hloop| |].
        -- apply prefixes_insert_ascending. exact Hp.
        -- intros Hs. specialize (Hi Hs). cbn [map] in Hi.
           exact (ascending_remove _ _ _ Hi).
      * destruct (ContentLength (Properties i)); [|discriminate Hloop].
        apply IH in Hloop; [exact Hloop|exact Hp|].
        intros Hs. discriminate Hs.
    + destruct (ContentLength (Properties i)); [|discriminate Hloop].
      apply IH in Hloop; [exact Hloop|exact Hp|].
      intros Hs. specialize (Hi Hs). cbn [map] in Hi.
      rewrite map_app. cbn [map Key]. now rewrite <- app_assoc.
Qed.

(** The prefixes before the loop are in ascending order when the service
    sent them so, and also when the endpoint is Azurite. *)
Lemma listed_prefixes_ascending param resp :
  config_Endpoint b = AzuriteEndpoint \/
  lb_Delimiter param = None \/
  IsSorted (fun name : string => name) (BlobPrefixes resp) = true ->
  ascending (map Prefix (listed_prefixes b param resp)).
Proof.
  intros H. unfold listed_prefixes.
  destruct (lb_Delimiter param) as [d|]; [|constructor].
  cbv zeta.
  destruct (IsSorted Prefix
              (map (fun name => {| Prefix := name |}) (BlobPrefixes resp)))
    eqn:Hsorted.
  - rewrite andb_false_r. now apply IsSorted_ascending.
  - destruct H as [H|[H|H]]; [|discriminate H|].
    + rewrite H, String.eqb_refl. cbn [andb negb]. apply Sort_ascending.
    + apply IsSorted_ascending in H. rewrite map_id in H.
      assert (Hfalse : ascending
        (map Prefix (map (fun name => {| Prefix := name |})
                       (BlobPrefixes resp)))).
      { rewrite map_map. cbn [Prefix]. now rewrite map_id. }
      apply IsSorted_ascending in Hfalse. congruence.
Qed.


End ListBlobsOrder.



(** With the Azurite endpoint and no delimiter, the slice that is sorted
    after the request is [items], which is filled only later from
    [blobItems]: the blobs "b", "a" of a flat listing are returned in that
    order, while the prefixes of a listing with a delimiter are sorted. *)
Lemma ListBlobs_azurite_flat_order :
  (exists out s',
     ListBlobs Store.client Store.azurite Store.mapHttpError Store.PMetadata
       (Store.list_input None None)
       (Store.start ∅
          {| BlobPrefixes := [];
             BlobItems := [Store.listed "b" ∅; Store.listed "a" ∅];
             NextMarker := None |})
     = Done (Some out, None) s' /\
     map Key (Items out) = ["b"; "a"]) /\
  (exists out s',
     ListBlobs Store.client Store.azurite Store.mapHttpError Store.PMetadata
       (Store.list_input None (Some "/"))
       (Store.start ∅
          {| BlobPrefixes := ["d/"; "c/"];
             BlobItems := [Store.listed "b" ∅; Store.listed "a" ∅];
             NextMarker := None |})
     = Done (Some out, None) s' /\
     map Key (Items out) = ["b"; "a"] /\
     map Prefix (Prefixes out) = ["c/"; "d/"]).
Proof.
  split; eexists _, _; (split; [vm_compute; reflexivity|]);
    repeat split; vm_compute; reflexivity.
Qed.

(** * Further properties of the driver *)

(** ** Error mapping *)

(** An error that [mapAZBError] gives is mapped to itself. *)
Lemma mapAZBError_result_fixed (mapHttpError : Z -> option error) err e :
  gives_no_storage_error mapHttpError ->
  mapAZBError mapHttpError (Some err) = Some e ->
  mapAZBError mapHttpError (Some e) = Some e.
Proof.
  intros Hno. destruct err as [e0|stgErr|msg]; try (now intros [= <-]).
  cbn [mapAZBError].
  destruct (switch_case (ServiceCode stgErr) service_code_table) as [e0|] eqn:Hsw;
    [now intros [= <-]|].
  destruct (mapHttpError (StatusCode stgErr)) as [e0|] eqn:Hhttp;
    intros [= <-].
  - destruct e0 as [e0|stgErr'|msg]; try reflexivity.
    now destruct (Hno _ _ stgErr' Hhttp).
  - cbn [mapAZBError]. now rewrite Hsw, Hhttp.
Qed.

(** X1.  [mapAZBError] applied to its own result changes nothing, when
    [mapHttpError] gives no storage error: [DeleteBlobs] and [testBucket],
    which map the error of a call that has mapped it already, get the error
    of that call. *)
Theorem mapAZBError_twice (mapHttpError : Z -> option error)
    (err : option error) :
  gives_no_storage_error mapHttpError ->
  mapAZBError mapHttpError (mapAZBError mapHttpError err)
  = mapAZBError mapHttpError err.
Proof.
  intros Hno. destruct err as [err|]; [|reflexivity].
  destruct (mapAZBError_is_Some mapHttpError err) as [e He].
  rewrite He. exact (mapAZBError_result_fixed mapHttpError err e Hno He).
Qed.

Lemma Store_mapHttpError_errnos : gives_no_storage_error Store.mapHttpError.
Proof.
  intros status e stgErr H. unfold Store.mapHttpError in H.
  destruct (status =? 404); [injection H as <-; discriminate|].
  destruct (status =? 403); [injection H as <-; discriminate|discriminate H].
Qed.

Lemma mapAZBError_twice_witness :
  let err := Some (AzStorageError
                     {| ServiceCode := "LeaseLost"; StatusCode := 412 |}) in
  mapAZBError Store.mapHttpError (mapAZBError Store.mapHttpError err)
  = mapAZBError Store.mapHttpError err.
Proof.
  intros err.
  exact (mapAZBError_twice Store.mapHttpError err Store_mapHttpError_errnos).
Defined.

(** ** Metadata *)

Lemma nilMetadata_entries_snoc entries k v :
  nilMetadata_entries (entries ++ [(k, v)])
  = <[ToLower k := NilStr v]> (nilMetadata_entries entries).
Proof. unfold nilMetadata_entries. now rewrite foldl_app. Qed.

Lemma nilMetadata_entries_source entries k0 v0 :
  nilMetadata_entries entries !! k0 = Some v0 ->
  exists k v, (k, v) ∈ entries /\ ToLower k = k0 /\ NilStr v = v0.
Proof.
  induction entries as [|[k v] entries IH] using rev_ind.
  - unfold nilMetadata_entries. cbn. rewrite lookup_empty. discriminate.
  - rewrite nilMetadata_entries_snoc. intros H.
    destruct (decide (ToLower k = k0)) as [Heq|Hne].
    + rewrite <- Heq, lookup_insert_eq in H. injection H as Hv.
      exists k, v. split; [|now split].
      apply elem_of_app. right. now left.
    + rewrite lookup_insert_ne in H by exact Hne.
      destruct (IH H) as (k' & v' & Hin & Hk & Hv).
      exists k', v'. split; [|now split].
      apply elem_of_app. now left.
Qed.




(** ** HeadBlob *)
Section HeadBlobShape.
Context {W : Type}.
Variable az : AzureClient W.
Variable mapHttpError : Z -> option error.
Variable PMetadata : gmap string string -> gmap string (option string).

(** The runs of [HeadBlob] that return, by their result and what they
    have sent. *)
Lemma HeadBlob_run key : forall (s s' : St W) r,
  HeadBlob az mapHttpError PMetadata key s = Done r s' ->
  let name := blob_name_of key in
  HasSuffix name "/" = false /\
  ((exists e, r = (None, Some e) /\
      (trace s' = trace s \/ trace s' = trace s ++ [ReqGetProperties name])) \/
   (exists out,
      r = (Some out, None) /\
      (HasSuffix key "/" = true -> IsDirBlob out = true) /\
      Key (Item out) = name /\
      trace s' = trace s ++ [ReqGetProperties name]) \/
   (exists out,
      r = (Some out, Some (SyscallErrno ENOENT)) /\
      HasSuffix key "/" = true /\ IsDirBlob out = false /\
      Key (Item out) = name /\
      trace s' = trace s ++ [ReqGetProperties name])).
Proof.
  induction key as [key Hs|key Hs IH] using slash_ind; intros s s' r Hrun name;
    (split; [apply blob_name_of_no_slash|]);
    subst name; rewrite blob_name_of_unfold, Hs;
    rewrite HeadBlob_unfold in Hrun;
    unfold HeadBlob_body, bind, refreshToken, local in Hrun;
    destruct (az_refreshToken az (world s)) as [[e|] w1];
    try (injection Hrun as <- <-; left; exists e; split; [reflexivity|now left]);
    rewrite Hs in Hrun.
  - unfold request in Hrun. cbn [world trace] in Hrun.
    destruct (az_GetProperties az key w1) as [[resp|err] w'].
    + injection Hrun as <- <-. right. left. eexists. split; [reflexivity|].
      split; [intros Hc; congruence|].
      split; reflexivity.
    + injection Hrun as <- <-. left.
      destruct (mapAZBError_is_Some mapHttpError err) as [e He].
      exists e. unfold mapErr. rewrite He. split; [reflexivity|now right].
  - destruct (HeadBlob az mapHttpError PMetadata (drop_last key)
                {| world := w1; trace := trace s |})
      as [r1 s1|] eqn:Hinner; [|discriminate Hrun].
    destruct (IH _ _ _ Hinner) as [_ Hcases]. cbn [trace] in Hcases.
    destruct Hcases as [(e & -> & Htr)|[(out & -> & Hdir & Hkey & Htr)
                                       |(out & -> & Hsuf & Hdir & Hkey & Htr)]].
    + injection Hrun as <- <-. left. exists e. now split.
    + destruct (IsDirBlob out) eqn:Hd; cbn [negb] in Hrun;
        injection Hrun as <- <-.
      * right. left. exists out. repeat split; auto.
      * right. right. exists out. repeat split; auto.
    + injection Hrun as <- <-. right. right. exists out.
      repeat split; auto.
Qed.

(** X4.  The results of [HeadBlob].  It always returns.  It returns an
    error and no output, having sent nothing or the one request; or an
    output and no error, for a key with a trailing slash only when the blob
    is a directory blob; or, for a key with a trailing slash whose blob is
    no directory blob, both the output and ENOENT.  It never returns nil and
    nil.  The one request it sends is for the key without its trailing
    slashes, which is also the key of the output: it never asks for a name
    that ends in a slash. *)
Theorem HeadBlob_results key (s : St W) :
  (exists r s', HeadBlob az mapHttpError PMetadata key s = Done r s') /\
  forall s' r,
    HeadBlob az mapHttpError PMetadata key s = Done r s' ->
    let name := blob_name_of key in
    HasSuffix name "/" = false /\
    ((exists e, r = (None, Some e) /\
        (trace s' = trace s \/ trace s' = trace s ++ [ReqGetProperties name]))
     \/
     (exists out,
        r = (Some out, None) /\
        (HasSuffix key "/" = true -> IsDirBlob out = true) /\
        Key (Item out) = name /\
        trace s' = trace s ++ [ReqGetProperties name]) \/
     (exists out,
        r = (Some out, Some (SyscallErrno ENOENT)) /\
        HasSuffix key "/" = true /\ IsDirBlob out = false /\
        Key (Item out) = name /\
        trace s' = trace s ++ [ReqGetProperties name])).
Proof.
  split; [apply HeadBlob_returns|].
  intros s' r Hrun. exact (HeadBlob_run key s s' r Hrun).
Qed.

End HeadBlobShape.

Lemma HeadBlob_results_witness :
  match
    HeadBlob Store.client Store.mapHttpError Store.PMetadata "f/"
      (Store.start {[ "f" := Store.file ∅ ]} Store.no_listing)
  with
  | Done (Some out, Some e) s' =>
      e = SyscallErrno ENOENT /\ Key (Item out) = "f" /\
      trace s' = [ReqGetProperties "f"]
  | _ => False
  end.
Proof.
  destruct (HeadBlob Store.client Store.mapHttpError Store.PMetadata "f/"
              (Store.start {[ "f" := Store.file ∅ ]} Store.no_listing))
    as [[[out|] [e|]] s'|] eqn:Hrun;
    try (vm_compute in Hrun; discriminate Hrun).
  destruct (proj2 (HeadBlob_results Store.client Store.mapHttpError
                     Store.PMetadata "f/" _) _ _ Hrun) as [_ Hcases].
  destruct Hcases as [(e' & Hr & _)|[(out' & Hr & _)
                                    |(out' & Hr & _ & _ & Hkey & Htr)]];
    try discriminate Hr.
  injection Hr as <- <-. split; [reflexivity|].
  split; [exact Hkey|exact Htr].
Defined.

(** ** DeleteBlob *)
Section DeleteBlobShape.
Context {W : Type}.
Variable az : AzureClient W.
Variable mapHttpError : Z -> option error.

(** What a [DeleteBlob] that returned has sent: nothing, with an error, or
    the one request to delete the key without its trailing slashes. *)
Lemma DeleteBlob_sent key : forall (s s' : St W) r,
  DeleteBlob az mapHttpError key s = Done r s' ->
  (exists e, r = (None, Some e) /\ trace s' = trace s) \/
  ((r = (Some Build_DeleteBlobOutput, None) \/ exists e, r = (None, Some e)) /\
   trace s' = trace s ++ [ReqDelete (blob_name_of key)]).
Proof.
  induction key as [key Hs|key Hs IH] using slash_ind; intros s s' r Hrun;
    rewrite blob_name_of_unfold, Hs;
    rewrite DeleteBlob_unfold in Hrun;
    unfold DeleteBlob_body, bind, refreshToken, local in Hrun;
    destruct (az_refreshToken az (world s)) as [[e|] w1];
    try (injection Hrun as <- <-; left; exists e; split; reflexivity);
    rewrite Hs in Hrun.
  - unfold request in Hrun. cbn [world trace] in Hrun.
    destruct (az_Delete az key w1) as [[err|] w']; injection Hrun as <- <-;
      right; (split; [|reflexivity]).
    + right. destruct (mapAZBError_is_Some mapHttpError err) as [e He].
      exists e. unfold mapErr. now rewrite He.
    + now left.
  - exact (IH _ _ _ Hrun).
Qed.

(** X5.  [DeleteBlob] of a key deletes the blob named by the key without
    its trailing slashes, after one token refresh for the key and one more
    for each trailing slash; the error of the service comes back through
    [mapAZBError].  The blob of a directory "dir/" is the blob "dir";
    [DeleteBlob] never asks to delete a name that ends in a slash. *)
Theorem DeleteBlob_deletes_blob_name key : forall (s : St W) w,
  refreshed az (S (trailing_slashes key)) (world s) = Some w ->
  HasSuffix (blob_name_of key) "/" = false /\
  DeleteBlob az mapHttpError key s
  = Done (match fst (az_Delete az (blob_name_of key) w) with
          | None => (Some Build_DeleteBlobOutput, None)
          | Some err => (None, mapAZBError mapHttpError (Some err))
          end)
         {| world := snd (az_Delete az (blob_name_of key) w);
            trace := trace s ++ [ReqDelete (blob_name_of key)] |}.
Proof.
  induction key as [key Hs|key Hs IH] using slash_ind; intros s w Htoken;
    (split; [apply blob_name_of_no_slash|]);
    rewrite trailing_slashes_unfold, Hs in Htoken;
    rewrite blob_name_of_unfold, Hs;
    rewrite DeleteBlob_unfold;
    unfold DeleteBlob_body, bind, refreshToken, local;
    cbn [refreshed] in Htoken;
    destruct (az_refreshToken az (world s)) as [[e|] w1];
    try discriminate Htoken; rewrite Hs.
  - injection Htoken as ->. unfold request. cbn [world trace].
    destruct (az_Delete az key w) as [[err|] w']; reflexivity.
  - exact (proj2 (IH {| world := w1; trace := trace s |} w Htoken)).
Qed.

End DeleteBlobShape.

Lemma DeleteBlob_deletes_blob_name_witness :
  let s := Store.start {[ "dir" := Store.file Store.dir_marker ]}
             Store.no_listing in
  DeleteBlob Store.client Store.mapHttpError "dir/" s
  = Done (Some Build_DeleteBlobOutput, None)
         {| world := {| Store.blobs := ∅; Store.listing := Store.no_listing |};
            trace := [ReqDelete "dir"] |}.
Proof.
  intros s.
  rewrite (proj2 (DeleteBlob_deletes_blob_name Store.client Store.mapHttpError
                    "dir/" s (world s) eq_refl)).
  vm_compute. reflexivity.
Defined.

(** ** The token comes first *)
Section TokenFirst.
Context {W : Type}.
Variable az : AzureClient W.
Variable b : AZBlob.
Variable mapHttpError : Z -> option error.
Variable PMetadata : gmap string string -> gmap string (option string).

Lemma CopyBlob_depth_no_token polls depth : forall param (s : St W) e w,
  (String.length (cp_Source param) <= depth)%nat ->
  az_refreshToken az (world s) = (Some e, w) ->
  CopyBlob_depth az mapHttpError polls depth param s
  = Done (Some (None, Some e)) {| world := w; trace := trace s |}.
Proof.
  induction depth as [|depth IH]; intros param s e w Hlen Htoken;
    cbn [CopyBlob_depth]; unfold CopyBlob_body;
    destruct (HasSuffix (cp_Source param) "/") eqn:Hsrc; cbn [andb];
    try (destruct (HasSuffix (cp_Destination param) "/") eqn:Hdst);
    try (unfold bind, refreshToken, local; now rewrite Htoken).
  - rewrite HasSuffix_short in Hsrc by lia. discriminate Hsrc.
  - apply IH; [|exact Htoken]. cbn [cp_Source].
    rewrite drop_last_length by exact Hsrc. lia.
Qed.

(** X6.  No call reaches the service without a token: when [refreshToken]
    fails, each of [HeadBlob], [ListBlobs], [DeleteBlob], [CopyBlob],
    [GetBlob], [PutBlob], [MultipartBlobAdd], [MultipartBlobCopy] and
    [MultipartBlobCommit] returns the error of [refreshToken] as it is, with
    no output, and has sent no request. *)
Theorem no_request_without_token (s : St W) e w :
  az_refreshToken az (world s) = (Some e, w) ->
  let s' := {| world := w; trace := trace s |} in
  (forall key,
     HeadBlob az mapHttpError PMetadata key s = Done (None, Some e) s') /\
  (forall param, lb_StartAfter param = None ->
     ListBlobs az b mapHttpError PMetadata param s = Done (None, Some e) s') /\
  (forall key, DeleteBlob az mapHttpError key s = Done (None, Some e) s') /\
  (forall polls param,
     CopyBlob az mapHttpError polls param s = Done (Some (None, Some e)) s') /\
  (forall param,
     GetBlob az mapHttpError PMetadata param s = Done (None, Some e) s') /\
  (forall param, PutBlob az mapHttpError param s = Done (None, Some e) s') /\
  (forall param,
     MultipartBlobAdd az mapHttpError param s = Done (None, Some e) s') /\
  (forall param,
     MultipartBlobCopy az b mapHttpError param s = Done (None, Some e) s') /\
  (forall param,
     MultipartBlobCommit az mapHttpError param s = Done (None, Some e) s').
Proof.
  intros Htoken s'. repeat split.
  - intros key. rewrite HeadBlob_unfold.
    unfold HeadBlob_body, bind, refreshToken, local. now rewrite Htoken.
  - intros param Hstart. unfold ListBlobs. rewrite Hstart.
    unfold bind, refreshToken, local. now rewrite Htoken.
  - intros key. rewrite DeleteBlob_unfold.
    unfold DeleteBlob_body, bind, refreshToken, local. now rewrite Htoken.
  - intros polls param. unfold CopyBlob.
    now apply CopyBlob_depth_no_token.
  - intros param. unfold GetBlob, bind, refreshToken, local.
    now rewrite Htoken.
  - intros param. rewrite PutBlob_unfold.
    unfold PutBlob_body, bind, refreshToken, local. now rewrite Htoken.
  - intros param. unfold MultipartBlobAdd, bind, refreshToken, local.
    now rewrite Htoken.
  - intros param. unfold MultipartBlobCopy, bind, refreshToken, local.
    now rewrite Htoken.
  - intros param. unfold MultipartBlobCommit, bind, refreshToken, local.
    now rewrite Htoken.
Qed.

End TokenFirst.

Lemma no_request_without_token_witness :
  let az := with_refreshToken Store.client
              (fun w => (Some (SyscallErrno EACCES), w)) in
  let s := Store.start {[ "a" := Store.file ∅ ]} Store.no_listing in
  PutBlob az Store.mapHttpError
    {| pb_Key := "a"; pb_Metadata := ∅; pb_ContentType := None;
       pb_DirBlob := false; pb_Body := Some "new" |} s
  = Done (None, Some (SyscallErrno EACCES)) s.
Proof.
  intros az s.
  destruct (no_request_without_token az Store.azure Store.mapHttpError
              Store.PMetadata s (SyscallErrno EACCES) (world s) eq_refl)
    as (_ & _ & _ & _ & _ & Hput & _).
  exact (Hput _).
Defined.

(** ** CopyBlob *)
Section CopyBlobShape.
Context {W : Type}.
Variable az : AzureClient W.
Variable mapHttpError : Z -> option error.

Lemma CopyBlob_body_ext polls rec1 rec2 param :
  (HasSuffix (cp_Source param) "/" && HasSuffix (cp_Destination param) "/"
   = true ->
   forall p (s : St W), cp_Source p = drop_last (cp_Source param) ->
                        rec1 p s = rec2 p s) ->
  forall s : St W,
    CopyBlob_body az mapHttpError polls rec1 param s
    = CopyBlob_body az mapHttpError polls rec2 param s.
Proof.
  intros Hrec s. unfold CopyBlob_body.
  destruct (HasSuffix (cp_Source param) "/" &&
            HasSuffix (cp_Destination param) "/"); [|reflexivity].
  now apply Hrec.
Qed.

Lemma CopyBlob_unfold polls param (s : St W) :
  CopyBlob az mapHttpError polls param s
  = CopyBlob_body az mapHttpError polls (CopyBlob az mapHttpError polls)
      param s.
Proof.
  unfold CopyBlob at 1.
  destruct (String.length (cp_Source param)) as [|n] eqn:Hn.
  - apply CopyBlob_body_ext. intros Hs.
    apply andb_true_iff in Hs as [Hs _].
    rewrite HasSuffix_short in Hs by exact Hn. discriminate Hs.
  - apply CopyBlob_body_ext. intros Hs p s0 Hp.
    apply andb_true_iff in Hs as [Hs _]. unfold CopyBlob.
    rewrite Hp, drop_last_length, Hn by exact Hs. reflexivity.
Qed.

(** X7.  [CopyBlob] takes trailing slashes off the source and the
    destination only in pairs: a slash that both end in is dropped from
    both, so a copy between two keys that end in the same number of slashes
    is the copy between the keys without them. *)
Theorem CopyBlob_strips_slashes_in_pairs polls src dst md (k : nat) (s : St W) :
  CopyBlob az mapHttpError polls
    {| cp_Source := src +:+ slashes k; cp_Destination := dst +:+ slashes k;
       cp_Metadata := md |} s
  = CopyBlob az mapHttpError polls
      {| cp_Source := src; cp_Destination := dst; cp_Metadata := md |} s.
Proof.
  induction k as [|k IH]; cbn [slashes].
  - now rewrite !append_nil_r.
  - rewrite CopyBlob_unfold. unfold CopyBlob_body at 1. cbn [cp_Source
      cp_Destination cp_Metadata].
    rewrite <- !append_assoc, !HasSuffix_app. cbn [andb].
    rewrite !drop_last_app. exact IH.
Qed.

(** X8.  A [CopyBlob] whose keys do not both end in a slash sends the copy
    for the keys as they are, a slash at the end of one of them included.
    When the service refuses the copy, the call returns that error through
    [mapAZBError]; when the service answers with a copy status other than
    pending, the call returns at once: it sends that one request, and it
    neither sleeps nor polls. *)
Theorem CopyBlob_not_pending polls param (s : St W) w1 :
  HasSuffix (cp_Source param) "/" && HasSuffix (cp_Destination param) "/"
  = false ->
  az_refreshToken az (world s) = (None, w1) ->
  let md := nilMetadata (cp_Metadata param) in
  let answer :=
    az_StartCopyFromURL az (cp_Destination param) (cp_Source param) md w1 in
  let s' := {| world := snd answer;
               trace := trace s ++
                 [ReqStartCopyFromURL (cp_Destination param) (cp_Source param)
                    md] |} in
  match fst answer with
  | inr err =>
      CopyBlob az mapHttpError polls param s
      = Done (Some (None, mapAZBError mapHttpError (Some err))) s'
  | inl resp =>
      sc_CopyStatus resp <> CopyStatusPending ->
      CopyBlob az mapHttpError polls param s
      = Done (Some (Some Build_CopyBlobOutput, None)) s'
  end.
Proof.
  intros Hboth Htoken md answer s'. subst s' answer md.
  rewrite CopyBlob_unfold. unfold CopyBlob_body. rewrite Hboth.
  unfold bind, refreshToken, local. rewrite Htoken.
  unfold request. cbn [world trace].
  destruct (az_StartCopyFromURL az _ _ _ w1) as [[resp|err] w2]; cbn [fst snd].
  - intros Hstatus. apply String.eqb_neq in Hstatus. now rewrite Hstatus.
  - reflexivity.
Qed.

End CopyBlobShape.

Lemma CopyBlob_not_pending_witness :
  let s := Store.start {[ "b" := Store.file ∅ ]} Store.no_listing in
  CopyBlob Store.client Store.mapHttpError 5
    {| cp_Source := "a/"; cp_Destination := "b"; cp_Metadata := ∅ |} s
  = Done (Some (None, Some (SyscallErrno ENOENT)))
         {| world := world s; trace := [ReqStartCopyFromURL "b" "a/" ∅] |}.
Proof.
  intros s.
  exact (CopyBlob_not_pending Store.client Store.mapHttpError 5
           {| cp_Source := "a/"; cp_Destination := "b"; cp_Metadata := ∅ |}
           s (world s) eq_refl eq_refl).
Defined.

(** ** Multipart uploads *)

Lemma commit_parts_None Parts n : forall i,
  commit_parts Parts i n = None <->
  exists j, (j < n)%nat /\
    (Parts !! (i + j)%nat = None \/ Parts !! (i + j)%nat = Some None).
Proof.
  induction n as [|n IH]; intros i; cbn [commit_parts].
  - split; [discriminate|]. intros (j & Hj & _). lia.
  - destruct (Parts !! i) as [[part|]|] eqn:Hi.
    + destruct (commit_parts Parts (S i) n) as [rest|] eqn:Hrest.
      * split; [discriminate|]. intros (j & Hj & Hmiss).
        destruct j as [|j].
        -- rewrite Nat.add_0_r, Hi in Hmiss.
           destruct Hmiss as [Hmiss|Hmiss]; discriminate Hmiss.
        -- assert (Hnone : commit_parts Parts (S i) n = None).
           { apply IH. exists j. split; [lia|].
             now replace (S i + j)%nat with (i + S j)%nat by lia. }
           rewrite Hrest in Hnone. discriminate Hnone.
      * split; [intros _|reflexivity].
        apply IH in Hrest as (j & Hj & Hmiss).
        exists (S j). split; [lia|].
        now replace (i + S j)%nat with (S i + j)%nat by lia.
    + split; [intros _|reflexivity].
      exists 0%nat. split; [lia|]. rewrite Nat.add_0_r. now right.
    + split; [intros _|reflexivity].
      exists 0%nat. split; [lia|]. rewrite Nat.add_0_r. now left.
Qed.

Section MultipartShape.
Context {W : Type}.
Variable az : AzureClient W.
Variable mapHttpError : Z -> option error.


End MultipartShape.

Lemma all_from_spec (P : N -> bool) count : forall n,
  all_from count n P = true ->
  forall m, (n <= m)%N -> (m < n + N.of_nat count)%N -> P m = true.
Proof.
  induction count as [|count IH]; intros n H m Hle Hlt; [lia|].
  cbn [all_from] in H. apply andb_true_iff in H as [Hn Hrest].
  destruct (N.eq_dec m n) as [->|Hne]; [exact Hn|].
  apply (IH (N.succ n) Hrest); lia.
Qed.

Lemma pad5_length (n : N) :
  (n < 100000)%N -> String.length (pad5 n) = 5%nat.
Proof.
  intros Hn. apply Nat.eqb_eq.
  apply (all_from_spec (fun n => (String.length (pad5 n) =? 5)%nat)
           (N.to_nat 100000) 0%N); [vm_compute; reflexivity|lia|lia].
Qed.

Lemma hex_encode_length l :
  String.length (hex_encode l) = (2 * length l)%nat.
Proof.
  induction l as [|c l IH]; [reflexivity|].
  cbn [hex_encode String.length length]. rewrite IH. lia.
Qed.

Lemma UUID_String_length (u : UUID) :
  length u = 16%nat -> String.length (UUID_String u) = 36%nat.
Proof.
  intros Hu. unfold UUID_String.
  rewrite !string_length_app, !hex_encode_length.
  rewrite !length_take, !length_drop, Hu. reflexivity.
Qed.

Lemma EncodeToString_length l :
  String.length (EncodeToString l) = (4 * ((length l + 2) / 3))%nat.
Proof.
  induction l as [| | |a b c l IH] using list_ind3; try reflexivity.
  cbn [EncodeToString String.length length]. rewrite IH.
  replace (S (S (S (length l))) + 2)%nat with (length l + 2 + 1 * 3)%nat by lia.
  rewrite Nat.div_add by lia. lia.
Qed.

Lemma length_list_ascii_of_string s :
  length (list_ascii_of_string s) = String.length s.
Proof. induction s as [|c s IH]; [reflexivity|]. cbn. now rewrite IH. Qed.

(** X10.  The block ids of an upload all have the same length, 60 bytes, as
    long as the part numbers are below 100000, which the 50000 parts of
    [MultipartBlobBegin] are: the upload id is a UUID of 36 bytes, and the
    verb [%05d] prints such a part number in exactly five digits. *)
Theorem block_ids_same_length (u : UUID) (PartNumber : N) :
  length u = 16%nat -> (PartNumber < 100000)%N ->
  String.length (blockId_of (UUID_String u +:+ "::%05d") PartNumber) = 43%nat /\
  String.length (base64BlockId_of (UUID_String u +:+ "::%05d") PartNumber)
  = 60%nat.
Proof.
  intros Hu Hn.
  assert (Hid : String.length
                  (blockId_of (UUID_String u +:+ "::%05d") PartNumber)
                = 43%nat).
  { unfold blockId_of. rewrite Sprintf_uploadId.
    rewrite !string_length_app, UUID_String_length, pad5_length by assumption.
    reflexivity. }
  split; [exact Hid|].
  unfold base64BlockId_of.
  rewrite EncodeToString_length, length_list_ascii_of_string, Hid.
  reflexivity.
Qed.

Lemma block_ids_same_length_witness :
  String.length
    (base64BlockId_of
       (UUID_String (list_ascii_of_string "0123456789abcdef") +:+ "::%05d")
       49999)
  = 60%nat.
Proof.
  exact (proj2 (block_ids_same_length
                  (list_ascii_of_string "0123456789abcdef") 49999
                  eq_refl eq_refl)).
Defined.

(** ** ListBlobs: what becomes of the listing *)

Lemma ascending_lookup (l : list string) :
  ascending l ->
  forall j k x y, (j <= k)%nat -> l !! j = Some x -> l !! k = Some y ->
                  str_le x y.
Proof.
  unfold ascending. induction 1 as [|a r Hr IH Hall]; intros j k x y Hjk Hj Hk.
  - discriminate Hj.
  - destruct j as [|j]; destruct k as [|k]; cbn in Hj, Hk; try lia.
    + injection Hj as <-. injection Hk as <-. apply str_le_refl.
    + injection Hj as <-. rewrite Forall_forall in Hall.
      apply Hall. eapply list_elem_of_lookup_2, Hk.
    + apply (IH j k); [lia|assumption|assumption].
Qed.

Lemma str_le_antisym a b : str_le a b -> str_le b a -> a = b.
Proof. rewrite !str_le_leb. apply String.leb_antisym. Qed.

Lemma str_le_lt_trans x y name :
  str_le x y -> Less_string y name = true -> Less_string x name = true.
Proof.
  intros Hxy Hy. destruct (Less_string x name) eqn:Hx; [reflexivity|].
  assert (Hc : str_le name y) by exact (str_le_trans _ _ _ Hx Hxy).
  unfold str_le in Hc. congruence.
Qed.

(** Where [sort.Search] stops in an ascending list, a name that is in the
    list is found. *)
Lemma Search_finds (ps : list string) (name : string) (idx : nat) :
  ascending ps -> (idx <= length ps)%nat ->
  ((0 < idx)%nat -> Less_string (nth (idx - 1) ps "") name = true) ->
  ((idx < length ps)%nat -> Less_string (nth idx ps "") name = false) ->
  name ∈ ps -> (idx < length ps)%nat /\ nth idx ps "" = name.
Proof.
  intros Hsorted Hlen Hlo Hhi Hin.
  apply list_elem_of_lookup_1 in Hin as [j Hj].
  assert (Hjlen : (j < length ps)%nat) by (eapply lookup_lt_Some, Hj).
  destruct (Nat.lt_ge_cases j idx) as [Hlt|Hge].
  - exfalso. specialize (Hlo ltac:(lia)).
    destruct (nth_lookup_or_length ps (idx - 1) "") as [Hk|Hk]; [|lia].
    pose proof (ascending_lookup ps Hsorted j (idx - 1)%nat _ _ ltac:(lia)
                  Hj Hk) as Hle.
    pose proof (str_le_lt_trans _ _ _ Hle Hlo) as Hself.
    pose proof (str_le_refl name) as Hrefl. unfold str_le in Hrefl. congruence.
  - assert (Hidx : (idx < length ps)%nat) by lia.
    split; [exact Hidx|].
    destruct (nth_lookup_or_length ps idx "") as [Hk|Hk]; [|lia].
    pose proof (ascending_lookup ps Hsorted idx j _ _ Hge Hk Hj) as Hle.
    apply str_le_antisym; [exact Hle|]. exact (Hhi Hidx).
Qed.

Section ListBlobsListing.
Context {W : Type}.
Variable az : AzureClient W.
Variable b : AZBlob.
Variable mapHttpError : Z -> option error.
Variable PMetadata : gmap string string -> gmap string (option string).

(** The prefixes after the loop has put [i_Name] among them. *)
Lemma prefixes_insert_elem (prefixes : list BlobPrefixOutput) (i_Name : string) :
  let n := length prefixes in
  let at_ idx := Prefix (nth idx prefixes {| Prefix := "" |}) in
  let idx := Search n (fun idx => negb (Less_string (at_ idx) i_Name)) in
  forall x,
    x ∈ map Prefix
          (if (n <=? idx)%nat || negb (String.eqb (at_ idx) i_Name) then
             if (n <=? idx)%nat then prefixes ++ [{| Prefix := i_Name |}]
             else take idx prefixes ++ {| Prefix := i_Name |}
                    :: drop idx prefixes
           else prefixes)
    <-> x ∈ map Prefix prefixes \/ x = i_Name.
Proof.
  intros n at_ idx x.
  destruct (n <=? idx)%nat eqn:Hge; cbn [orb].
  - rewrite map_app, elem_of_app. cbn [map Prefix].
    rewrite list_elem_of_singleton. reflexivity.
  - destruct (String.eqb (at_ idx) i_Name) eqn:Heq; cbn [negb].
    + apply String.eqb_eq in Heq. apply Nat.leb_gt in Hge.
      split; [now left|]. intros [H| ->]; [exact H|].
      rewrite <- Heq. unfold at_.
      apply list_elem_of_In, in_map, nth_In. exact Hge.
    + rewrite map_app, elem_of_app. cbn [map Prefix].
      rewrite elem_of_cons.
      rewrite <- (take_drop idx prefixes) at 3.
      rewrite map_app, elem_of_app. tauto.
Qed.

(** The loop over the blob items: the keys of the items it adds, in the
    order of the listing; when it asks for the final sort; the prefixes it
    ends with. *)
Lemma ListBlobs_loop_listing hasDelimiter blobItems :
  forall prefixes items sortItems prefixes' items' sortItems',
  ListBlobs_loop PMetadata hasDelimiter blobItems prefixes items sortItems
  = Some (prefixes', items', sortItems') ->
  map Key items' = map Key items ++ omap (listed_key hasDelimiter) blobItems /\
  sortItems'
  = sortItems || existsb (fun i => is_dir_blob i && negb hasDelimiter) blobItems
  /\
  (forall x, x ∈ map Prefix prefixes' <->
             x ∈ map Prefix prefixes \/
             x ∈ omap (merged_prefix hasDelimiter) blobItems).
Proof.
  induction blobItems as [|i rest IH];
    intros prefixes items sortItems prefixes' items' sortItems' Hloop.
  - cbn in Hloop. injection Hloop as <- <- <-. cbn [omap list_omap existsb].
    rewrite app_nil_r, orb_false_r. split; [reflexivity|].
    split; [reflexivity|]. intros x. rewrite elem_of_nil. tauto.
  - cbn [ListBlobs_loop] in Hloop. cbv zeta in Hloop.
    fold (is_dir_blob i) in Hloop.
    cbn [omap list_omap existsb]. unfold listed_key, merged_prefix.
    destruct (is_dir_blob i) eqn:Hdir; cbn [andb] in Hloop |- *.
    + destruct hasDelimiter; cbn [negb orb].
      * apply IH in Hloop as (Hkeys & Hsort & Hpre).
        split; [exact Hkeys|]. split; [exact Hsort|].
        intros x. rewrite Hpre, prefixes_insert_elem, elem_of_cons. tauto.
      * destruct (ContentLength (Properties i)); [|discriminate Hloop].
        apply IH in Hloop as (Hkeys & Hsort & Hpre).
        rewrite map_app in Hkeys. cbn [map Key] in Hkeys.
        rewrite <- app_assoc in Hkeys. rewrite orb_true_r.
        split; [exact Hkeys|]. split; [exact Hsort|exact Hpre].
    + destruct (ContentLength (Properties i)); [|discriminate Hloop].
      apply IH in Hloop as (Hkeys & Hsort & Hpre).
      rewrite map_app in Hkeys. cbn [map Key] in Hkeys.
      rewrite <- app_assoc in Hkeys.
      split; [exact Hkeys|]. split; [exact Hsort|exact Hpre].
Qed.

End ListBlobsListing.

Lemma Sort_keys {A : Type} (key : A -> string) (l : list A) :
  map key (Sort key l) ≡ₚ map key l.
Proof. apply Permutation_map, Sort_perm. Qed.

Lemma prefixes_insert_NoDup (prefixes : list BlobPrefixOutput)
    (i_Name : string) :
  ascending (map Prefix prefixes) -> NoDup (map Prefix prefixes) ->
  let n := length prefixes in
  let at_ idx := Prefix (nth idx prefixes {| Prefix := "" |}) in
  let idx := Search n (fun idx => negb (Less_string (at_ idx) i_Name)) in
  NoDup
    (map Prefix
       (if (n <=? idx)%nat || negb (String.eqb (at_ idx) i_Name) then
          if (n <=? idx)%nat then prefixes ++ [{| Prefix := i_Name |}]
          else take idx prefixes ++ {| Prefix := i_Name |} :: drop idx prefixes
        else prefixes)).
Proof.
  intros Hsorted Hnodup n at_ idx.
  destruct (Search_spec n (fun idx => negb (Less_string (at_ idx) i_Name)))
    as (Hle & Hlo & Hhi).
  fold idx in Hle, Hlo, Hhi.
  assert (Hat : forall j, at_ j = nth j (map Prefix prefixes) "").
  { intros j. unfold at_.
    change "" with (Prefix {| Prefix := "" |}) at 2.
    now rewrite map_nth. }
  assert (Hfind : i_Name ∈ map Prefix prefixes ->
                  (idx < n)%nat /\ at_ idx = i_Name).
  { intros Hin. rewrite Hat. unfold n. rewrite <- (length_map Prefix).
    apply Search_finds; try assumption.
    - now rewrite length_map.
    - intros Hpos. rewrite <- Hat.
      specialize (Hlo Hpos). now apply negb_false_iff in Hlo.
    - rewrite length_map. intros Hlt. rewrite <- Hat.
      specialize (Hhi Hlt). now apply negb_true_iff in Hhi. }
  destruct (n <=? idx)%nat eqn:Hge; cbn [orb].
  - apply Nat.leb_le in Hge. rewrite map_app. cbn [map Prefix].
    apply NoDup_app. split; [exact Hnodup|]. split; [|apply NoDup_singleton].
    intros x Hx Hx'. apply list_elem_of_singleton in Hx'. subst x.
    destruct (Hfind Hx) as [Hlt _]. lia.
  - destruct (String.eqb (at_ idx) i_Name) eqn:Heq; cbn [negb];
      [exact Hnodup|].
    apply String.eqb_neq in Heq.
    rewrite map_app. cbn [map Prefix].
    rewrite <- Permutation_middle. apply NoDup_cons. split.
    + rewrite <- map_app, take_drop. intros Hin.
      destruct (Hfind Hin) as [_ Hat_idx]. contradiction.
    + now rewrite <- map_app, take_drop.
Qed.

Section ListBlobsOutputs.
Context {W : Type}.
Variable az : AzureClient W.
Variable b : AZBlob.
Variable mapHttpError : Z -> option error.
Variable PMetadata : gmap string string -> gmap string (option string).

Lemma ListBlobs_loop_NoDup hasDelimiter blobItems :
  forall prefixes items sortItems prefixes' items' sortItems',
  ListBlobs_loop PMetadata hasDelimiter blobItems prefixes items sortItems
  = Some (prefixes', items', sortItems') ->
  ascending (map Prefix prefixes) -> NoDup (map Prefix prefixes) ->
  NoDup (map Prefix prefixes').
Proof.
  induction blobItems as [|i rest IH];
    intros prefixes items sortItems prefixes' items' sortItems' Hloop Hp Hn.
  - cbn in Hloop. now injection Hloop as <- <- <-.
  - cbn [ListBlobs_loop] in Hloop. cbv zeta in Hloop.
    destruct (negb (String.eqb
                (default "" (bi_Metadata i !! AzureDirBlobMetadataKey)) "")
              && hasDelimiter).
    + apply IH in Hloop; [exact Hloop| |].
      * now apply prefixes_insert_ascending.
      * now apply prefixes_insert_NoDup.
    + destruct (ContentLength (Properties i)); [|discriminate Hloop].
      now apply IH in Hloop.
Qed.

Lemma listed_prefixes_elem param resp x :
  x ∈ map Prefix (listed_prefixes b param resp) <->
  is_Some (lb_Delimiter param) /\ x ∈ BlobPrefixes resp.
Proof.
  unfold listed_prefixes. destruct (lb_Delimiter param) as [d|].
  - cbv zeta.
    assert (Hid : map Prefix
                    (map (fun name => {| Prefix := name |}) (BlobPrefixes resp))
                  = BlobPrefixes resp)
      by (rewrite map_map; cbn [Prefix]; apply map_id).
    destruct (_ && _); [rewrite Sort_keys|]; rewrite Hid;
      (split; [intros H; split; [now exists d|exact H]|now intros [_ H]]).
  - cbn [map]. rewrite elem_of_nil. split; [tauto|].
    intros [[d Hd] _]. discriminate Hd.
Qed.

Lemma listed_prefixes_NoDup param resp :
  NoDup (BlobPrefixes resp) ->
  NoDup (map Prefix (listed_prefixes b param resp)).
Proof.
  intros Hn. unfold listed_prefixes.
  destruct (lb_Delimiter param) as [d|]; [|constructor].
  cbv zeta.
  assert (Hid : map Prefix
                  (map (fun name => {| Prefix := name |}) (BlobPrefixes resp))
                = BlobPrefixes resp)
    by (rewrite map_map; cbn [Prefix]; apply map_id).
  destruct (_ && _); [rewrite Sort_keys|]; now rewrite Hid.
Qed.



(** X13.  No prefix comes twice in the output of a [ListBlobs], when the
    prefixes of the listing are distinct and in ascending order (or are
    those of Azurite, which the driver sorts): a directory blob whose name
    with a slash is a prefix of the listing already is not added again. *)
Theorem ListBlobs_prefixes_distinct (param : ListBlobsInput) (s s' : St W)
    out w0 resp w1 :
  ListBlobs az b mapHttpError PMetadata param s = Done (Some out, None) s' ->
  az_refreshToken az (world s) = (None, w0) ->
  list_request az param w0 = (inl resp, w1) ->
  NoDup (BlobPrefixes resp) ->
  config_Endpoint b = AzuriteEndpoint \/
  lb_Delimiter param = None \/
  IsSorted (fun name : string => name) (BlobPrefixes resp) = true ->
  NoDup (map Prefix (Prefixes out)).
Proof.
  intros Hrun Htoken Hreq Hnodup Hsorted.
  apply ListBlobs_cases in Hrun
    as (w0' & resp' & w1' & _ & Htoken' & Hreq' & Hcases).
  rewrite Htoken in Htoken'. injection Htoken' as <-.
  rewrite Hreq in Hreq'. injection Hreq' as <- <-.
  cbv zeta in Hcases.
  destruct Hcases as [(_ & -> & _)|(_ & prefixes & items & sortItems & items'
                                    & sortItems' & Hloop & _ & ->)];
    [constructor|].
  cbn [Prefixes]. eapply ListBlobs_loop_NoDup; [exact Hloop| |].
  - now apply listed_prefixes_ascending.
  - now apply listed_prefixes_NoDup.
Qed.

End ListBlobsOutputs.



Lemma ListBlobs_prefixes_distinct_witness :
  match
    ListBlobs Store.client Store.azure Store.mapHttpError Store.PMetadata
      (Store.list_input (Some "d/") (Some "/"))
      (Store.start ∅
         {| BlobPrefixes := ["d/sub/"; "d/x/"];
            BlobItems := [Store.listed "d/a" ∅;
                          Store.listed "d/sub" Store.dir_marker];
            NextMarker := None |})
  with
  | Done (Some out, None) _ => NoDup (map Prefix (Prefixes out))
  | _ => False
  end.
Proof.
  set (s0 := Store.start ∅
               {| BlobPrefixes := ["d/sub/"; "d/x/"];
                  BlobItems := [Store.listed "d/a" ∅;
                                Store.listed "d/sub" Store.dir_marker];
                  NextMarker := None |}).
  destruct (ListBlobs Store.client Store.azure Store.mapHttpError
              Store.PMetadata (Store.list_input (Some "d/") (Some "/")) s0)
    as [[[out|] [e|]] s'|] eqn:Hrun;
    try (vm_compute in Hrun; discriminate Hrun).
  apply (ListBlobs_prefixes_distinct Store.client Store.azure
           Store.mapHttpError Store.PMetadata _ s0 s' out
           (world s0) (Store.listing (world s0)) (world s0)
           Hrun eq_refl eq_refl).
  - apply NoDup_cons. split; [|apply NoDup_singleton].
    intros H. apply list_elem_of_singleton in H. discriminate H.
  - right. right. reflexivity.
Defined.

Section ListBlobsRequests.
Context {W : Type}.
Variable az : AzureClient W.
Variable b : AZBlob.
Variable mapHttpError : Z -> option error.
Variable PMetadata : gmap string string -> gmap string (option string).

(** X14.  What a [ListBlobs] sends.  With [StartAfter] set it returns
    ENOTSUP and has done nothing, not even refreshed the token.  Otherwise
    it sends at most two requests: the list request, hierarchical when there
    is a delimiter and flat when there is none, with the continuation token
    as its marker, and, when the prefix ends in a slash, one [GetProperties]
    for the prefix without its trailing slashes.  [MaxResults] is [MaxKeys]
    as an [int32]: 0 for nil, the same number below 2^31, and a negative
    number from 2^31 on. *)
Theorem ListBlobs_requests (param : ListBlobsInput) (s s' : St W) r :
  ListBlobs az b mapHttpError PMetadata param s = Done r s' ->
  let prefix := NilStr (lb_Prefix param) in
  let o := {| opt_Prefix := prefix;
              opt_MaxResults := int32_of_uint32 (nilUint32 (lb_MaxKeys param));
              opt_Details_Metadata := true |} in
  let list :=
    match lb_Delimiter param with
    | Some delimiter =>
        ReqListBlobsHierarchySegment (lb_ContinuationToken param) delimiter o
    | None => ReqListBlobsFlatSegment (lb_ContinuationToken param) o
    end in
  match lb_StartAfter param with
  | Some _ => r = (None, Some (SyscallErrno ENOTSUP)) /\ s' = s
  | None =>
      trace s' = trace s \/
      trace s' = trace s ++ [list] \/
      HasSuffix prefix "/" = true /\
      trace s' = trace s ++ [list; ReqGetProperties (blob_name_of prefix)]
  end /\
  (lb_MaxKeys param = None -> opt_MaxResults o = 0) /\
  (forall v, lb_MaxKeys param = Some v -> 0 <= v < 2 ^ 31 ->
             opt_MaxResults o = v) /\
  (forall v, lb_MaxKeys param = Some v -> 2 ^ 31 <= v < 2 ^ 32 ->
             opt_MaxResults o = v - 2 ^ 32 /\ opt_MaxResults o < 0).
Proof.
  intros Hrun prefix o list.
  assert (Hlist : list = list_request_sent param).
  { subst list o prefix. unfold list_request_sent, list_options.
    now destruct (lb_Delimiter param). }
  split.
  - destruct (lb_StartAfter param) as [after|] eqn:Hstart.
    + unfold ListBlobs in Hrun. rewrite Hstart in Hrun.
      injection Hrun as <- <-. now split.
    + destruct (az_refreshToken az (world s)) as [[e|] w0] eqn:Htoken.
      { unfold ListBlobs in Hrun. rewrite Hstart in Hrun.
        unfold bind, refreshToken, local in Hrun. rewrite Htoken in Hrun.
        injection Hrun as <- <-. now left. }
      destruct (list_request az param w0) as [[resp|err] w1] eqn:Hreq.
      * rewrite (ListBlobs_eq az b mapHttpError PMetadata param s w0 resp w1
                   Hstart Htoken Hreq) in Hrun.
        cbv zeta in Hrun. rewrite <- Hlist in Hrun. fold prefix in Hrun.
        destruct (lists_a_blob param resp);
          [injection Hrun as <- <-; right; now left|].
        destruct (ListBlobs_loop _ _ _ _ _ _) as [[[prefixes items] sortItems]|];
          [|discriminate Hrun].
        destruct (HasSuffix prefix "/") eqn:Hsuffix;
          [|injection Hrun as <- <-; right; now left].
        destruct (HeadBlob az mapHttpError PMetadata prefix _)
          as [[d e] s2|] eqn:Hhead; [|discriminate Hrun].
        assert (Hs2 : s' = s2).
        { destruct d as [d|]; destruct e as [e|]; try discriminate Hrun.
          - destruct (is_ENOENT e); now injection Hrun.
          - now injection Hrun.
          - destruct (is_ENOENT e); now injection Hrun. }
        subst s2.
        destruct (HeadBlob_run az mapHttpError PMetadata prefix _ _ _ Hhead)
          as [_ Hcases]. cbn [trace] in Hcases.
        assert (Htr : trace s' = trace s ++ [list] \/
                      trace s' = (trace s ++ [list])
                                 ++ [ReqGetProperties (blob_name_of prefix)]).
        { destruct Hcases as [(e' & _ & [Htr|Htr])|[(o' & _ & _ & _ & Htr)
                                                   |(o' & _ & _ & _ & _ & Htr)]];
            auto. }
        destruct Htr as [Htr|Htr]; [right; now left|].
        right. right. split; [reflexivity|].
        now rewrite Htr, <- app_assoc.
      * right. left. unfold ListBlobs in Hrun. rewrite Hstart in Hrun.
        unfold bind at 1 in Hrun. unfold refreshToken, local in Hrun.
        rewrite Htoken in Hrun. unfold bind at 1 in Hrun.
        unfold ListBlobs_segment in Hrun. unfold list_request in Hreq.
        fold (list_options param) in Hrun. rewrite Hlist.
        unfold list_request_sent.
        destruct (lb_Delimiter param) as [d|];
          unfold bind, request, ret in Hrun; cbn [world trace] in Hrun;
          rewrite Hreq in Hrun; now injection Hrun as <- <-.
  - subst o. cbn [opt_MaxResults]. unfold int32_of_uint32, nilUint32.
    split; [intros ->; reflexivity|].
    split; intros v -> Hv.
    + destruct (v <? 2 ^ 31) eqn:Hlt; [reflexivity|].
      apply Z.ltb_ge in Hlt. lia.
    + destruct (v <? 2 ^ 31) eqn:Hlt; [apply Z.ltb_lt in Hlt; lia|].
      split; [reflexivity|lia].
Qed.

End ListBlobsRequests.

Lemma ListBlobs_requests_witness :
  match
    ListBlobs Store.client Store.azure Store.mapHttpError Store.PMetadata
      {| lb_Prefix := Some "d/"; lb_Delimiter := Some "/";
         lb_MaxKeys := Some 4294967295; lb_ContinuationToken := Some "next";
         lb_StartAfter := None |}
      (Store.start ∅ Store.no_listing)
  with
  | Done _ s' =>
      trace s' = [] \/
      trace s' =
        [ReqListBlobsHierarchySegment (Some "next") "/"
           {| opt_Prefix := "d/"; opt_MaxResults := -1;
              opt_Details_Metadata := true |}] \/
      trace s' =
        [ReqListBlobsHierarchySegment (Some "next") "/"
           {| opt_Prefix := "d/"; opt_MaxResults := -1;
              opt_Details_Metadata := true |};
         ReqGetProperties "d"]
  | Panicked => False
  end.
Proof.
  destruct (ListBlobs Store.client Store.azure Store.mapHttpError
              Store.PMetadata _ (Store.start ∅ Store.no_listing))
    as [r s'|] eqn:Hrun; [|vm_compute in Hrun; discriminate Hrun].
  destruct (ListBlobs_requests Store.client Store.azure Store.mapHttpError
              Store.PMetadata _ _ _ _ Hrun) as [Hsent _].
  cbn [lb_StartAfter] in Hsent.
  destruct Hsent as [Htr|[Htr|[_ Htr]]];
    [left|right; left|right; right]; exact Htr.
Defined.

(** ** DeleteBlobs: what it sends *)
Section DeleteBlobsRequests.
Context {W : Type}.
Variable az : AzureClient W.
Variable mapHttpError : Z -> option error.
Variable gate_cap : nat.

Lemma DeleteBlobs_sent_reaches Items (s : St W) sigma :
  DeleteBlobs_reaches az mapHttpError gate_cap Items s sigma ->
  (db_finished sigma = [] -> db_st sigma = s) /\
  exists reqs,
    trace (db_st sigma) = trace s ++ reqs /\
    (length reqs <= length (db_finished sigma))%nat /\
    Forall (fun r => exists key, key ∈ map fst (db_finished sigma) /\
                                 r = ReqDelete (blob_name_of key)) reqs.
Proof.
  unfold DeleteBlobs_reaches. revert sigma. apply rtc_ind_r.
  - split; [reflexivity|]. exists []. cbn. rewrite app_nil_r.
    split; [reflexivity|]. split; [lia|constructor].
  - intros sigma sigma' _ Hstep (Hsame & reqs & Htr & Hlen & Hall).
    destruct Hstep; cbn [db_st db_finished] in *;
      try (split; [exact Hsame|]; exists reqs; repeat split; assumption).
    split; [intros Hnil; now apply app_nil in Hnil as [_ Hnil]|].
    match goal with
    | Hrun : DeleteBlob _ _ _ _ = Done _ _ |- _ =>
        destruct (DeleteBlob_sent az mapHttpError _ _ _ _ Hrun)
          as [(e & _ & Hsent)|(_ & Hsent)]
    end.
    + exists reqs. rewrite Hsent, Htr. split; [reflexivity|].
      rewrite List.length_app. split; [lia|].
      eapply Forall_impl; [exact Hall|].
      intros r0 (k & Hk & ->). exists k. split; [|reflexivity].
      rewrite map_app. apply elem_of_app. now left.
    + exists (reqs ++ [ReqDelete (blob_name_of key)]).
      rewrite Hsent, Htr, <- app_assoc. split; [reflexivity|].
      rewrite !List.length_app. cbn [length]. split; [lia|].
      apply Forall_app. split.
      * eapply Forall_impl; [exact Hall|].
        intros r0 (k & Hk & ->). exists k. split; [|reflexivity].
        rewrite map_app. apply elem_of_app. now left.
      * constructor; [|constructor]. exists key. split; [|reflexivity].
        rewrite map_app. apply elem_of_app. right. cbn. now left.
Qed.

(** X15.  At every point of a run of [DeleteBlobs] the requests it has sent
    are deletions of blobs of its items, each under the key without its
    trailing slashes, and there are no more of them than items: it sends
    nothing else, and at most one request for each item. *)
Theorem DeleteBlobs_requests Items (s : St W) sigma :
  DeleteBlobs_reaches az mapHttpError gate_cap Items s sigma ->
  exists reqs,
    trace (db_st sigma) = trace s ++ reqs /\
    (length reqs <= length Items)%nat /\
    Forall (fun r => exists key, key ∈ Items /\
                                 r = ReqDelete (blob_name_of key)) reqs.
Proof.
  intros Hrun.
  destruct (DeleteBlobs_sent_reaches _ _ _ Hrun)
    as (_ & reqs & Htr & Hlen & Hall).
  destruct (DeleteBlobs_inv_reaches az mapHttpError gate_cap _ _ _ Hrun)
    as (_ & _ & (spawned & Hitems & Hperm) & _).
  exists reqs. split; [exact Htr|].
  assert (Hfin : forall key, key ∈ map fst (db_finished sigma) -> key ∈ Items).
  { intros key Hkey. rewrite Hitems. apply elem_of_app. left.
    rewrite Hperm. apply elem_of_app. now left. }
  split.
  - rewrite Hitems, List.length_app, (Permutation_length Hperm),
      List.length_app, length_map. lia.
  - eapply Forall_impl; [exact Hall|].
    intros r (key & Hkey & ->). exists key. split; [now apply Hfin|reflexivity].
Qed.

(** X16.  [DeleteBlobs] of no item returns an output and no error, and
    touches nothing: no goroutine is started, no request is sent, and the
    state is the one the call started in. *)
Theorem DeleteBlobs_of_nothing (s : St W) :
  (exists final,
     DeleteBlobs_reaches az mapHttpError gate_cap [] s final /\
     db_pc final = Returned (Some Build_DeleteBlobsOutput) None) /\
  (forall sigma,
     DeleteBlobs_reaches az mapHttpError gate_cap [] s sigma ->
     db_st sigma = s /\ db_finished sigma = [] /\ db_running sigma = [] /\
     forall ret err, db_pc sigma = Returned ret err ->
                     ret = Some Build_DeleteBlobsOutput /\ err = None).
Proof.
  split.
  - exists {| db_pc := Returned (Some Build_DeleteBlobsOutput) None;
               db_todo := []; db_running := []; db_wg := 0; db_gate := 0;
               db_deleteError := None; db_st := s; db_finished := [] |}.
    split; [|reflexivity].
    unfold DeleteBlobs_reaches, DeleteBlobs_init.
    eapply rtc_l; [apply step_loop_end|].
    eapply rtc_l; [apply step_return|]. apply rtc_refl.
  - intros sigma Hrun.
    destruct (DeleteBlobs_sent_reaches _ _ _ Hrun) as (Hsame & _).
    destruct (DeleteBlobs_inv_reaches az mapHttpError gate_cap _ _ _ Hrun)
      as (_ & _ & (spawned & Hitems & Hperm) & Hnil & _ & Hpc).
    symmetry in Hitems. apply app_nil in Hitems as [-> _].
    symmetry in Hperm. apply Permutation_nil_r in Hperm.
    apply app_nil in Hperm as [Hfin Hrunning].
    apply map_eq_nil in Hfin.
    split; [now apply Hsame|]. split; [exact Hfin|]. split; [exact Hrunning|].
    intros ret err Hret. rewrite Hret in Hpc.
    destruct Hpc as (_ & _ & -> & ->).
    assert (Hnone : db_deleteError sigma = None)
      by (apply Hnil; rewrite Hfin; constructor).
    now rewrite Hnone.
Qed.

End DeleteBlobsRequests.

Lemma DeleteBlobs_requests_witness :
  let s0 := Store.start {[ "a" := Store.file ∅ ]} Store.no_listing in
  let sigma := {|
    db_pc := AtCheck; db_todo := ["b/"]; db_running := [];
    db_wg := 0; db_gate := 0; db_deleteError := None;
    db_st := {| world := {| Store.blobs := ∅;
                            Store.listing := Store.no_listing |};
                trace := [ReqDelete "a"] |};
    db_finished := [("a/", (Some Build_DeleteBlobOutput, None))] |} in
  exists reqs,
    trace (db_st sigma) = trace s0 ++ reqs /\
    (length reqs <= 2)%nat /\
    Forall (fun r => exists key, key ∈ ["a/"; "b/"] /\
                                 r = ReqDelete (blob_name_of key)) reqs.
Proof.
  intros s0 sigma.
  apply (DeleteBlobs_requests Store.client Store.mapHttpError 1
           ["a/"; "b/"] s0 sigma).
  unfold DeleteBlobs_reaches, DeleteBlobs_init, sigma.
  eapply rtc_l; [apply step_spawn; lia|].
  eapply rtc_l; [|apply rtc_refl].
  apply (step_goroutine Store.client Store.mapHttpError 1 AtCheck ["b/"]
           [] "a/" [] 1 1 None s0 []
           (Some Build_DeleteBlobOutput, None)
           {| world := {| Store.blobs := ∅;
                          Store.listing := Store.no_listing |};
              trace := [ReqDelete "a"] |}).
  vm_compute. reflexivity.
Defined.

Lemma DeleteBlobs_of_nothing_witness :
  let s0 := Store.start {[ "a" := Store.file ∅ ]} Store.no_listing in
  let final := {|
    db_pc := Returned (Some Build_DeleteBlobsOutput) None;
    db_todo := []; db_running := []; db_wg := 0; db_gate := 0;
    db_deleteError := None; db_st := s0; db_finished := [] |} in
  db_st final = s0 /\ db_finished final = [] /\ db_running final = [] /\
  forall ret err, db_pc final = Returned ret err ->
                  ret = Some Build_DeleteBlobsOutput /\ err = None.
Proof.
  intros s0 final.
  apply (proj2 (DeleteBlobs_of_nothing Store.client Store.mapHttpError 1 s0)).
  unfold DeleteBlobs_reaches, DeleteBlobs_init, final.
  eapply rtc_l; [apply step_loop_end|].
  eapply rtc_l; [apply step_return|]. apply rtc_refl.
Defined.

(** ** Init *)
Section ProbeFacts.
Context {W : Type}.
Variable az : AzureClient W.
Variable mapHttpError : Z -> option error.
Variable PMetadata : gmap string string -> gmap string (option string).

Lemma HeadBlob_refused key : forall (s : St W) w err w',
  refreshed az (S (trailing_slashes key)) (world s) = Some w ->
  az_GetProperties az (blob_name_of key) w = (inr err, w') ->
  HeadBlob az mapHttpError PMetadata key s
  = Done (None, mapAZBError mapHttpError (Some err))
         {| world := w';
            trace := trace s ++ [ReqGetProperties (blob_name_of key)] |}.
Proof.
  induction key as [key Hs|key Hs IH] using slash_ind;
    intros s w err w' Htoken Hgp;
    rewrite trailing_slashes_unfold, Hs in Htoken;
    rewrite blob_name_of_unfold, Hs in Hgp |- *;
    rewrite HeadBlob_unfold; unfold HeadBlob_body, bind, refreshToken, local;
    cbn [refreshed] in Htoken;
    destruct (az_refreshToken az (world s)) as [[e|] w1]; try discriminate Htoken.
  - injection Htoken as ->. rewrite Hs. unfold request. cbn [world trace].
    rewrite Hgp. reflexivity.
  - rewrite Hs.
    rewrite (IH {| world := w1; trace := trace s |} w err w' Htoken Hgp).
    destruct (mapAZBError_is_Some mapHttpError err) as [e He].
    rewrite He. reflexivity.
Qed.

(** X17.  [Init] with a token probes the container with one
    [GetProperties] of the key without its trailing slashes.  It returns no
    error when the blob is there, a directory or not, and when the service
    answers with an error that [mapAZBError] maps to ENOENT; any other error
    of the service is returned through [mapAZBError], here for a
    [mapHttpError] that gives no storage error. *)
Theorem Init_probes_container key (s : St W) w :
  gives_no_storage_error mapHttpError ->
  refreshed az (S (S (trailing_slashes key))) (world s) = Some w ->
  let name := blob_name_of key in
  Init az mapHttpError PMetadata key s
  = Done (match fst (az_GetProperties az name w) with
          | inl _ => None
          | inr err =>
              match mapAZBError mapHttpError (Some err) with
              | Some e => if is_ENOENT e then None else Some e
              | None => None
              end
          end)
         {| world := snd (az_GetProperties az name w);
            trace := trace s ++ [ReqGetProperties name] |}.
Proof.
  intros Hno Htoken name. subst name.
  unfold Init, bind at 1, refreshToken, local.
  change (refreshed az (S (S (trailing_slashes key))) (world s))
    with (match az_refreshToken az (world s) with
          | (None, w') => refreshed az (S (trailing_slashes key)) w'
          | (Some _, _) => None
          end) in Htoken.
  destruct (az_refreshToken az (world s)) as [[e|] w0];
    [discriminate Htoken|].
  unfold testBucket, bind.
  destruct (az_GetProperties az (blob_name_of key) w) as [[resp|err] w'] eqn:Hgp;
    cbn [fst snd].
  - rewrite (HeadBlob_resolves az mapHttpError PMetadata key
               {| world := w0; trace := trace s |} w resp w' Htoken Hgp).
    cbn [snd trace].
    destruct (HasSuffix key "/" && negb (IsDirBlob _)); reflexivity.
  - rewrite (HeadBlob_refused key {| world := w0; trace := trace s |}
               w err w' Htoken Hgp).
    cbn [snd trace].
    destruct (mapAZBError mapHttpError (Some err)) as [e|] eqn:He;
      [|reflexivity].
    rewrite (mapAZBError_result_fixed mapHttpError err e Hno He).
    destruct (is_ENOENT e); reflexivity.
Qed.

End ProbeFacts.

Lemma Init_probes_container_witness :
  let s := Store.start ∅ Store.no_listing in
  Init Store.client Store.mapHttpError Store.PMetadata "probe" s
  = Done None {| world := world s; trace := [ReqGetProperties "probe"] |}.
Proof.
  intros s.
  exact (Init_probes_container Store.client Store.mapHttpError Store.PMetadata
           "probe" s (world s) Store_mapHttpError_errnos eq_refl).
Defined.

(** ** The SAS token *)
Section TokenFacts.
Context {E URL : Type}.
Variable Now : E -> Token.Time * E.
Variable ParseQuery : string -> option (gmap string (list string)).
Variable time_Parse : string -> string -> option Token.Time.
Variable url_Parse : string -> URL + error.
Variable TIME_MAX : Token.Time.
Variable NewSharedKeyCredential : string -> string -> option error.

(** [updateToken] either fails with EACCES or EINVAL and leaves the driver
    as it is, or sets a container, which it returns. *)
Lemma updateToken_results (b : Token.AZBlob) provider (env : E) r b' env' :
  Token.updateToken ParseQuery time_Parse url_Parse TIME_MAX b provider env
  = (r, b', env') ->
  Token.sasTokenProvider b' = Token.sasTokenProvider b /\
  Token.renewing b' = Token.renewing b /\
  Token.tokenRenewBuffer b' = Token.tokenRenewBuffer b /\
  match snd r with
  | None => fst r = Token.c b' /\ is_Some (Token.c b')
  | Some e =>
      fst r = None /\ b' = b /\
      (e = SyscallErrno EACCES \/ e = SyscallErrno EINVAL)
  end.
Proof.
  unfold Token.updateToken. intros H.
  destruct (provider env) as [[token|err] env1].
  - destruct (url_Parse _) as [serviceURL|err].
    + injection H as <- <- <-. cbn. repeat split; eauto.
    + injection H as <- <- <-. cbn. repeat split; auto.
  - injection H as <- <- <-. cbn. repeat split; auto.
Qed.

(** The results of [refreshToken], by its error. *)
Lemma refreshToken_run (b : Token.AZBlob) (env : E) r b' env' :
  Token.refreshToken Now ParseQuery time_Parse url_Parse TIME_MAX b env
  = (r, b', env') ->
  match snd r with
  | None =>
      fst r = Token.c b' /\
      (is_Some (Token.sasTokenProvider b) -> is_Some (fst r))
  | Some e =>
      fst r = None /\ is_Some (Token.sasTokenProvider b) /\
      (e = SyscallErrno EACCES \/
       e = SyscallErrno EINVAL /\ Token.c b = None) /\
      (Token.renewing b = false -> b' = b)
  end.
Proof.
  unfold Token.refreshToken. intros H.
  destruct (Token.sasTokenProvider b) as [provider|] eqn:Hprovider.
  2:{ injection H as <- <- <-. cbn. split; [reflexivity|].
      intros [p Hp]. discriminate Hp. }
  destruct (Token.c b) as [cu|] eqn:Hc.
  2:{ apply updateToken_results in H as (_ & _ & _ & H).
      destruct (snd r) as [e|].
      - destruct H as (Hnil & Hb & He). split; [exact Hnil|].
        split; [eauto|]. split; [|intros _; exact Hb].
        destruct He as [He|He]; [now left|right; now split].
      - destruct H as (Hfst & Hsome). split; [exact Hfst|].
        intros _. rewrite Hfst. exact Hsome. }
  destruct (Now env) as [now1 env1].
  destruct (Token.Before (Token.tokenExpire b) now1).
  - (* expired *)
    destruct (Token.renewing b) eqn:Hrenewing.
    + unfold Token.renew_in_background in H.
      destruct (Token.updateToken _ _ _ _ b provider env1)
        as [[r0 b0] env0] eqn:Hbg.
      apply updateToken_results in Hbg as (_ & _ & _ & Hbg).
      assert (Hc0 : is_Some (Token.c b0)).
      { destruct (snd r0); [destruct Hbg as (_ & -> & _); rewrite Hc; eauto
                           |now destruct Hbg]. }
      destruct (Now env0) as [now2 env2].
      destruct (Token.Before _ now2).
      * destruct (Token.updateToken _ _ _ _ _ provider env2)
          as [[[cu1 [e1|]] b1] env3] eqn:Hup;
          injection H as <- <- <-; cbn [fst snd].
        -- split; [reflexivity|]. split; [eauto|].
           split; [now left|discriminate].
        -- split; [reflexivity|]. intros _.
           apply updateToken_results in Hup as (_ & _ & _ & Hup).
           now destruct Hup.
      * injection H as <- <- <-. cbn [fst snd]. split; [reflexivity|].
        intros _. exact Hc0.
    + destruct (Now env1) as [now2 env2].
      destruct (Token.Before _ now2).
      * destruct (Token.updateToken _ _ _ _ _ provider env2)
          as [[[cu1 [e1|]] b1] env3] eqn:Hup;
          injection H as <- <- <-; cbn [fst snd];
          apply updateToken_results in Hup as (_ & _ & _ & Hup);
          cbn [fst snd] in Hup.
        -- split; [reflexivity|]. split; [eauto|].
           split; [now left|]. intros _. now destruct Hup as (_ & -> & _).
        -- split; [reflexivity|]. intros _. now destruct Hup.
      * injection H as <- <- <-. cbn [fst snd]. split; [reflexivity|].
        intros _. rewrite Hc. eauto.
  - destruct (Now env1) as [now2 env2].
    destruct (Token.Before _ now2); [destruct (Token.renewing b)|];
      injection H as <- <- <-; cbn [fst snd Token.with_renewing Token.c];
      rewrite ?Hc; (split; [reflexivity|]); intros _; eauto.
Qed.

(** X18.  The results of [refreshToken].  Without a token provider it
    hands out the container of the driver and does nothing else.  Without
    an error it returns the container that the driver now holds, and with a
    token provider that is never nil.  Its errors are EACCES and EINVAL,
    always with a nil container; EINVAL only from the first renewal, when
    the driver had no container yet; and a call that fails while no renewal
    is under way in the background leaves the driver as it was. *)
Theorem refreshToken_results (b : Token.AZBlob) (env : E) r b' env' :
  Token.refreshToken Now ParseQuery time_Parse url_Parse TIME_MAX b env
  = (r, b', env') ->
  (Token.sasTokenProvider b = None ->
   r = (Token.c b, None) /\ b' = b /\ env' = env) /\
  match snd r with
  | None =>
      fst r = Token.c b' /\
      (is_Some (Token.sasTokenProvider b) -> is_Some (fst r))
  | Some e =>
      fst r = None /\ is_Some (Token.sasTokenProvider b) /\
      (e = SyscallErrno EACCES \/
       e = SyscallErrno EINVAL /\ Token.c b = None) /\
      (Token.renewing b = false -> b' = b)
  end.
Proof.
  intros Hrun. split; [|exact (refreshToken_run b env r b' env' Hrun)].
  intros Hnone. unfold Token.refreshToken in Hrun. rewrite Hnone in Hrun.
  now injection Hrun as <- <- <-.
Qed.

(** A [refreshToken] that reads, twice, a time at which the token has not
    expired does nothing. *)
Lemma refreshToken_idle (b : Token.AZBlob) (env : E)
    provider cu now1 env1 now2 env2 :
  Token.sasTokenProvider b = Some provider ->
  Token.c b = Some cu ->
  0 <= Token.tokenRenewBuffer b ->
  Now env = (now1, env1) -> Now env1 = (now2, env2) -> now1 <= now2 ->
  now2 <= Token.tokenExpire b ->
  Token.refreshToken Now ParseQuery time_Parse url_Parse TIME_MAX b env
  = ((Some cu, None), b, env2).
Proof.
  intros Hprovider Hc Hbuffer Hnow1 Hnow2 Hclock Hgood.
  unfold Token.refreshToken. rewrite Hprovider, Hc, Hnow1.
  unfold Token.Before, Token.Add.
  destruct (Token.tokenExpire b <? now1) eqn:Hexp;
    [apply Z.ltb_lt in Hexp; lia|].
  rewrite Hnow2.
  destruct (_ + _ <? now2) eqn:Hearly; [apply Z.ltb_lt in Hearly; lia|].
  reflexivity.
Qed.

(** X19.  [refreshToken] renews no token that is still good: with a renew
    buffer that is not negative and a clock that does not run backwards, a
    call that reads a time at which the token has not expired changes
    nothing and asks the provider for nothing; and when a call starts the
    renewal in the background, the token plus the buffer was over at the
    second reading of the clock, so the token had expired by then. *)
Theorem refreshToken_renews_after_expiry (b : Token.AZBlob) (env : E)
    provider cu now1 env1 now2 env2 :
  Token.sasTokenProvider b = Some provider ->
  Token.c b = Some cu ->
  0 <= Token.tokenRenewBuffer b ->
  Now env = (now1, env1) -> Now env1 = (now2, env2) -> now1 <= now2 ->
  (now2 <= Token.tokenExpire b ->
   Token.refreshToken Now ParseQuery time_Parse url_Parse TIME_MAX b env
   = ((Some cu, None), b, env2)) /\
  (forall r b' env',
     Token.refreshToken Now ParseQuery time_Parse url_Parse TIME_MAX b env
     = (r, b', env') ->
     Token.renewing b = false -> Token.renewing b' = true ->
     Token.tokenExpire b + Token.tokenRenewBuffer b < now2 /\
     Token.tokenExpire b < now2 /\
     r = (Some cu, None) /\ b' = Token.with_renewing b true /\ env' = env2).
Proof.
  intros Hprovider Hc Hbuffer Hnow1 Hnow2 Hclock. split.
  - intros Hgood.
    now apply (refreshToken_idle b env provider cu now1 env1 now2 env2).
  - unfold Token.refreshToken. rewrite Hprovider, Hc, Hnow1.
    unfold Token.Before, Token.Add.
    intros r b' env' H Hidle Hbusy. rewrite Hidle in H.
    destruct (Token.tokenExpire b <? now1) eqn:Hexp.
    + exfalso. rewrite Hnow2 in H.
      destruct (Token.tokenExpire b <? now2).
      * destruct (Token.updateToken _ _ _ _ b provider env2)
          as [[[cu1 [e1|]] b1] env3] eqn:Hup;
          injection H as <- <- <-;
          apply updateToken_results in Hup as (_ & Hren & _);
          congruence.
      * injection H as <- <- <-. congruence.
    + rewrite Hnow2 in H.
      destruct (_ + _ <? now2) eqn:Hearly.
      * apply Z.ltb_lt in Hearly. injection H as <- <- <-.
        repeat split; try reflexivity; lia.
      * injection H as <- <- <-. congruence.
Qed.

(** X20.  The driver that [NewAZBlob] makes.  Without a token provider it
    holds the container of the endpoint, and [refreshToken] hands that out
    without looking at the clock; with a provider it holds no container, and
    the first [refreshToken] is [updateToken].  Either way a [refreshToken]
    of this driver that gives no error gives a container. *)
Theorem NewAZBlob_then_refreshToken container (config : Token.AZBlobConfig)
    (b : Token.AZBlob) :
  Token.NewAZBlob url_Parse NewSharedKeyCredential container config = inl b ->
  Token.bucket b = container /\
  Token.bareURL b = Token.Endpoint config /\
  Token.MaxMultipartSize (Token.cap b) = 104857600 /\
  (Token.SasToken config = None ->
   exists u,
     url_Parse (Token.Endpoint config) = inl u /\
     forall env : E,
       Token.refreshToken Now ParseQuery time_Parse url_Parse TIME_MAX b env
       = ((Some {| Token.cu_service := u; Token.cu_container := container |},
           None), b, env)) /\
  (forall provider, Token.SasToken config = Some provider ->
     Token.c b = None /\
     forall env : E,
       Token.refreshToken Now ParseQuery time_Parse url_Parse TIME_MAX b env
       = Token.updateToken ParseQuery time_Parse url_Parse TIME_MAX b
           provider env) /\
  (forall (env : E) r b' env',
     Token.refreshToken Now ParseQuery time_Parse url_Parse TIME_MAX b env
     = (r, b', env') ->
     snd r = None -> is_Some (fst r)).
Proof.
  unfold Token.NewAZBlob. intros H.
  assert (Hsome : forall (env : E) r b' env',
    is_Some (Token.sasTokenProvider b) \/
    (Token.sasTokenProvider b = None /\ is_Some (Token.c b)) ->
    Token.refreshToken Now ParseQuery time_Parse url_Parse TIME_MAX b env
    = (r, b', env') ->
    snd r = None -> is_Some (fst r)).
  { intros env r b' env' [Hp|[Hp Hc]] Hrun Hok.
    - apply refreshToken_run in Hrun. rewrite Hok in Hrun.
      destruct Hrun as [_ Hrun]. now apply Hrun.
    - unfold Token.refreshToken in Hrun. rewrite Hp in Hrun.
      injection Hrun as <- <- <-. exact Hc. }
  destruct (Token.SasToken config) as [provider|] eqn:Hsas.
  - injection H as <-. cbn [Token.bucket Token.bareURL Token.cap Token.c
                            Token.MaxMultipartSize] in *.
    refine (conj eq_refl (conj eq_refl (conj eq_refl (conj _ (conj _ _))))).
    + discriminate.
    + intros p [= <-]. split; [reflexivity|]. intros env. reflexivity.
    + intros env r b' env'. apply Hsome. left. cbn. eauto.
  - destruct (NewSharedKeyCredential _ _); [discriminate H|].
    destruct (url_Parse (Token.Endpoint config)) as [u0|err]; [|discriminate H].
    injection H as <-. cbn [Token.bucket Token.bareURL Token.cap Token.c
                            Token.MaxMultipartSize] in *.
    refine (conj eq_refl (conj eq_refl (conj eq_refl (conj _ (conj _ _))))).
    + intros _. exists u0. split; [reflexivity|]. intros env. reflexivity.
    + discriminate.
    + intros env r b' env'. apply Hsome. right. cbn. eauto.
Qed.

(** X26.  A token without an expiry is kept.  When the token that the
    provider gives has no [se] parameter that parses as a time (the query
    does not parse, [se] is missing or empty, or it fits neither layout),
    [updateToken] sets the expiry to [TIME_MAX], and no later
    [refreshToken] at a time up to [TIME_MAX] renews it or asks the provider
    again. *)
Theorem token_without_expiry_is_kept (b : Token.AZBlob) provider (env : E)
    token env0 serviceURL :
  Token.sasTokenProvider b = Some provider ->
  0 <= Token.tokenRenewBuffer b ->
  provider env = (inl token, env0) ->
  url_Parse (Token.bareURL b +:+ "?" +:+ token) = inl serviceURL ->
  ParseQuery token = None \/
  (exists parts,
     ParseQuery token = Some parts /\
     (Token.Values_Get parts "se" = "" \/
      (time_Parse "2006-01-02T15:04:05Z" (Token.Values_Get parts "se") = None /\
       time_Parse "2006-01-02" (Token.Values_Get parts "se") = None))) ->
  exists b1,
    Token.updateToken ParseQuery time_Parse url_Parse TIME_MAX b provider env
    = ((Token.c b1, None), b1, env0) /\
    Token.c b1 = Some {| Token.cu_service := serviceURL;
                         Token.cu_container := Token.bucket b |} /\
    Token.tokenExpire b1 = TIME_MAX /\
    forall env1 now1 env2 now2 env3,
      Now env1 = (now1, env2) -> Now env2 = (now2, env3) ->
      now1 <= now2 -> now2 <= TIME_MAX ->
      Token.refreshToken Now ParseQuery time_Parse url_Parse TIME_MAX b1 env1
      = ((Token.c b1, None), b1, env3).
Proof.
  intros Hprovider Hbuffer Htoken Hurl Hse.
  assert (Hexpire : Token.parseSasToken ParseQuery time_Parse TIME_MAX token
                    = TIME_MAX).
  { unfold Token.parseSasToken.
    destruct Hse as [->|(parts & -> & [->|[-> ->]])]; try reflexivity.
    now destruct (String.eqb _ ""). }
  unfold Token.updateToken. rewrite Htoken, Hurl, Hexpire.
  lazymatch goal with
  | |- exists b1, (_, ?renewed, _) = _ /\ _ => exists renewed
  end.
  split; [reflexivity|]. cbn [Token.c Token.tokenExpire].
  split; [reflexivity|]. split; [reflexivity|].
  intros env1 now1 env2 now2 env3 Hnow1 Hnow2 Hclock Hmax.
  now apply (refreshToken_idle _ env1 provider _ now1 env2 now2 env3).
Qed.

End TokenFacts.

Lemma refreshToken_results_witness :
  match
    Token.refreshToken Sas.Now Sas.ParseQuery Sas.time_Parse Sas.url_Parse
      Sas.TIME_MAX Sas.renewed [2000; 2001]
  with
  | (r, b', _) => snd r = None /\ fst r = Token.c b' /\ is_Some (fst r)
  end.
Proof.
  destruct (Token.refreshToken Sas.Now Sas.ParseQuery Sas.time_Parse
              Sas.url_Parse Sas.TIME_MAX Sas.renewed [2000; 2001])
    as [[r b'] env'] eqn:Hrun.
  pose proof (proj2 (refreshToken_results _ _ _ _ _ _ _ _ _ _ Hrun)) as Hres.
  assert (Hok : snd r = None) by (vm_compute in Hrun; now injection Hrun as <-).
  rewrite Hok in Hres. destruct Hres as [Hc Hsome].
  split; [exact Hok|]. split; [exact Hc|]. apply Hsome. cbn. eauto.
Defined.

Lemma refreshToken_renews_after_expiry_witness :
  Token.refreshToken Sas.Now Sas.ParseQuery Sas.time_Parse Sas.url_Parse
    Sas.TIME_MAX Sas.renewed [500; 501]
  = ((Token.c Sas.renewed, None), Sas.renewed, []).
Proof.
  apply (refreshToken_renews_after_expiry Sas.Now Sas.ParseQuery
           Sas.time_Parse Sas.url_Parse Sas.TIME_MAX Sas.renewed [500; 501]
           Sas.provider _ 500 [501] 501 []
           eq_refl eq_refl ltac:(cbn; lia) eq_refl eq_refl ltac:(lia)).
  cbn. lia.
Defined.

Lemma NewAZBlob_then_refreshToken_witness :
  match
    Token.NewAZBlob Sas.url_Parse Sas.NewSharedKeyCredential "bucket"
      (Sas.config None)
  with
  | inl b =>
      Token.bucket b = "bucket" /\
      Token.refreshToken Sas.Now Sas.ParseQuery Sas.time_Parse Sas.url_Parse
        Sas.TIME_MAX b [5]
      = ((Token.c b, None), b, [5])
  | inr _ => False
  end.
Proof.
  destruct (Token.NewAZBlob Sas.url_Parse Sas.NewSharedKeyCredential "bucket"
              (Sas.config None)) as [b|err] eqn:Hnew;
    [|vm_compute in Hnew; discriminate Hnew].
  destruct (NewAZBlob_then_refreshToken Sas.Now Sas.ParseQuery Sas.time_Parse
              Sas.url_Parse Sas.TIME_MAX Sas.NewSharedKeyCredential
              "bucket" (Sas.config None) b Hnew)
    as (Hbucket & _ & _ & Hkey & _).
  split; [exact Hbucket|].
  destruct (Hkey eq_refl) as (u0 & Hu & Hrefresh).
  rewrite (Hrefresh [5]). f_equal. f_equal.
  vm_compute in Hnew, Hu. injection Hu as <-. now injection Hnew as <-.
Defined.

(** ** The names of the metadata headers *)

Lemma ToLower_not_upper_metadata key :
  is_upper_metadata_header (ToLower key) = false.
Proof.
  unfold is_upper_metadata_header.
  now rewrite ToLower_idem, String.eqb_refl.
Qed.

Lemma fixed_header_name_lower key :
  ToLower (fixed_header_name key) = ToLower key.
Proof.
  unfold fixed_header_name.
  destruct (is_upper_metadata_header key); [apply ToLower_idem|reflexivity].
Qed.

Lemma fixed_header_name_fixed key :
  is_upper_metadata_header (fixed_header_name key) = false.
Proof.
  unfold fixed_header_name.
  destruct (is_upper_metadata_header key) eqn:Hup;
    [apply ToLower_not_upper_metadata|exact Hup].
Qed.

Section HeaderFacts.
Variable CanonicalMIMEHeaderKey : string -> string.

(** X21.  The HTTP sender leaves alone a header without a metadata name
    that has an upper-case letter: whatever the order of the range, the
    header is the same after the loop.  A second run of the loop is such a
    case. *)
Theorem fix_headers_nothing_to_fix (order : list string)
    (Header : gmap string (list string)) :
  (forall key, is_Some (Header !! key) ->
               is_upper_metadata_header key = false) ->
  fix_headers CanonicalMIMEHeaderKey order Header = Header.
Proof.
  intros Hnone. unfold fix_headers.
  induction order as [|key order IH]; [reflexivity|].
  cbn [foldl].
  assert (Hstep : fix_header CanonicalMIMEHeaderKey Header key = Header).
  { unfold fix_header. destruct (Header !! key) as [value|] eqn:Hkey;
      [|reflexivity].
    specialize (Hnone key (ex_intro _ value Hkey)).
    unfold is_upper_metadata_header in Hnone. now rewrite Hnone. }
  now rewrite Hstep.
Qed.

(** The loop, round by round: the names it has come to are under their
    fixed names, the others where they were. *)
Lemma fix_headers_rounds (Header : gmap string (list string)) :
  (forall key, is_Some (Header !! key) ->
     is_upper_metadata_header key = true -> CanonicalMIMEHeaderKey key = key) ->
  (forall key1 key2, is_Some (Header !! key1) -> is_Some (Header !! key2) ->
     ToLower key1 = ToLower key2 -> key1 = key2) ->
  forall (rest done : list string) (h : gmap string (list string)),
  NoDup (done ++ rest) ->
  (forall key, key ∈ rest -> is_Some (Header !! key)) ->
  (forall key value, Header !! key = Some value -> key ∈ done ->
     h !! fixed_header_name key = Some value) ->
  (forall key value, Header !! key = Some value -> key ∉ done ->
     h !! key = Some value) ->
  (forall k value, h !! k = Some value ->
     exists key, Header !! key = Some value /\
       ((k = fixed_header_name key /\ key ∈ done) \/
        (k = key /\ key ∉ done))) ->
  let h' := fix_headers CanonicalMIMEHeaderKey rest h in
  (forall key value, Header !! key = Some value -> key ∈ done ++ rest ->
     h' !! fixed_header_name key = Some value) /\
  (forall key value, Header !! key = Some value -> key ∉ done ++ rest ->
     h' !! key = Some value) /\
  (forall k value, h' !! k = Some value ->
     exists key, Header !! key = Some value /\
       ((k = fixed_header_name key /\ key ∈ done ++ rest) \/
        (k = key /\ key ∉ done ++ rest))).
Proof.
  intros Hcanon Hinj rest.
  induction rest as [|key rest IH]; intros done h Hnodup Hrest H1 H2 H3.
  - cbn. rewrite app_nil_r. auto.
  - cbv zeta. unfold fix_headers. cbn [foldl].
    fold (fix_headers CanonicalMIMEHeaderKey rest
            (fix_header CanonicalMIMEHeaderKey h key)).
    replace (done ++ key :: rest) with ((done ++ [key]) ++ rest)
      by (now rewrite <- app_assoc).
    assert (Hkey_new : key ∉ done).
    { apply NoDup_app in Hnodup as (_ & Hdisj & _).
      intros Hin. apply (Hdisj key Hin). now left. }
    destruct (Hrest key ltac:(now left)) as [value Hvalue].
    pose proof (H2 key value Hvalue Hkey_new) as Hh.
    assert (Hother : forall key0, is_Some (Header !! key0) -> key0 <> key ->
              fixed_header_name key0 <> key /\
              fixed_header_name key0 <> ToLower key /\
              key0 <> ToLower key).
    { intros key0 Hsome Hne. repeat split; intros Heq; apply Hne;
        apply Hinj; try assumption; try (now exists value).
      - now rewrite <- Heq, fixed_header_name_lower.
      - rewrite <- (fixed_header_name_lower key0), Heq. apply ToLower_idem.
      - rewrite Heq. apply ToLower_idem. }
    apply IH; clear IH.
    + now rewrite <- app_assoc.
    + intros key0 Hin. apply Hrest. now right.
    + (* the names the loop has come to *)
      intros key0 value0 Hvalue0 Hin.
      unfold fix_header. rewrite Hh.
      fold (is_upper_metadata_header key).
      apply elem_of_app in Hin as [Hin|Hin].
      * assert (Hne : key0 <> key) by (intros ->; contradiction).
        destruct (Hother key0 (ex_intro _ value0 Hvalue0) Hne)
          as (Hn1 & Hn2 & _).
        destruct (is_upper_metadata_header key) eqn:Hup;
          [|now apply H1].
        rewrite lookup_insert_ne by (intros Heq; now apply Hn2).
        rewrite Hcanon by (assumption || now exists value).
        rewrite lookup_delete_ne by (intros Heq; now apply Hn1).
        now apply H1.
      * apply list_elem_of_singleton in Hin. subst key0.
        rewrite Hvalue in Hvalue0. injection Hvalue0 as <-.
        unfold fixed_header_name.
        destruct (is_upper_metadata_header key) eqn:Hup;
          [apply lookup_insert_eq|exact Hh].
    + (* the names still to come *)
      intros key0 value0 Hvalue0 Hnotin.
      assert (Hne : key0 <> key).
      { intros ->. apply Hnotin, elem_of_app. right. now left. }
      assert (Hnotdone : key0 ∉ done).
      { intros Hin. apply Hnotin, elem_of_app. now left. }
      destruct (Hother key0 (ex_intro _ value0 Hvalue0) Hne) as (_ & _ & Hn3).
      unfold fix_header. rewrite Hh.
      fold (is_upper_metadata_header key).
      destruct (is_upper_metadata_header key) eqn:Hup; [|now apply H2].
      rewrite lookup_insert_ne by (intros Heq; now apply Hn3).
      rewrite Hcanon by (assumption || now exists value).
      rewrite lookup_delete_ne by (intros Heq; now apply Hne).
      now apply H2.
    + (* nothing else *)
      intros k value0. unfold fix_header. rewrite Hh.
      fold (is_upper_metadata_header key).
      destruct (is_upper_metadata_header key) eqn:Hup.
      * rewrite Hcanon by (assumption || now exists value).
        destruct (decide (ToLower key = k)) as [<-|Hnk].
        -- rewrite lookup_insert_eq. intros [= <-].
           exists key. split; [exact Hvalue|]. left.
           split; [|apply elem_of_app; right; now left].
           unfold fixed_header_name. now rewrite Hup.
        -- rewrite lookup_insert_ne by exact Hnk.
           destruct (decide (key = k)) as [<-|Hnk'];
             [rewrite lookup_delete_eq; discriminate|].
           rewrite lookup_delete_ne by exact Hnk'.
           intros Hk. destruct (H3 k value0 Hk) as (key0 & Hv0 & Hcase).
           exists key0. split; [exact Hv0|].
           destruct Hcase as [[-> Hin]|[-> Hnotin]].
           ++ left. split; [reflexivity|apply elem_of_app; now left].
           ++ right. split; [reflexivity|].
              intros Hin. apply elem_of_app in Hin as [Hin|Hin];
                [contradiction|].
              apply list_elem_of_singleton in Hin. now subst.
      * intros Hk. destruct (H3 k value0 Hk) as (key0 & Hv0 & Hcase).
        exists key0. split; [exact Hv0|].
        destruct Hcase as [[-> Hin]|[-> Hnotin]].
        -- left. split; [reflexivity|apply elem_of_app; now left].
        -- destruct (decide (key0 = key)) as [->|Hne].
           ++ left. split; [|apply elem_of_app; right; now left].
              unfold fixed_header_name. now rewrite Hup.
           ++ right. split; [reflexivity|].
              intros Hin. apply elem_of_app in Hin as [Hin|Hin];
                [contradiction|].
              apply list_elem_of_singleton in Hin. now subst.
Qed.

(** X22.  What the HTTP sender makes of the header, whatever the order of
    the range, when the metadata names with an upper-case letter are in
    canonical form, as [net/http] keeps them, and no two names of the
    header are the same in lower case: every metadata name is in lower case
    afterwards, every header is still there with its values, under its name
    or under its name in lower case, and there is nothing else. *)
Theorem fix_headers_lower_metadata (Header : gmap string (list string))
    (order : list string) :
  (forall key, is_Some (Header !! key) ->
     is_upper_metadata_header key = true -> CanonicalMIMEHeaderKey key = key) ->
  (forall key1 key2, is_Some (Header !! key1) -> is_Some (Header !! key2) ->
     ToLower key1 = ToLower key2 -> key1 = key2) ->
  range_order Header order ->
  let fixed := fix_headers CanonicalMIMEHeaderKey order Header in
  (forall k, is_Some (fixed !! k) -> is_upper_metadata_header k = false) /\
  (forall key value, Header !! key = Some value ->
     fixed !! fixed_header_name key = Some value) /\
  (forall k value, fixed !! k = Some value ->
     exists key, Header !! key = Some value /\ k = fixed_header_name key).
Proof.
  intros Hcanon Hinj [Hnodup Horder] fixed.
  destruct (fix_headers_rounds Header Hcanon Hinj order [] Header)
    as (H1 & _ & H3); cbn [app].
  - exact Hnodup.
  - intros key Hin. now apply Horder.
  - intros key value _ Hin. now apply elem_of_nil in Hin.
  - auto.
  - intros k value Hk. exists k. split; [exact Hk|]. right.
    split; [reflexivity|apply not_elem_of_nil].
  - cbn [app] in H1, H3. fold fixed in H1, H3.
    assert (Hsource : forall k value, fixed !! k = Some value ->
              exists key, Header !! key = Some value /\
                          k = fixed_header_name key).
    { intros k value Hk. destruct (H3 k value Hk) as (key & Hv & Hcase).
      exists key. split; [exact Hv|].
      destruct Hcase as [[-> _]|[_ Hnotin]]; [reflexivity|].
      exfalso. apply Hnotin, Horder. now exists value. }
    split; [|split; [|exact Hsource]].
    + intros k [value Hk]. destruct (Hsource k value Hk) as (key & _ & ->).
      apply fixed_header_name_fixed.
    + intros key value Hv. apply H1; [exact Hv|].
      apply Horder. now exists value.
Qed.

End HeaderFacts.

Lemma fix_headers_nothing_to_fix_witness :
  fix_headers (fun key => key) ["x-ms-meta-a"; "Content-Type"]
    {[ "x-ms-meta-a" := ["1"] ]}
  = {[ "x-ms-meta-a" := ["1"] ]}.
Proof.
  apply fix_headers_nothing_to_fix.
  intros key [value Hkey].
  apply lookup_singleton_Some in Hkey as [<- _]. reflexivity.
Defined.

Lemma fix_headers_lower_metadata_witness :
  fix_headers (fun key => key) ["X-Ms-Meta-Hdi_isfolder"]
    {[ "X-Ms-Meta-Hdi_isfolder" := ["true"] ]}
  !! "x-ms-meta-hdi_isfolder" = Some ["true"].
Proof.
  assert (Honly : forall key : string,
            is_Some (({[ "X-Ms-Meta-Hdi_isfolder" := ["true"] ]}
                      : gmap string (list string)) !! key) ->
            key = "X-Ms-Meta-Hdi_isfolder").
  { intros key [value Hkey].
    now apply lookup_singleton_Some in Hkey as [<- _]. }
  destruct (fix_headers_lower_metadata (fun key => key)
              {[ "X-Ms-Meta-Hdi_isfolder" := ["true"] ]}
              ["X-Ms-Meta-Hdi_isfolder"]) as (_ & Hkept & _).
  - reflexivity.
  - intros key1 key2 H1 H2 _. now rewrite (Honly _ H1), (Honly _ H2).
  - split; [apply NoDup_singleton|].
    intros key. rewrite list_elem_of_singleton. split.
    + intros ->. rewrite lookup_singleton_eq. eauto.
    + apply Honly.
  - exact (Hkept "X-Ms-Meta-Hdi_isfolder" ["true"]
             (lookup_singleton_eq _ _)).
Defined.

(** ** Outputs and errors *)
Section Results.
Context {W : Type}.
Variable az : AzureClient W.
Variable b : AZBlob.
Variable mapHttpError : Z -> option error.
Variable PMetadata : gmap string string -> gmap string (option string).

Lemma PutBlob_sent key : forall param (s s' : St W) r,
  pb_Key param = key ->
  PutBlob az mapHttpError param s = Done r s' ->
  one_result r.
Proof.
  intros param s s' r Hkey Hrun. unfold one_result.
  pose proof (PutBlob_cases az mapHttpError key param s Hkey) as Hcases.
  destruct (refreshed az (put_refreshes param) (world s)) as [w|].
  - rewrite Hcases in Hrun.
    destruct (az_Upload az _ _ _ _ w) as [[resp|err] w'];
      injection Hrun as <- <-; [left; eauto|right].
    destruct (mapAZBError_is_Some mapHttpError err) as [e He].
    exists e. unfold mapErr. now rewrite He.
  - destruct Hcases as (e & s1 & Heq & _). rewrite Heq in Hrun.
    injection Hrun as <- <-. right. eauto.
Qed.

Lemma CopyBlob_depth_one_of polls depth : forall param (s s' : St W) r,
  CopyBlob_depth az mapHttpError polls depth param s = Done (Some r) s' ->
  one_result r.
Proof.
  unfold one_result.
  assert (Hmapped : forall err,
            (exists out : CopyBlobOutput,
               (None, mapErr mapHttpError err) = (Some out, None)) \/
            (exists e, (@None CopyBlobOutput, mapErr mapHttpError err)
                       = (None, Some e))).
  { intros err. right.
    destruct (mapAZBError_is_Some mapHttpError err) as [e He].
    exists e. unfold mapErr. now rewrite He. }
  induction depth as [|depth IH]; intros param s s' r Hrun;
    cbn [CopyBlob_depth] in Hrun; unfold CopyBlob_body in Hrun;
    (destruct (HasSuffix (cp_Source param) "/" &&
               HasSuffix (cp_Destination param) "/");
     [first [discriminate Hrun | exact (IH _ _ _ _ Hrun)]|]).
  all: unfold bind at 1 in Hrun; unfold refreshToken, local in Hrun;
    (destruct (az_refreshToken az (world s)) as [[e|] w0];
     [injection Hrun as <- _; right; eauto|]).
  all: unfold bind at 1 in Hrun; unfold request at 1 in Hrun;
    cbn [world trace] in Hrun;
    (destruct (az_StartCopyFromURL az _ _ _ w0) as [[resp|err] w1];
     [|injection Hrun as <- _; apply Hmapped]).
  all: (destruct (String.eqb (sc_CopyStatus resp) CopyStatusPending);
        [|injection Hrun as <- _; left; eauto]).
  all: unfold bind at 1 in Hrun; unfold request at 1 in Hrun;
    cbn [world trace] in Hrun; unfold bind at 1 in Hrun;
    (destruct (CopyBlob_poll az _ _ _ _) as [[[err|]|] s3|];
     try discriminate Hrun);
    injection Hrun as <- _; first [apply Hmapped|left; eauto].
Qed.

(** X23.  Each of [ListBlobs], [DeleteBlob], [CopyBlob], [GetBlob],
    [PutBlob], [MultipartBlobAdd], [MultipartBlobCopy] and
    [MultipartBlobCommit] returns an output or an error, never both and
    never neither: a caller that finds the error nil has an output. *)
Theorem output_or_error (s s' : St W) :
  (forall param r,
     ListBlobs az b mapHttpError PMetadata param s = Done r s' -> one_result r) /\
  (forall key r,
     DeleteBlob az mapHttpError key s = Done r s' -> one_result r) /\
  (forall polls param r,
     CopyBlob az mapHttpError polls param s = Done (Some r) s' -> one_result r) /\
  (forall param r,
     GetBlob az mapHttpError PMetadata param s = Done r s' -> one_result r) /\
  (forall param r,
     PutBlob az mapHttpError param s = Done r s' -> one_result r) /\
  (forall param r,
     MultipartBlobAdd az mapHttpError param s = Done r s' -> one_result r) /\
  (forall param r,
     MultipartBlobCopy az b mapHttpError param s = Done r s' -> one_result r) /\
  (forall param r,
     MultipartBlobCommit az mapHttpError param s = Done r s' -> one_result r).
Proof.
  assert (Hmapped : forall A err,
            @one_result A (None, mapErr mapHttpError err)).
  { intros A err. right.
    destruct (mapAZBError_is_Some mapHttpError err) as [e He].
    exists e. unfold mapErr. now rewrite He. }
  assert (Hout : forall A (out : A), @one_result A (Some out, None))
    by (intros A out; left; eauto).
  assert (Herr : forall A e, @one_result A (None, Some e))
    by (intros A e; right; eauto).
  repeat split.
  - intros param r Hrun.
    destruct (lb_StartAfter param) as [after|] eqn:Hstart.
    { unfold ListBlobs in Hrun. rewrite Hstart in Hrun.
      injection Hrun as <- _. apply Herr. }
    destruct (az_refreshToken az (world s)) as [[e|] w0] eqn:Htoken.
    { unfold ListBlobs in Hrun. rewrite Hstart in Hrun.
      unfold bind, refreshToken, local in Hrun. rewrite Htoken in Hrun.
      injection Hrun as <- _. apply Herr. }
    destruct (list_request az param w0) as [[resp|err] w1] eqn:Hreq.
    + rewrite (ListBlobs_eq az b mapHttpError PMetadata param s w0 resp w1
                 Hstart Htoken Hreq) in Hrun.
      cbv zeta in Hrun.
      destruct (lists_a_blob param resp);
        [injection Hrun as <- _; apply Hout|].
      destruct (ListBlobs_loop _ _ _ _ _ _) as [[[prefixes items] sortItems]|];
        [|discriminate Hrun].
      destruct (HasSuffix (NilStr (lb_Prefix param)) "/");
        [|injection Hrun as <- _; apply Hout].
      destruct (HeadBlob az mapHttpError PMetadata _ _)
        as [[[d|] [e|]] s2|]; try discriminate Hrun;
        try (destruct (is_ENOENT e));
        injection Hrun as <- _; first [apply Hout|apply Herr].
    + unfold ListBlobs in Hrun. rewrite Hstart in Hrun.
      unfold bind at 1 in Hrun. unfold refreshToken, local in Hrun.
      rewrite Htoken in Hrun. unfold bind at 1 in Hrun.
      unfold ListBlobs_segment in Hrun. unfold list_request in Hreq.
      fold (list_options param) in Hrun.
      destruct (lb_Delimiter param) as [d|];
        unfold bind, request, ret in Hrun; cbn [world trace] in Hrun;
        rewrite Hreq in Hrun; injection Hrun as <- _; apply Hmapped.
  - intros key r Hrun.
    destruct (DeleteBlob_sent az mapHttpError key s s' r Hrun)
      as [(e & -> & _)|([->|(e & ->)] & _)];
      first [apply Hout|apply Herr].
  - intros polls param r Hrun.
    exact (CopyBlob_depth_one_of polls _ param s s' r Hrun).
  - intros param r Hrun. unfold GetBlob in Hrun.
    unfold bind at 1 in Hrun. unfold refreshToken, local in Hrun.
    destruct (az_refreshToken az (world s)) as [[e|] w0];
      [injection Hrun as <- _; apply Herr|].
    unfold bind, request in Hrun. cbn [world trace] in Hrun.
    destruct (az_Download az _ _ _ _ w0) as [[resp|err] w1];
      injection Hrun as <- _; [apply Hout|apply Hmapped].
  - intros param r Hrun.
    exact (PutBlob_sent (pb_Key param) param s s' r eq_refl Hrun).
  - intros param r Hrun. unfold MultipartBlobAdd in Hrun.
    unfold bind at 1 in Hrun. unfold refreshToken, local in Hrun.
    destruct (az_refreshToken az (world s)) as [[e|] w0];
      [injection Hrun as <- _; apply Herr|].
    unfold bind, request in Hrun. cbn [world trace] in Hrun.
    destruct (az_StageBlock az _ _ _ w0) as [[err|] w1];
      injection Hrun as <- _; [apply Hmapped|apply Hout].
  - intros param r Hrun. unfold MultipartBlobCopy in Hrun.
    unfold bind at 1 in Hrun. unfold refreshToken, local in Hrun.
    destruct (az_refreshToken az (world s)) as [[e|] w0];
      [injection Hrun as <- _; apply Herr|].
    unfold bind at 1 in Hrun.
    destruct (sasTokenProvider_nil b).
    + unfold local in Hrun. cbn [world trace] in Hrun.
      destruct (az_SignedURL az _ w0) as [[url|err] w1];
        [|injection Hrun as <- _; apply Herr].
      unfold bind, request in Hrun. cbn [world trace] in Hrun.
      destruct (az_StageBlockFromURL az _ _ _ _ _ w1) as [[err|] w2];
        injection Hrun as <- _; [apply Hmapped|apply Hout].
    + unfold ret, bind, request in Hrun. cbn [world trace] in Hrun.
      destruct (az_StageBlockFromURL az _ _ _ _ _ w0) as [[err|] w2];
        injection Hrun as <- _; [apply Hmapped|apply Hout].
  - intros param r Hrun. unfold MultipartBlobCommit in Hrun.
    unfold bind at 1 in Hrun. unfold refreshToken, local in Hrun.
    destruct (az_refreshToken az (world s)) as [[e|] w0];
      [injection Hrun as <- _; apply Herr|].
    destruct (commit_parts _ _ _) as [parts|]; [|discriminate Hrun].
    unfold bind, request in Hrun. cbn [world trace] in Hrun.
    destruct (az_CommitBlockList az _ _ _ w0) as [[resp|err] w1];
      injection Hrun as <- _; [apply Hout|apply Hmapped].
Qed.

End Results.

Lemma output_or_error_witness :
  match
    GetBlob Store.client Store.mapHttpError Store.PMetadata
      {| gb_Key := "missing"; gb_Start := 0; gb_Count := 0;
         gb_IfMatch := None |}
      (Store.start ∅ Store.no_listing)
  with
  | Done r _ => one_result r
  | Panicked => False
  end.
Proof.
  destruct (GetBlob Store.client Store.mapHttpError Store.PMetadata _
              (Store.start ∅ Store.no_listing)) as [r s'|] eqn:Hrun;
    [|vm_compute in Hrun; discriminate Hrun].
  destruct (output_or_error Store.client Store.azure Store.mapHttpError
              Store.PMetadata (Store.start ∅ Store.no_listing) s')
    as (_ & _ & _ & Hget & _).
  exact (Hget _ _ Hrun).
Defined.

(** ** ListBlobs: the content length of a listed blob *)
Section ListBlobsPanics.
Context {W : Type}.
Variable az : AzureClient W.
Variable b : AZBlob.
Variable mapHttpError : Z -> option error.
Variable PMetadata : gmap string string -> gmap string (option string).

Lemma ListBlobs_loop_None hasDelimiter blobItems :
  forall prefixes items sortItems,
  ListBlobs_loop PMetadata hasDelimiter blobItems prefixes items sortItems
  = None <->
  exists i, i ∈ blobItems /\ is_Some (listed_key hasDelimiter i) /\
            ContentLength (Properties i) = None.
Proof.
  induction blobItems as [|i rest IH]; intros prefixes items sortItems.
  - cbn. split; [discriminate|]. intros (i & Hin & _).
    now apply elem_of_nil in Hin.
  - cbn [ListBlobs_loop]. cbv zeta. fold (is_dir_blob i).
    assert (Hrest : forall P : BlobItemInternal -> Prop,
              ~ P i -> ((exists j, j ∈ i :: rest /\ P j) <->
                        (exists j, j ∈ rest /\ P j))).
    { intros P Hi. split; intros (j & Hin & Hj).
      - apply elem_of_cons in Hin as [->|Hin]; [contradiction|eauto].
      - exists j. split; [now right|exact Hj]. }
    destruct (is_dir_blob i && hasDelimiter) eqn:Hmerged.
    + rewrite IH. symmetry. apply Hrest.
      intros ([key Hkey] & _). unfold listed_key in Hkey.
      apply andb_true_iff in Hmerged as [Hdir Hdelimiter].
      rewrite Hdir, Hdelimiter in Hkey. discriminate Hkey.
    + assert (Hlisted : is_Some (listed_key hasDelimiter i)).
      { unfold listed_key. destruct (is_dir_blob i); [|eauto].
        cbn [andb] in Hmerged. rewrite Hmerged. eauto. }
      destruct (ContentLength (Properties i)) as [len|] eqn:Hlen.
      * rewrite IH. symmetry. apply Hrest.
        intros (_ & Hnone). congruence.
      * split; [intros _|reflexivity].
        exists i. split; [now left|]. now split.
Qed.

(** X24.  [ListBlobs] panics exactly when it has to make an item of a
    listed blob that has no content length; a directory blob that goes to
    the prefixes needs none.  In every other case it returns. *)
Theorem ListBlobs_panics_iff (param : ListBlobsInput) (s : St W) :
  ListBlobs az b mapHttpError PMetadata param s = Panicked <->
  lb_StartAfter param = None /\
  exists w0 resp w1,
    az_refreshToken az (world s) = (None, w0) /\
    list_request az param w0 = (inl resp, w1) /\
    lists_a_blob param resp = false /\
    exists i,
      i ∈ BlobItems resp /\
      is_Some (listed_key (bool_decide (is_Some (lb_Delimiter param))) i) /\
      ContentLength (Properties i) = None.
Proof.
  destruct (lb_StartAfter param) as [after|] eqn:Hstart.
  { unfold ListBlobs. rewrite Hstart. split; [discriminate|].
    intros [H _]. discriminate H. }
  destruct (az_refreshToken az (world s)) as [[e|] w0] eqn:Htoken.
  { unfold ListBlobs. rewrite Hstart.
    unfold bind, refreshToken, local. rewrite Htoken.
    split; [discriminate|]. intros (_ & w & resp & w1 & H & _).
    discriminate H. }
  destruct (list_request az param w0) as [[resp|err] w1] eqn:Hreq.
  - rewrite (ListBlobs_eq az b mapHttpError PMetadata param s w0 resp w1
               Hstart Htoken Hreq).
    cbv zeta.
    destruct (lists_a_blob param resp) eqn:Hblob.
    { split; [discriminate|].
      intros (_ & w & resp' & w1' & [= <-] & Hreq' & H & _).
      rewrite Hreq in Hreq'. injection Hreq' as <- <-. congruence. }
    destruct (ListBlobs_loop _ _ _ _ _ _) as [[[prefixes items] sortItems]|]
      eqn:Hloop.
    + split.
      * intros Hpanic. exfalso.
        destruct (HasSuffix (NilStr (lb_Prefix param)) "/");
          [|discriminate Hpanic].
        destruct (HeadBlob_returns az mapHttpError PMetadata
                    (NilStr (lb_Prefix param))
                    {| world := w1;
                       trace := trace s ++ [list_request_sent param] |})
          as (r & s2 & Hhead).
        rewrite Hhead in Hpanic.
        destruct (HeadBlob_run az mapHttpError PMetadata _ _ _ _ Hhead)
          as [_ [(e & -> & _)|[(o & -> & _)|(o & -> & _)]]];
          try discriminate Hpanic.
        destruct (is_ENOENT e); discriminate Hpanic.
      * intros (_ & w & resp' & w1' & [= <-] & Hreq' & _ & Hmissing).
        rewrite Hreq in Hreq'. injection Hreq' as <- <-.
        apply ListBlobs_loop_None with (prefixes := listed_prefixes b param resp)
          (items := []) (sortItems := false) in Hmissing.
        rewrite Hloop in Hmissing. discriminate Hmissing.
    + split; [intros _|reflexivity]. split; [reflexivity|].
      exists w0, resp, w1. split; [reflexivity|]. split; [exact Hreq|].
      split; [exact Hblob|].
      eapply ListBlobs_loop_None. exact Hloop.
  - split.
    + unfold ListBlobs. rewrite Hstart.
      unfold bind at 1. unfold refreshToken, local.
      rewrite Htoken. unfold bind at 1.
      unfold ListBlobs_segment. unfold list_request in Hreq.
      fold (list_options param).
      destruct (lb_Delimiter param) as [d|];
        unfold bind, request, ret; cbn [world trace];
        rewrite Hreq; discriminate.
    + intros (_ & w & resp & w1' & [= <-] & H & _).
      rewrite Hreq in H. discriminate H.
Qed.

End ListBlobsPanics.

(** ** A directory marker with an empty value *)
Section EmptyMarker.
Context {W : Type}.
Variable az : AzureClient W.
Variable b : AZBlob.
Variable mapHttpError : Z -> option error.
Variable PMetadata : gmap string string -> gmap string (option string).


End EmptyMarker.


Lemma token_without_expiry_is_kept_witness :
  exists b1,
    Token.updateToken Sas.ParseQuery Sas.time_Parse Sas.url_Parse Sas.TIME_MAX
      Sas.renewed Sas.provider [2000; 2001]
    = ((Token.c b1, None), b1, [2000; 2001]) /\
    Token.tokenExpire b1 = Sas.TIME_MAX /\
    Token.refreshToken Sas.Now Sas.ParseQuery Sas.time_Parse Sas.url_Parse
      Sas.TIME_MAX b1 [2000; 2001]
    = ((Token.c b1, None), b1, []).
Proof.
  destruct (token_without_expiry_is_kept Sas.Now Sas.ParseQuery Sas.time_Parse
              Sas.url_Parse Sas.TIME_MAX Sas.renewed Sas.provider
              [2000; 2001] "sig=abc" [2000; 2001]
              "https://account.blob.core.windows.net/?sig=abc"
              eq_refl ltac:(cbn; lia) eq_refl eq_refl
              (or_intror (ex_intro _ ∅ (conj eq_refl (or_introl eq_refl)))))
    as (b1 & Hupdate & _ & Hexpire & Hkept).
  exists b1. split; [exact Hupdate|]. split; [exact Hexpire|].
  apply (Hkept [2000; 2001] 2000 [2001] 2001 [] eq_refl eq_refl);
    unfold Sas.TIME_MAX; lia.
Defined.

(** ** A blob whose name ends in a slash *)
Section SlashNames.
Context {W : Type}.
Variable az : AzureClient W.
Variable mapHttpError : Z -> option error.
Variable PMetadata : gmap string string -> gmap string (option string).

(** X27.  [PutBlob] without [DirBlob] uploads under the key as it is, a
    slash at its end included, and adds no directory marker.  A blob that
    is stored under such a name is out of the reach of [HeadBlob] and
    [DeleteBlob]: whatever key they are called with, the name in their
    request has no slash at its end, so it is never that name. *)
Theorem PutBlob_slash_name_out_of_reach (param : PutBlobInput)
    (s s' : St W) out :
  pb_DirBlob param = false ->
  HasSuffix (pb_Key param) "/" = true ->
  PutBlob az mapHttpError param s = Done (Some out, None) s' ->
  trace s' = trace s ++
    [ReqUpload (pb_Key param) (put_body param) (NilStr (pb_ContentType param))
       (nilMetadata (pb_Metadata param))] /\
  (forall key (s1 s1' : St W) r,
     HeadBlob az mapHttpError PMetadata key s1 = Done r s1' ->
     trace s1' = trace s1 \/
     exists name, trace s1' = trace s1 ++ [ReqGetProperties name] /\
                  name <> pb_Key param) /\
  (forall key (s1 s1' : St W) r,
     DeleteBlob az mapHttpError key s1 = Done r s1' ->
     trace s1' = trace s1 \/
     exists name, trace s1' = trace s1 ++ [ReqDelete name] /\
                  name <> pb_Key param).
Proof.
  intros Hdir Hslash Hrun.
  assert (Hother : forall key, blob_name_of key <> pb_Key param).
  { intros key Heq. pose proof (blob_name_of_no_slash key) as Hno.
    rewrite Heq in Hno. congruence. }
  split; [|split].
  - pose proof (PutBlob_cases az mapHttpError (pb_Key param) param s eq_refl)
      as Hcases.
    unfold put_refreshes, put_request, put_name, put_metadata in Hcases.
    rewrite Hdir in Hcases. cbn [andb] in Hcases.
    destruct (refreshed az 1 (world s)) as [w|].
    + rewrite Hcases in Hrun.
      destruct (az_Upload az _ _ _ _ w) as [[resp|err] w'];
        [|discriminate Hrun].
      injection Hrun as _ <-. reflexivity.
    + destruct Hcases as (e & s1 & Heq & _). rewrite Heq in Hrun.
      discriminate Hrun.
  - intros key s1 s1' r Hhead.
    destruct (HeadBlob_run az mapHttpError PMetadata key s1 s1' r Hhead)
      as [_ [(e & _ & [Htr|Htr])|[(o & _ & _ & _ & Htr)
                                 |(o & _ & _ & _ & _ & Htr)]]];
      [now left|right..]; exists (blob_name_of key); now split.
  - intros key s1 s1' r Hdelete.
    destruct (DeleteBlob_sent az mapHttpError key s1 s1' r Hdelete)
      as [(e & _ & Htr)|(_ & Htr)]; [now left|right].
    exists (blob_name_of key). now split.
Qed.

End SlashNames.

Lemma PutBlob_slash_name_out_of_reach_witness :
  let param := {| pb_Key := "a/"; pb_Metadata := ∅; pb_ContentType := None;
                  pb_DirBlob := false; pb_Body := Some "x" |} in
  match
    PutBlob Store.client Store.mapHttpError param
      (Store.start ∅ Store.no_listing)
  with
  | Done (Some _, None) s' =>
      trace s' = [ReqUpload "a/" "x" "" ∅] /\
      match HeadBlob Store.client Store.mapHttpError Store.PMetadata "a/" s' with
      | Done _ s2 => trace s2 = trace s' ++ [ReqGetProperties "a"]
      | Panicked => False
      end
  | _ => False
  end.
Proof.
  intros param.
  destruct (PutBlob Store.client Store.mapHttpError param
              (Store.start ∅ Store.no_listing))
    as [[[out|] [e|]] s'|] eqn:Hrun;
    try (vm_compute in Hrun; discriminate Hrun).
  destruct (PutBlob_slash_name_out_of_reach Store.client Store.mapHttpError
              Store.PMetadata param _ s' out eq_refl eq_refl Hrun)
    as (Htrace & _ & _).
  split; [exact Htrace|].
  vm_compute in Hrun. injection Hrun as _ <-. vm_compute. reflexivity.
Defined.
